(** * Jataayu backend: notification service, registration flow, event fan-out

    A shallow embedding of the request handlers of
    [routes/eventRegistrations.js], [routes/events.js] (event creation and
    deletion), [routes/notifications.js], [routes/users.js] (deletions and
    role change), of [services/notificationService.js] and
    [middleware/isAdmin.js], over an explicit model of the document store;
    and of the route tables of the events and initiatives routers, the file
    categorisation of [routes/initiatives.js] and the socket registry of the
    server.

    Conventions of the embedding.
    - A Mongo collection is the list of its documents in insertion order.
    - An ObjectId is the string it renders to; [toString()] and the [id]
      virtual are the identity.  A text of a request that is used as an
      identifier is cast by the driver ([cast_ObjectId], [findById]): a text
      that is no ObjectId makes the query reject, and the letter case of
      the hexadecimal digits is immaterial.
    - A string is the sequence of the bytes of its UTF-8 encoding.
    - Time is the field [now] of the world ([Date.now()]); identifiers of new
      documents are drawn from the counter [nextOid].
    - A persistence write may fail.  The world carries the outcomes of the
      upcoming writes, [faults], one flag per write, [true] for a failing
      write; when the list is exhausted writes succeed.
    - [async] handlers are functions from the world to a response and the
      world that results; exceptions are the [Throw] outcome of the monad
      [M], and [try]/[catch] is [try_catch].  [console.error] is not
      modelled. *)

From Stdlib Require Import String Ascii List Bool Arith PeanoNat ZArith Lia.
From Stdlib Require Import Permutation Sorted DecimalString.
Import ListNotations.
Open Scope string_scope.

Set Implicit Arguments.

(* ------------------------------------------------------------------ *)
(** ** JavaScript values used by the handlers *)

Definition ObjectId := string.

(** The double quote, for template literals that contain one. *)
Definition dq : string := String (ascii_of_nat 34) EmptyString.

(** [s.includes(sub)] on strings, as a proposition. *)
Definition contains (sub s : string) : Prop :=
  exists pre post, s = pre ++ sub ++ post.

(** [arr.includes(x)] on arrays of strings. *)
Definition includes (l : list string) (x : string) : bool :=
  existsb (String.eqb x) l.

(** [[...new Set(l)]] on strings: a Set keeps the first occurrence of each
    value, in insertion order; strings are compared by value. *)
Fixpoint set_add (seen : list string) (x : string) : list string :=
  match seen with
  | [] => [x]
  | y :: seen' => if String.eqb x y then seen else y :: set_add seen' x
  end.

Definition new_Set (l : list string) : list string :=
  fold_left set_add l [].

(** Lower case of the ASCII letters. *)
Definition lower_ascii (c : ascii) : ascii :=
  let n := nat_of_ascii c in
  if (65 <=? n)%nat && (n <=? 90)%nat then ascii_of_nat (n + 32) else c.

Fixpoint lower (s : string) : string :=
  match s with
  | EmptyString => EmptyString
  | String c r => String (lower_ascii c) (lower r)
  end.

(** The cast of a text to an ObjectId, as the driver does it for the
    conditions of a query and for the paths of a document: a text of 24
    hexadecimal digits, in either letter case, denotes the id that renders
    to its lower-case form; any other text has no cast. *)
Definition is_hex (c : ascii) : bool :=
  let n := nat_of_ascii c in
  ((48 <=? n)%nat && (n <=? 57)%nat)
  || ((97 <=? n)%nat && (n <=? 102)%nat)
  || ((65 <=? n)%nat && (n <=? 70)%nat).

Definition cast_ObjectId (text : string) : option ObjectId :=
  if (String.length text =? 24)%nat
     && forallb is_hex (list_ascii_of_string text)
  then Some (lower text) else None.

(** The casts of the texts of an array path; none when a text has no cast. *)
Fixpoint cast_all (texts : list string) : option (list ObjectId) :=
  match texts with
  | [] => Some []
  | text :: rest =>
      match cast_ObjectId text, cast_all rest with
      | Some id, Some ids => Some (id :: ids)
      | _, _ => None
      end
  end.

(** White space, for [trim]: the characters of the class [\s] of a regular
    expression.  [is_space] recognises those of one byte (tab, line feed,
    vertical tab, form feed, carriage return, space); [is_space2] the
    encoding of U+00A0; [is_space3] those of U+1680, U+2000 to U+200A,
    U+2028, U+2029, U+202F, U+205F, U+3000 and U+FEFF. *)
Definition is_space (c : ascii) : bool :=
  let n := nat_of_ascii c in
  ((9 <=? n)%nat && (n <=? 13)%nat) || (n =? 32)%nat.

Definition is_space2 (c1 c2 : ascii) : bool :=
  (nat_of_ascii c1 =? 194)%nat && (nat_of_ascii c2 =? 160)%nat.

Definition is_space3 (c1 c2 c3 : ascii) : bool :=
  let n1 := nat_of_ascii c1 in
  let n2 := nat_of_ascii c2 in
  let n3 := nat_of_ascii c3 in
  ((n1 =? 225)%nat && (n2 =? 154)%nat && (n3 =? 128)%nat)
  || ((n1 =? 226)%nat && (n2 =? 128)%nat
      && (((128 <=? n3)%nat && (n3 <=? 138)%nat)
          || (n3 =? 168)%nat || (n3 =? 169)%nat || (n3 =? 175)%nat))
  || ((n1 =? 226)%nat && (n2 =? 129)%nat && (n3 =? 159)%nat)
  || ((n1 =? 227)%nat && (n2 =? 128)%nat && (n3 =? 128)%nat)
  || ((n1 =? 239)%nat && (n2 =? 187)%nat && (n3 =? 191)%nat).

(** [ltrim]: the text without its leading white space. *)
Fixpoint ltrim (s : string) : string :=
  match s with
  | EmptyString => EmptyString
  | String c1 r1 =>
      if is_space c1 then ltrim r1
      else
        match r1 with
        | EmptyString => s
        | String c2 r2 =>
            if is_space2 c1 c2 then ltrim r2
            else
              match r2 with
              | EmptyString => s
              | String c3 r3 => if is_space3 c1 c2 c3 then ltrim r3 else s
              end
        end
  end.

(** [rtrim]: the text is cut where only white space follows. *)
Fixpoint rtrim (s : string) : string :=
  match s with
  | EmptyString => EmptyString
  | String c r =>
      match ltrim s with
      | EmptyString => EmptyString
      | _ => String c (rtrim r)
      end
  end.

(** [trim(str)] of the validation library: [rtrim(ltrim(str))]. *)
Definition trim (s : string) : string := rtrim (ltrim s).

(** Rendering of the id counter. *)
Definition oid (n : nat) : ObjectId :=
  "oid" ++ NilEmpty.string_of_uint (Nat.to_uint n).

(** [cursor.sort({ key: -1 })]: a stable sort, largest key first. *)
Section Sort.
Variable A : Type.
Variable key : A -> nat.

Fixpoint insert_desc (x : A) (l : list A) : list A :=
  match l with
  | [] => [x]
  | y :: l' => if (key y <? key x)%nat then x :: l else y :: insert_desc x l'
  end.

Definition sort_desc (l : list A) : list A :=
  fold_right insert_desc [] l.
End Sort.

(* ------------------------------------------------------------------ *)
(** ** Documents *)

(** Modelled from the spec: the User schema ([models/User.js]): identifier,
    name, email, role, optional district and official role. *)
Record User := mkUser {
  user_id : ObjectId;
  user_name : string;
  user_email : string;
  user_role : string;
  user_district : option string;
  user_officialRole : option string
}.

(** [models/Event.js]. *)
Record Image := mkImage { image_url : string; image_publicId : string }.

Record Report := mkReport {
  report_filename : string;
  report_size : nat;
  report_mimetype : string;
  report_fileUrl : string;
  report_publicId : string
}.

Record Event := mkEvent {
  event_id : ObjectId;
  event_title : string;
  event_description : string;
  event_location : string;
  event_district : string;
  event_date : string;
  event_time : option string;
  event_images : list Image;
  event_reports : list Report;
  event_createdBy : ObjectId;
  event_createdAt : nat
}.

(** The schema of [models/Event.js] declares no path [sharedWith], so the
    document has no such property: reading [event.sharedWith] gives
    [undefined], here [None]. *)
Definition event_sharedWith (e : Event) : option (list ObjectId) := None.

(** Modelled from the spec: the EventRegistration schema
    ([models/EventRegistration.js]): reference to the event, the registrant's
    contact and demographic fields, a free-text status, the users the
    registration is shared with, and the creation time. *)
Record EventRegistration := mkRegistration {
  reg_id : ObjectId;
  reg_event : ObjectId;
  reg_name : string;
  reg_email : string;
  reg_phone : string;
  reg_age : Z;
  reg_gender : string;
  reg_address : string;
  reg_district : string;
  reg_taluka : string;
  reg_village : string;
  reg_status : string;
  reg_sharedWith : list ObjectId;
  reg_createdAt : nat
}.

(** [models/Notification.js]. *)
Record Notification := mkNotification {
  notif_id : ObjectId;
  notif_recipient : ObjectId;
  notif_title : string;
  notif_message : string;
  notif_type : string;
  notif_read : bool;
  notif_link : option string;
  notif_createdAt : nat
}.

(* ------------------------------------------------------------------ *)
(** ** The world: collections, clock, id counter, write outcomes *)

Record World := mkWorld {
  users : list User;
  events : list Event;
  registrations : list EventRegistration;
  notifications : list Notification;
  now : nat;
  nextOid : nat;
  faults : list bool
}.

Definition set_events (f : list Event -> list Event) (w : World) : World :=
  mkWorld (users w) (f (events w)) (registrations w) (notifications w)
          (now w) (nextOid w) (faults w).

Definition set_registrations
  (f : list EventRegistration -> list EventRegistration) (w : World) : World :=
  mkWorld (users w) (events w) (f (registrations w)) (notifications w)
          (now w) (nextOid w) (faults w).

Definition set_notifications
  (f : list Notification -> list Notification) (w : World) : World :=
  mkWorld (users w) (events w) (registrations w) (f (notifications w))
          (now w) (nextOid w) (faults w).

Definition set_nextOid (n : nat) (w : World) : World :=
  mkWorld (users w) (events w) (registrations w) (notifications w)
          (now w) n (faults w).

Definition set_faults (fs : list bool) (w : World) : World :=
  mkWorld (users w) (events w) (registrations w) (notifications w)
          (now w) (nextOid w) fs.

(* ------------------------------------------------------------------ *)
(** ** Exceptions and the handler monad *)

Inductive Error :=
| MongoError                       (* a write rejected by the store *)
| ValidatorError (path : string)   (* a schema validator rejected [path] *)
| TypeError (msg : string)         (* property access on [undefined] *)
| PlainError (msg : string)        (* [new Error(msg)] *)
| UploadError (name : string)      (* rejection of an upload, with its [name] *)
| CastError (value path model : string).
                                   (* a text that is no ObjectId, in a query *)

Definition error_name (e : Error) : string :=
  match e with
  | MongoError => "MongoError"
  | ValidatorError _ => "ValidationError"
  | TypeError _ => "TypeError"
  | PlainError _ => "Error"
  | UploadError name => name
  | CastError _ _ _ => "CastError"
  end.

Inductive Outcome (A : Type) :=
| Ok (a : A)
| Throw (e : Error).
Arguments Ok {A} a.
Arguments Throw {A} e.

Definition M (A : Type) := World -> Outcome A * World.

Definition ret {A} (a : A) : M A := fun w => (Ok a, w).

Definition throw {A} (e : Error) : M A := fun w => (Throw e, w).

Definition bind {A B} (m : M A) (k : A -> M B) : M B :=
  fun w =>
    match m w with
    | (Ok a, w') => k a w'
    | (Throw e, w') => (Throw e, w')
    end.

Declare Scope handler_scope.
Delimit Scope handler_scope with handler.
Notation "x <- m ;; k" := (bind m (fun x => k))
  (at level 100, m at next level, right associativity) : handler_scope.
Notation "m ;;; k" := (bind m (fun _ => k))
  (at level 100, right associativity) : handler_scope.
Open Scope handler_scope.

(** [try { m } catch (err) { h err }] where the handler itself does not
    throw. *)
Definition try_catch {A} (m : M A) (h : Error -> A) : World -> A * World :=
  fun w =>
    match m w with
    | (Ok a, w') => (a, w')
    | (Throw e, w') => (h e, w')
    end.

Definition get {A} (f : World -> A) : M A := fun w => (Ok (f w), w).

(** One persistence write: it consumes the next outcome flag and, when the
    write succeeds, applies the update. *)
Definition db_write (update : World -> World) : M unit :=
  fun w =>
    match faults w with
    | true :: fs => (Throw MongoError, set_faults fs w)
    | false :: fs => (Ok tt, update (set_faults fs w))
    | [] => (Ok tt, update w)
    end.

(** A fresh ObjectId for a document under construction. *)
Definition new_ObjectId : M ObjectId :=
  fun w => (Ok (oid (nextOid w)), set_nextOid (S (nextOid w)) w).

(** The document of a collection with a given [_id]. *)
Definition Event_findById (id : ObjectId) (l : list Event) : option Event :=
  find (fun e => String.eqb (event_id e) id) l.

Definition EventRegistration_findById (id : ObjectId)
  (l : list EventRegistration) : option EventRegistration :=
  find (fun r => String.eqb (reg_id r) id) l.

(** [Model.findById(text)] and [Model.findOne({ _id: text, ... })] on a text
    of the request.  The stored identifiers are ObjectIds, on which the cast
    is the identity, so a document stored under the very text is the one
    the query finds.  Any other text is cast: without a cast the query
    rejects with a CastError, and with one the document is looked up under
    the id the text denotes.  A reference read from a stored document is an
    ObjectId already and is looked up as it is. *)
Definition findById {A} (model : string)
  (lookup : ObjectId -> list A -> option A) (text : string) (l : list A)
  : M (option A) :=
  match lookup text l with
  | Some doc => ret (Some doc)
  | None =>
      match cast_ObjectId text with
      | None => throw (CastError text "_id" model)
      | Some id => ret (lookup id l)
      end
  end.

(** [doc.save()] of a document loaded from the store: the stored document
    with the same [_id] is replaced. *)
Definition replace_registration (r : EventRegistration)
  (l : list EventRegistration) : list EventRegistration :=
  map (fun d => if String.eqb (reg_id d) (reg_id r) then r else d) l.

(* ------------------------------------------------------------------ *)
(** ** HTTP responses *)

Record FieldError := mkFieldError { fe_param : string; fe_msg : string }.

Record NotificationPage := mkPage {
  page_notifications : list Notification;
  page_totalPages : option Z;     (* [None]: not a finite number *)
  page_currentPage : Z
}.

Inductive Body :=
| JsonErrors (errors : list FieldError)      (* { errors: [...] } *)
| JsonMsg (msg : string)                     (* { msg } *)
| JsonMessage (message : string)             (* { message } *)
| JsonMessageError (message error : string)  (* { message, error } *)
| Text (s : string)                          (* res.send(s) *)
| JsonRegistration (r : EventRegistration)
| JsonRegistrations (rs : list EventRegistration)
| JsonEvent (e : Event).

Record Response := mkResponse { status : nat; body : Body }.

(** The error taxonomy, by status code. *)
Definition ValidationError : nat := 400.
Definition Forbidden : nat := 403.
Definition NotFound : nat := 404.
Definition ServerError : nat := 500.

(* ------------------------------------------------------------------ *)
(** ** services/notificationService.js *)

(** The schema validators of [models/Notification.js] that run on save:
    [title] and [message] are required strings, [type] is one of the enum. *)
Definition notification_types : list string :=
  ["info"; "success"; "warning"; "error"].

Definition validate_notification (n : Notification) : option Error :=
  if String.eqb (notif_title n) "" then Some (ValidatorError "title")
  else if String.eqb (notif_message n) "" then Some (ValidatorError "message")
  else if negb (includes notification_types (notif_type n))
       then Some (ValidatorError "type")
  else None.

Definition Notification_save (n : Notification) : M unit :=
  match validate_notification n with
  | Some e => throw e
  | None => db_write (set_notifications (fun l => (l ++ [n])%list))
  end.

(** [createNotification]: the catch block logs and rethrows, so an exception
    of the save reaches the caller unchanged. *)
Definition createNotification (recipientId : ObjectId) (title message : string)
  (type : string) (link : option string) : M Notification :=
  id <- new_ObjectId ;;
  t <- get now ;;
  let notification :=
    mkNotification id recipientId title message type false link t in
  Notification_save notification ;;;
  ret notification.

(** Cursor operations. *)
Definition cursor_skip {A} (n : Z) (l : list A) : M (list A) :=
  if (n <? 0)%Z then throw MongoError else ret (skipn (Z.to_nat n) l).

Definition cursor_limit {A} (n : Z) (l : list A) : list A :=
  if (n =? 0)%Z then l else firstn (Z.abs_nat n) l.

(** [Math.ceil(a / b)] on integers; [None] when the quotient is not a finite
    number.  The operands are counts and page sizes, far below 2^53, where
    the ceiling of the floating-point quotient is that of the exact one. *)
Definition Math_ceil_div (a b : Z) : option Z :=
  if (b =? 0)%Z then None else Some (- ((- a) / b))%Z.

Definition for_recipient (userId : ObjectId) (n : Notification) : bool :=
  String.eqb (notif_recipient n) userId.

Definition getUserNotifications (userId : ObjectId) (page limit : Z)
  : M NotificationPage :=
  all <- get notifications ;;
  let sorted := sort_desc notif_createdAt (filter (for_recipient userId) all) in
  skipped <- cursor_skip ((page - 1) * limit)%Z sorted ;;
  let notifs := cursor_limit limit skipped in
  let total := Z.of_nat (length (filter (for_recipient userId) all)) in
  ret (mkPage notifs (Math_ceil_div total limit) page).

Definition mark_read (n : Notification) : Notification :=
  mkNotification (notif_id n) (notif_recipient n) (notif_title n)
    (notif_message n) (notif_type n) true (notif_link n) (notif_createdAt n).

(** The notification with a given [_id] that a given user receives. *)
Definition Notification_findOne (userId id : ObjectId) (l : list Notification)
  : option Notification :=
  find (fun n => String.eqb (notif_id n) id && for_recipient userId n) l.

Definition markAsRead (notificationId : string) (userId : ObjectId)
  : M Notification :=
  all <- get notifications ;;
  found <- findById "Notification" (Notification_findOne userId)
             notificationId all ;;
  match found with
  | None => throw (PlainError "Notification not found")
  | Some notification =>
      let notification := mark_read notification in
      db_write (set_notifications
        (map (fun d => if String.eqb (notif_id d) (notif_id notification)
                       then notification else d))) ;;;
      ret notification
  end.

Definition unread_for (userId : ObjectId) (n : Notification) : bool :=
  for_recipient userId n && negb (notif_read n).

(** [updateMany({ recipient, read: false }, { read: true })] *)
Definition mark_if_unread (userId : ObjectId) (n : Notification) : Notification :=
  if unread_for userId n then mark_read n else n.

Definition markAllAsRead (userId : ObjectId) : M unit :=
  db_write (set_notifications (map (mark_if_unread userId))).

Definition getUnreadCount (userId : ObjectId) : M nat :=
  all <- get notifications ;;
  ret (length (filter (unread_for userId) all)).

(* ------------------------------------------------------------------ *)
(** ** middleware/isAdmin.js *)

Inductive Guard :=
| Next                          (* [next()] *)
| Reject (r : Response).        (* the guard answered itself *)

Definition isAdmin (req_user : option User) : Guard :=
  match req_user with
  | None =>
      Reject (mkResponse 403
        (JsonMessage "Access denied. Admin or Official member only."))
  | Some user =>
      if negb (String.eqb (user_role user) "admin")
         && negb (String.eqb (user_role user) "Official_member")
      then Reject (mkResponse 403
             (JsonMessage "Access denied. Admin or Official member only."))
      else Next
  end.

(* ------------------------------------------------------------------ *)
(** ** Request validation (express-validator) *)

(** [isEmpty()]: the empty string; an absent field reads as the empty
    string. *)
Definition isEmpty (s : string) : bool := String.eqb s "".

(** [isIn(values)] *)
Definition isIn (values : list string) (s : string) : bool := includes values s.

(** [isInt({ min })]: an optional sign followed by one or more decimal
    digits, denoting an integer that is at least [min]. *)
Definition digit_of (c : ascii) : option Z :=
  let n := nat_of_ascii c in
  if (48 <=? n)%nat && (n <=? 57)%nat then Some (Z.of_nat (n - 48)) else None.

Fixpoint parse_digits (acc : Z) (s : string) : option Z :=
  match s with
  | EmptyString => Some acc
  | String c r =>
      match digit_of c with
      | Some d => parse_digits (10 * acc + d)%Z r
      | None => None
      end
  end.

Definition parse_unsigned (s : string) : option Z :=
  match s with
  | EmptyString => None
  | _ => parse_digits 0%Z s
  end.

Definition parse_int (s : string) : option Z :=
  match s with
  | EmptyString => None
  | String c r =>
      if Ascii.eqb c "-" then option_map Z.opp (parse_unsigned r)
      else if Ascii.eqb c "+" then parse_unsigned r
      else parse_unsigned s
  end.

Definition isInt_min (min : Z) (s : string) : bool :=
  match parse_int s with
  | Some z => (min <=? z)%Z
  | None => false
  end.

(** One validation chain: its field, its message, and whether the value
    passes. *)
Record Check := mkCheck { check_field : string; check_msg : string; check_ok : bool }.

(** [validationResult(req).array()]: one error per failing chain, in the
    order of the chains. *)
Definition errors_of (checks : list Check) : list FieldError :=
  map (fun c => mkFieldError (check_field c) (check_msg c))
      (filter (fun c => negb (check_ok c)) checks).

Definition is_nil {A} (l : list A) : bool :=
  match l with [] => true | _ => false end.

(* ------------------------------------------------------------------ *)
(** ** Promises *)

(** A promise that has settled. *)
Definition Promise (A : Type) := Outcome A.

(** Calling an [async] function without awaiting it: its effects happen, its
    outcome is held by the promise and nothing is thrown. *)
Definition start {A} (m : M A) : M (Promise A) :=
  fun w => let (o, w') := m w in (Ok o, w').

(** [l.map(f)] where [f] returns [null] or the promise of a call it
    started. *)
Fixpoint map_start {A B} (f : A -> option (M B)) (l : list A)
  : M (list (option (Promise B))) :=
  match l with
  | [] => ret []
  | x :: l' =>
      p <- match f x with
           | None => ret None
           | Some m => (q <- start m ;; ret (Some q))
           end ;;
      ps <- map_start f l' ;;
      ret (p :: ps)
  end.

(** [ps.filter(Boolean)] *)
Fixpoint filter_Boolean {A} (ps : list (option A)) : list A :=
  match ps with
  | [] => []
  | None :: ps' => filter_Boolean ps'
  | Some p :: ps' => p :: filter_Boolean ps'
  end.

(** [await Promise.all(ps)]: the values when every promise fulfilled, and
    otherwise the exception of a rejected one. *)
Fixpoint Promise_all {A} (ps : list (Promise A)) : M (list A) :=
  match ps with
  | [] => ret []
  | Ok a :: ps' => (rest <- Promise_all ps' ;; ret (a :: rest))
  | Throw e :: _ => throw e
  end.

(* ------------------------------------------------------------------ *)
(** ** routes/eventRegistrations.js *)

Record RegistrationBody := mkRegBody {
  rb_event : string;
  rb_name : string;
  rb_email : string;
  rb_phone : string;
  rb_age : string;
  rb_gender : string;
  rb_address : string;
  rb_district : string;
  rb_taluka : string;
  rb_village : string
}.

Definition genders : list string := ["male"; "female"; "other"].

Section Registrations.
(** [isEmail()] of the validation library. *)
Variable isEmail : string -> bool.

Definition registration_checks (b : RegistrationBody) : list Check :=
  [ mkCheck "event" "Event ID is required" (negb (isEmpty (rb_event b)));
    mkCheck "name" "Name is required" (negb (isEmpty (rb_name b)));
    mkCheck "email" "Please include a valid email" (isEmail (rb_email b));
    mkCheck "phone" "Phone number is required" (negb (isEmpty (rb_phone b)));
    mkCheck "age" "Age is required" (isInt_min 1 (rb_age b));
    mkCheck "gender" "Gender is required" (isIn genders (rb_gender b));
    mkCheck "address" "Address is required" (negb (isEmpty (rb_address b)));
    mkCheck "district" "District is required" (negb (isEmpty (rb_district b)));
    mkCheck "taluka" "Taluka is required" (negb (isEmpty (rb_taluka b)));
    mkCheck "village" "Village is required" (negb (isEmpty (rb_village b))) ].

Definition validationResult (b : RegistrationBody) : list FieldError :=
  errors_of (registration_checks b).

(** [new EventRegistration({ ...req.body, status: 'pending' })]: the
    literal [status] overrides a status key of the body; the text of
    [event] is cast, to the id of the event it was found under; [age] is
    cast to the number its text denotes, and a text that denotes none makes
    the save throw before anything is written. *)
Definition new_EventRegistration (b : RegistrationBody) (event : ObjectId)
  : M EventRegistration :=
  id <- new_ObjectId ;;
  t <- get now ;;
  match parse_int (rb_age b) with
  | None => throw (ValidatorError "age")
  | Some age =>
      ret (mkRegistration id event (rb_name b) (rb_email b)
             (rb_phone b) age (rb_gender b) (rb_address b) (rb_district b)
             (rb_taluka b) (rb_village b) "pending" [] t)
  end.

Definition register (b : RegistrationBody) : World -> Response * World :=
  let errors := validationResult b in
  if negb (is_nil errors) then
    fun w => (mkResponse 400 (JsonErrors errors), w)
  else
    try_catch
      (evs <- get events ;;
       found <- findById "Event" Event_findById (rb_event b) evs ;;
       match found with
       | None => ret (mkResponse 404 (JsonMsg "Event not found"))
       | Some event =>
           registration <- new_EventRegistration b (event_id event) ;;
           db_write (set_registrations
                       (fun l => (l ++ [registration])%list)) ;;;
           createNotification (event_createdBy event)
             "New Event Registration"
             (reg_name registration ++ " has registered for your event "
                ++ dq ++ event_title event ++ dq)
             "info"
             (Some ("/event-registrations/" ++ event_id event)) ;;;
           ret (mkResponse 200 (JsonRegistration registration))
       end)
      (fun _ => mkResponse 500 (Text "Server Error")).
End Registrations.

(** The condition [{ event: req.params.eventId }] of the query is cast as
    the text was for [findById]: to the id of the event found. *)
Definition listForEvent (req_user : User) (eventId : string)
  : World -> Response * World :=
  try_catch
    (evs <- get events ;;
     found <- findById "Event" Event_findById eventId evs ;;
     match found with
     | None => ret (mkResponse 404 (JsonMsg "Event not found"))
     | Some event =>
         (* createdBy !== req.user.id && !event.sharedWith.includes(...) *)
         denied <-
           (if negb (String.eqb (event_createdBy event) (user_id req_user))
            then match event_sharedWith event with
                 | None =>
                     throw (TypeError
                       "Cannot read properties of undefined (reading 'includes')")
                 | Some shared =>
                     ret (negb (includes shared (user_id req_user)))
                 end
            else ret false) ;;
         if denied then ret (mkResponse 403 (JsonMsg "Not authorized"))
         else
           regs <- get registrations ;;
           ret (mkResponse 200 (JsonRegistrations
                  (sort_desc reg_createdAt
                     (filter (fun r => String.eqb (reg_event r) (event_id event))
                             regs))))
     end)
    (fun _ => mkResponse 500 (Text "Server Error")).

Definition with_sharedWith (l : list ObjectId) (r : EventRegistration)
  : EventRegistration :=
  mkRegistration (reg_id r) (reg_event r) (reg_name r) (reg_email r)
    (reg_phone r) (reg_age r) (reg_gender r) (reg_address r) (reg_district r)
    (reg_taluka r) (reg_village r) (reg_status r) l (reg_createdAt r).

Definition with_status (st : string) (r : EventRegistration)
  : EventRegistration :=
  mkRegistration (reg_id r) (reg_event r) (reg_name r) (reg_email r)
    (reg_phone r) (reg_age r) (reg_gender r) (reg_address r) (reg_district r)
    (reg_taluka r) (reg_village r) st (reg_sharedWith r) (reg_createdAt r).

(** The id a text is stored as: its cast, where it has one. *)
Definition canonical (text : string) : ObjectId :=
  match cast_ObjectId text with
  | Some id => id
  | None => text
  end.

(** [for (const userId of userIds) await createNotification(...)]: the
    recipient of a notification is the cast of the text; the loop runs after
    the save, which has cast every text of the body. *)
Fixpoint notify_shared (event : Event) (userIds : list string) : M unit :=
  match userIds with
  | [] => ret tt
  | userId :: rest =>
      createNotification (canonical userId)
        "Event Registration Shared"
        ("Event registration for " ++ dq ++ event_title event ++ dq
           ++ " has been shared with you")
        "info"
        (Some ("/event-registrations/" ++ event_id event)) ;;;
      notify_shared event rest
  end.

(** [userIds] is [None] when the body has no array under that key.
    [[...new Set([...registration.sharedWith, ...userIds])]]: the stored
    references are ObjectId objects, and a Set compares objects by identity,
    so each of them is an element of its own, equal to no other reference
    and to no string of the body; the strings of the body are compared by
    value, among themselves.  The assignment casts the strings, and
    [save()] fails validation when one has no cast. *)
Definition share (req_user : User) (registrationId : string)
  (userIds : option (list string)) : World -> Response * World :=
  try_catch
    (regs <- get registrations ;;
     found <- findById "EventRegistration" EventRegistration_findById
                registrationId regs ;;
     match found with
     | None => ret (mkResponse 404 (JsonMsg "Registration not found"))
     | Some registration =>
         evs <- get events ;;
         match Event_findById (reg_event registration) evs with
         | None => ret (mkResponse 404 (JsonMsg "Event not found"))
         | Some event =>
             if negb (String.eqb (event_createdBy event) (user_id req_user))
             then ret (mkResponse 403 (JsonMsg "Not authorized"))
             else
               match userIds with
               | Some ids =>
                   match cast_all (new_Set ids) with
                   | None => throw (ValidatorError "sharedWith")
                   | Some added =>
                       let registration :=
                         with_sharedWith
                           (reg_sharedWith registration ++ added)%list
                           registration in
                       db_write (set_registrations
                                   (replace_registration registration)) ;;;
                       notify_shared event ids ;;;
                       ret (mkResponse 200 (JsonRegistration registration))
                   end
               | None => ret (mkResponse 200 (JsonRegistration registration))
               end
         end
     end)
    (fun _ => mkResponse 500 (Text "Server Error")).

Definition updateStatus (req_user : User) (registrationId : string)
  (newStatus : string) : World -> Response * World :=
  try_catch
    (regs <- get registrations ;;
     found <- findById "EventRegistration" EventRegistration_findById
                registrationId regs ;;
     match found with
     | None => ret (mkResponse 404 (JsonMsg "Registration not found"))
     | Some registration =>
         evs <- get events ;;
         match Event_findById (reg_event registration) evs with
         | None => ret (mkResponse 404 (JsonMsg "Event not found"))
         | Some event =>
             if negb (String.eqb (event_createdBy event) (user_id req_user))
             then ret (mkResponse 403 (JsonMsg "Not authorized"))
             else
               let oldStatus := reg_status registration in
               let registration := with_status newStatus registration in
               db_write (set_registrations
                           (replace_registration registration)) ;;;
               createNotification (reg_id registration)
                 "Registration Status Updated"
                 ("Your registration status for " ++ dq ++ event_title event
                    ++ dq ++ " has been updated from " ++ oldStatus ++ " to "
                    ++ newStatus)
                 "info"
                 (Some ("/events/" ++ event_id event)) ;;;
               ret (mkResponse 200 (JsonRegistration registration))
         end
     end)
    (fun _ => mkResponse 500 (Text "Server Error")).

(* ------------------------------------------------------------------ *)
(** ** routes/events.js: event creation *)

Record EventBody := mkEventBody {
  eb_title : string;
  eb_description : string;
  eb_location : string;
  eb_district : string;
  eb_date : string;
  eb_time : option string
}.

(** An uploaded file together with what the object storage answers for it:
    [Some (secure_url, public_id)], or [None] when the upload is refused. *)
Record UploadFile := mkUploadFile {
  file_originalname : string;
  file_size : nat;
  file_mimetype : string;
  file_upload : option (string * string)
}.

Definition error_message (e : Error) : string :=
  match e with
  | MongoError => "write failed"
  | ValidatorError path => "Validation failed: " ++ path
  | TypeError msg => msg
  | PlainError msg => msg
  | UploadError _ => "upload failed"
  | CastError value path model =>
      "Cast to ObjectId failed for value " ++ dq ++ value ++ dq
        ++ " (type string) at path " ++ dq ++ path ++ dq
        ++ " for model " ++ dq ++ model ++ dq
  end.

Definition upload_image (file : UploadFile) : Promise Image :=
  match file_upload file with
  | None => Throw (UploadError "Error")
  | Some (secure_url, public_id) => Ok (mkImage secure_url public_id)
  end.

Definition upload_report (file : UploadFile) : Promise Report :=
  match file_upload file with
  | None => Throw (UploadError "Error")
  | Some (secure_url, public_id) =>
      Ok (mkReport (file_originalname file) (file_size file)
            (file_mimetype file) secure_url public_id)
  end.

(** The notification of a new event to one user; [null] for the creator. *)
Definition notify_new_event (req_user : User) (title district : string)
  (event : Event) (user : User) : option (M Notification) :=
  if String.eqb (user_id user) (user_id req_user) then None
  else Some (createNotification (user_id user)
               "New Event Created"
               ("A new event " ++ dq ++ title ++ dq
                  ++ " has been created in " ++ district)
               "info"
               (Some ("/events/" ++ event_id event))).

Section Events.
(** [isISO8601()] of the validation library. *)
Variable isISO8601 : string -> bool.

Definition event_checks (b : EventBody) : list Check :=
  [ mkCheck "title" "Title is required" (negb (isEmpty (trim (eb_title b))));
    mkCheck "description" "Description is required"
      (negb (isEmpty (trim (eb_description b))));
    mkCheck "location" "Location is required"
      (negb (isEmpty (trim (eb_location b))));
    mkCheck "district" "District is required"
      (negb (isEmpty (trim (eb_district b))));
    mkCheck "date" "Valid date is required" (isISO8601 (eb_date b));
    (* [optional().isString()]: a time that is present is a string *)
    mkCheck "time" "Time should be in a valid format" true ].

(** The handler behind [auth], [checkRole], [upload] and the validation
    chains.  The [trim()] sanitizers have rewritten the body, so the
    destructured [title], [description], [location] and [district] are the
    trimmed values; the schema trims [title] once more.  The fan-out starts
    one [createNotification] per user before any is awaited: the writes are
    taken in the order of the calls. *)
Definition createEvent (req_user : User) (b : EventBody)
  (images reports : list UploadFile) : World -> Response * World :=
  try_catch
    (let errors := errors_of (event_checks b) in
     if negb (is_nil errors) then ret (mkResponse 400 (JsonErrors errors))
     else
       let title := trim (eb_title b) in
       let description := trim (eb_description b) in
       let location := trim (eb_location b) in
       let district := trim (eb_district b) in
       images <- (if is_nil images then ret []
                  else Promise_all (map upload_image images)) ;;
       reports <- (if is_nil reports then ret []
                   else Promise_all (map upload_report reports)) ;;
       id <- new_ObjectId ;;
       t <- get now ;;
       let event := mkEvent id (trim title) description location district
                      (eb_date b) (eb_time b) images reports
                      (user_id req_user) t in
       db_write (set_events (fun l => (l ++ [event])%list)) ;;;
       usersToNotify <- get users ;;
       notificationPromises <-
         map_start (notify_new_event req_user title district event)
                   usersToNotify ;;
       Promise_all (filter_Boolean notificationPromises) ;;;
       ret (mkResponse 201 (JsonEvent event)))
    (fun error =>
       if String.eqb (error_name error) "MulterError"
       then mkResponse 400 (JsonMessage (error_message error))
       else mkResponse 500
              (JsonMessageError "Server error" (error_message error))).
End Events.

(* ------------------------------------------------------------------ *)
(** ** Answers of the remaining routes *)

(** A status with either a JSON message or a payload. *)
Inductive Payload (A : Type) :=
| Message (message : string)      (* { message } or { msg } *)
| Json (a : A).
Arguments Message {A} message.
Arguments Json {A} a.

Record Reply (A : Type) := mkReply {
  reply_status : nat;
  reply_payload : Payload A
}.
Arguments mkReply {A} reply_status reply_payload.

(** [doc.deleteOne()]: the first stored document with the [_id] goes. *)
Fixpoint remove_first {A} (p : A -> bool) (l : list A) : list A :=
  match l with
  | [] => []
  | x :: l' => if p x then l' else x :: remove_first p l'
  end.

Definition set_users (f : list User -> list User) (w : World) : World :=
  mkWorld (f (users w)) (events w) (registrations w) (notifications w)
          (now w) (nextOid w) (faults w).

Definition User_findById (id : ObjectId) (l : list User) : option User :=
  find (fun u => String.eqb (user_id u) id) l.

(* ------------------------------------------------------------------ *)
(** ** routes/notifications.js *)

Definition route_unreadCount (req_user : User) : World -> Reply nat * World :=
  try_catch
    (count <- getUnreadCount (user_id req_user) ;;
     ret (mkReply 200 (Json count)))
    (fun _ => mkReply 500 (Message "Error fetching unread count")).

Definition route_markAsRead (req_user : User) (id : ObjectId)
  : World -> Reply Notification * World :=
  try_catch
    (notification <- markAsRead id (user_id req_user) ;;
     ret (mkReply 200 (Json notification)))
    (fun _ => mkReply 500 (Message "Error marking notification as read")).

Definition route_markAllRead (req_user : User) : World -> Reply unit * World :=
  try_catch
    (markAllAsRead (user_id req_user) ;;;
     ret (mkReply 200 (Message "All notifications marked as read")))
    (fun _ => mkReply 500 (Message "Error marking all notifications as read")).

(* ------------------------------------------------------------------ *)
(** ** routes/events.js: deleting an event *)

Section Storage.
(** [cloudinary.uploader.destroy(publicId)]: whether the promise fulfils. *)
Variable destroy : string -> bool.

Definition destroy_file (publicId : string) : Promise unit :=
  if destroy publicId then Ok tt else Throw (UploadError "Error").

(** The handler behind [auth] and [checkRole]. *)
Definition deleteEvent (req_user : User) (id : string)
  : World -> Reply unit * World :=
  try_catch
    (evs <- get events ;;
     found <- findById "Event" Event_findById id evs ;;
     match found with
     | None => ret (mkReply 404 (Message "Event not found"))
     | Some event =>
         if negb (String.eqb (event_createdBy event) (user_id req_user))
            && negb (String.eqb (user_role req_user) "admin")
         then ret (mkReply 403 (Message "Not authorized"))
         else
           let deletePromises :=
             (map (fun image => destroy_file (image_publicId image))
                  (event_images event)
              ++ map (fun report => destroy_file (report_publicId report))
                     (event_reports event))%list in
           Promise_all deletePromises ;;;
           db_write (set_events
             (remove_first (fun e => String.eqb (event_id e) (event_id event)))) ;;;
           ret (mkReply 200 (Message "Event deleted"))
     end)
    (fun _ => mkReply 500 (Message "Server error")).
End Storage.

(* ------------------------------------------------------------------ *)
(** ** routes/users.js *)

(** The handlers behind [auth] and [checkRole(['admin'])].  The guard of
    [DELETE /:id] compares the text of the URL with the rendering of the
    requester's id; [findById] casts the text. *)
Definition deleteUser (req_user : User) (id : string)
  : World -> Reply unit * World :=
  try_catch
    (if String.eqb id (user_id req_user)
     then ret (mkReply 403 (Message "Admin cannot delete their own account"))
     else
       us <- get users ;;
       found <- findById "User" User_findById id us ;;
       match found with
       | None => ret (mkReply 404 (Message "User not found"))
       | Some user =>
           db_write (set_users
             (remove_first (fun u => String.eqb (user_id u) (user_id user)))) ;;;
           ret (mkReply 200 (Message "User deleted"))
       end)
    (fun _ => mkReply 500 (Message "Server error")).


(** The body of a role change; [None] is an absent key. *)
Record RoleBody := mkRoleBody {
  role_role : option string;
  role_district : option string;
  role_officialRole : option string
}.

(** The text the validators see: an absent value reads as the empty
    string. *)
Definition text (v : option string) : string :=
  match v with Some s => s | None => "" end.

Definition assignable_roles : list string := ["admin"; "block_officer"; "public"].

(** [body(f).if(body('role').equals(r)).notEmpty()]: the chain runs only when
    the condition holds. *)
Definition role_checks (b : RoleBody) : list Check :=
  [ mkCheck "role" "Invalid role" (isIn assignable_roles (text (role_role b)));
    mkCheck "district" "District is required for block officers"
      (if String.eqb (text (role_role b)) "block_officer"
       then negb (isEmpty (text (role_district b))) else true);
    mkCheck "officialRole" "Official role is required"
      (if String.eqb (text (role_role b)) "Official_member"
       then negb (isEmpty (text (role_officialRole b))) else true) ].

Definition replace_user (u : User) (l : list User) : list User :=
  map (fun d => if String.eqb (user_id d) (user_id u) then u else d) l.

Inductive RoleAnswer :=
| RoleErrors (errors : list FieldError)
| RoleMessage (message : string)
| RoleUser (user : User).

(** [PUT /:id/role], for a request whose [:id] renders the ObjectId
    [id]. *)
Definition updateRole (id : ObjectId) (b : RoleBody)
  : World -> (nat * RoleAnswer) * World :=
  try_catch
    (let errors := errors_of (role_checks b) in
     if negb (is_nil errors) then ret (400, RoleErrors errors)
     else
       let role := text (role_role b) in
       us <- get users ;;
       match User_findById id us with
       | None => ret (404, RoleMessage "User not found")
       | Some user =>
           let user :=
             mkUser (user_id user) (user_name user) (user_email user) role
               (if String.eqb role "block_officer" then role_district b else None)
               (if String.eqb role "Official_member"
                then role_officialRole b else None) in
           db_write (set_users (replace_user user)) ;;;
           ret (200, RoleUser user)
       end)
    (fun _ => (500, RoleMessage "Server error")).

(* ------------------------------------------------------------------ *)
(** ** The socket registry of the server ([connectedUsers]) *)

(** A [Map] from user id to socket id: its entries in insertion order.
    [set] on a present key keeps the entry's place. *)
Definition Registry := list (string * string).

Fixpoint Map_set (k v : string) (m : Registry) : Registry :=
  match m with
  | [] => [(k, v)]
  | (k', v') :: m' =>
      if String.eqb k' k then (k, v) :: m' else (k', v') :: Map_set k v m'
  end.

Fixpoint Map_get (k : string) (m : Registry) : option string :=
  match m with
  | [] => None
  | (k', v') :: m' => if String.eqb k' k then Some v' else Map_get k m'
  end.

Fixpoint Map_delete (k : string) (m : Registry) : Registry :=
  match m with
  | [] => []
  | (k', v') :: m' =>
      if String.eqb k' k then m' else (k', v') :: Map_delete k m'
  end.

Section Sockets.
(** [jwt.verify(token, secret).userId]; [None] when verification throws. *)
Variable jwt_verify : string -> option string.

(** [socket.on('authenticate', token => ...)] *)
Definition on_authenticate (socket_id token : string) (m : Registry) : Registry :=
  match jwt_verify token with
  | Some userId => Map_set userId socket_id m
  | None => m
  end.
End Sockets.

(** [socket.on('disconnect', ...)]: the entries are walked in order; the
    first whose socket is the one that left is deleted, and the walk stops. *)
Fixpoint disconnect_loop (entries : list (string * string)) (socket_id : string)
  (m : Registry) : Registry :=
  match entries with
  | [] => m
  | (userId, socketId) :: rest =>
      if String.eqb socketId socket_id then Map_delete userId m
      else disconnect_loop rest socket_id m
  end.

Definition on_disconnect (socket_id : string) (m : Registry) : Registry :=
  disconnect_loop m socket_id m.

(* ------------------------------------------------------------------ *)
(** ** Routers *)

Inductive Method := GET | POST | PUT | DELETE.

Definition Method_eqb (a b : Method) : bool :=
  match a, b with
  | GET, GET | POST, POST | PUT, PUT | DELETE, DELETE => true
  | _, _ => false
  end.

(** A path below the mount point of a router is the list of its segments,
    none of them empty; a route path is a list of literals and parameters.
    Literals are compared without regard to case. *)
Inductive Segment :=
| Lit (s : string)
| Param (name : string).

Definition segment_matches (p : Segment) (s : string) : bool :=
  match p with
  | Lit l => String.eqb (lower l) (lower s)
  | Param _ => negb (isEmpty s)
  end.

Fixpoint path_matches (pattern : list Segment) (path : list string) : bool :=
  match pattern, path with
  | [], [] => true
  | p :: pattern', s :: path' => segment_matches p s && path_matches pattern' path'
  | _, _ => false
  end.

Record Route (H : Type) := mkRoute {
  route_method : Method;
  route_path : list Segment;
  route_handler : H
}.
Arguments mkRoute {H} route_method route_path route_handler.

(** The routes are tried in the order they were registered; the first whose
    method and path match handles the request. *)
Fixpoint dispatch {H} (routes : list (Route H)) (m : Method) (path : list string)
  : option H :=
  match routes with
  | [] => None
  | r :: routes' =>
      if Method_eqb (route_method r) m && path_matches (route_path r) path
      then Some (route_handler r)
      else dispatch routes' m path
  end.

(** [routes/events.js], in the order of the file. *)
Inductive EventsHandler :=
| CreateEvent | ListEvents | MyEvents | EventById | Districts
| UpdateEvent | DeleteEvent.

Definition events_router : list (Route EventsHandler) :=
  [ mkRoute POST [] CreateEvent;
    mkRoute GET [] ListEvents;
    mkRoute GET [Lit "my-events"] MyEvents;
    mkRoute GET [Param "id"] EventById;
    mkRoute GET [Lit "districts"] Districts;
    mkRoute PUT [Param "id"] UpdateEvent;
    mkRoute DELETE [Param "id"] DeleteEvent ].

(** [routes/initiatives.js], in the order of the file. *)
Inductive InitiativesHandler :=
| ListInitiatives | CreateInitiative | UpdateInitiative | DeleteInitiative
| InitiativeById | DebugInitiatives.

Definition initiatives_router : list (Route InitiativesHandler) :=
  [ mkRoute GET [] ListInitiatives;
    mkRoute POST [] CreateInitiative;
    mkRoute PUT [Param "id"] UpdateInitiative;
    mkRoute DELETE [Param "id"] DeleteInitiative;
    mkRoute GET [Param "id"] InitiativeById;
    mkRoute GET [Lit "debug"] DebugInitiatives ].

(* ------------------------------------------------------------------ *)
(** ** routes/initiatives.js: uploaded files *)

Record MulterFile := mkMulterFile {
  mf_originalname : string;
  mf_path : string;
  mf_mimetype : string;
  mf_size : nat
}.

Record FileData := mkFileData {
  fd_filename : string;
  fd_path : string;
  fd_mimetype : string;
  fd_size : nat
}.

Definition allowedTypes : list string :=
  [ "image/jpeg"; "image/png"; "image/gif"; "video/mp4"; "application/pdf";
    "application/msword";
    "application/vnd.openxmlformats-officedocument.wordprocessingml.document";
    "audio/mpeg"; "audio/wav"; "audio/ogg"; "audio/aac" ].

(** [fileFilter]: whether the upload is accepted. *)
Definition fileFilter (file : MulterFile) : bool :=
  includes allowedTypes (mf_mimetype file).

Record Buckets := mkBuckets {
  b_images : list FileData;
  b_videos : list FileData;
  b_documents : list FileData;
  b_audio : list FileData
}.

(** [s.startsWith(p)] *)
Definition startsWith (s p : string) : bool := String.prefix p s.

(** The body of [files.forEach(file => ...)] of the creation handler. *)
Definition categorize_file (b : Buckets) (file : MulterFile) : Buckets :=
  let fileData := mkFileData (mf_originalname file) (mf_path file)
                             (mf_mimetype file) (mf_size file) in
  if startsWith (mf_mimetype file) "image/" then
    mkBuckets (b_images b ++ [fileData])%list (b_videos b) (b_documents b) (b_audio b)
  else if startsWith (mf_mimetype file) "video/" then
    mkBuckets (b_images b) (b_videos b ++ [fileData])%list (b_documents b) (b_audio b)
  else if startsWith (mf_mimetype file) "audio/" then
    mkBuckets (b_images b) (b_videos b) (b_documents b) (b_audio b ++ [fileData])%list
  else
    mkBuckets (b_images b) (b_videos b) (b_documents b ++ [fileData])%list (b_audio b).

Definition categorize (files : list MulterFile) : Buckets :=
  fold_left categorize_file files (mkBuckets [] [] [] []).

(* ------------------------------------------------------------------ *)
(** ** Vocabulary of the statements *)

(** A text that renders an ObjectId: its cast is the text itself. *)
Definition is_ObjectId (text : string) : Prop := cast_ObjectId text = Some text.

(** The white-space characters, as their UTF-8 encodings: tab, line feed,
    vertical tab, form feed, carriage return, space, U+00A0, U+1680, U+2000
    to U+200A, U+2028, U+2029, U+202F, U+205F, U+3000 and U+FEFF. *)
Definition utf8 (bytes : list nat) : string :=
  string_of_list_ascii (map ascii_of_nat bytes).

Definition white_space : list string :=
  map utf8
    [ [9]; [10]; [11]; [12]; [13]; [32]; [194; 160]; [225; 154; 128];
      [226; 128; 128]; [226; 128; 129]; [226; 128; 130]; [226; 128; 131];
      [226; 128; 132]; [226; 128; 133]; [226; 128; 134]; [226; 128; 135];
      [226; 128; 136]; [226; 128; 137]; [226; 128; 138];
      [226; 128; 168]; [226; 128; 169]; [226; 128; 175]; [226; 129; 159];
      [227; 128; 128]; [239; 187; 191] ].

(** A text made of white-space characters only. *)
Definition blank (s : string) : Prop :=
  exists cs, Forall (fun c => In c white_space) cs /\
             s = fold_right String.append "" cs.

(** Newest first: keys do not increase along the list. *)
Definition desc {A} (key : A -> nat) (a b : A) : Prop := key b <= key a.

(** The world once the outcome of the next write is consumed. *)
Definition pop_fault (w : World) : World := set_faults (tl (faults w)) w.

Definition is_rejected {A} (p : Promise A) : bool :=
  match p with Throw _ => true | Ok _ => false end.

Fixpoint fulfilled {A} (ps : list (Promise A)) : list A :=
  match ps with
  | [] => []
  | Ok a :: ps' => a :: fulfilled ps'
  | Throw _ :: ps' => fulfilled ps'
  end.

(** The outcomes of the next [n] writes. *)
Fixpoint flags (n : nat) (fs : list bool) : list bool :=
  match n with
  | 0 => []
  | S n' => hd false fs :: flags n' (tl fs)
  end.

Definition any_fails (fs : list bool) : bool := existsb (fun f => f) fs.

(** The users a new event of [req_user] is announced to. *)
Definition others (req_user : User) (us : list User) : list User :=
  filter (fun u => negb (String.eqb (user_id u) (user_id req_user))) us.

Definition uploads_ok (files : list UploadFile) : bool :=
  forallb (fun f => match file_upload f with Some _ => true | None => false end)
          files.

(** What the notification of a new event looks like. *)
Definition announces (req_user : User) (title district : string)
  (event : Event) (u : User) (n : Notification) : Prop :=
  notif_recipient n = user_id u /\
  notif_recipient n <> user_id req_user /\
  notif_title n = "New Event Created" /\
  notif_message n
    = "A new event " ++ dq ++ title ++ dq ++ " has been created in " ++ district /\
  notif_type n = "info" /\
  notif_read n = false /\
  notif_link n = Some ("/events/" ++ event_id event).

(** The event document that [createEvent] builds in the world [w]. *)
Definition new_event (req_user : User) (b : EventBody)
  (images reports : list UploadFile) (w : World) : Event :=
  mkEvent (oid (nextOid w)) (trim (trim (eb_title b)))
    (trim (eb_description b)) (trim (eb_location b)) (trim (eb_district b))
    (eb_date b) (eb_time b)
    (fulfilled (map upload_image images))
    (fulfilled (map upload_report reports))
    (user_id req_user) (now w).

(* ------------------------------------------------------------------ *)
(** ** Sample data *)

Definition alice : User := mkUser "u1" "Alice" "alice@example.org" "admin" None None.
Definition bob : User :=
  mkUser "u2" "Bob" "bob@example.org" "block_officer" (Some "Sangli") None.
Definition carol : User :=
  mkUser "u3" "Carol" "carol@example.org" "Official_member" None (Some "Clerk").
Definition dave : User := mkUser "u4" "Dave" "dave@example.org" "public" None None.

Definition camp : Event :=
  mkEvent "e1" "Health camp" "Free check-up" "Town hall" "Sangli"
          "2025-01-10" None [] [] "u1" 10.

Definition ravi : RegistrationBody :=
  mkRegBody "e1" "Ravi" "ravi@example.org" "9800000000" "21" "male"
            "Main road" "Sangli" "Miraj" "Arag".

Definition ravi_reg : EventRegistration :=
  mkRegistration "r1" "e1" "Ravi" "ravi@example.org" "9800000000" 21 "male"
                 "Main road" "Sangli" "Miraj" "Arag" "pending" [] 20.

Definition note (id recipient : string) (read : bool) (t : nat) : Notification :=
  mkNotification id recipient "New Event Created" "hello" "info" read None t.

Definition world0 : World :=
  mkWorld [alice; bob; carol] [camp] [ravi_reg]
          [note "n1" "u1" false 5; note "n2" "u2" false 6; note "n3" "u1" true 7;
           note "n4" "u1" false 8]
          100 0 [].

(** The same world when the next write succeeds and the one after fails. *)
Definition world_second_write_fails : World := set_faults [false; true] world0.

(** Stand-ins for [isEmail] and [isISO8601] at the sample data; they accept
    the sample values, as the validation library does. *)
Definition has_at (s : string) : bool :=
  match index 0 "@" s with Some _ => true | None => false end.

Definition date_shaped (s : string) : bool :=
  match String.get 4 s, String.get 7 s with
  | Some c1, Some c2 =>
      Ascii.eqb c1 "-" && Ascii.eqb c2 "-" && (String.length s =? 10)%nat
  | _, _ => false
  end.

Definition fair : EventBody :=
  mkEventBody " Book fair " "Used books" "Library" "Sangli " "2025-02-01" None.

(** The kinds of uploaded files, as the categorisation tells them apart. *)
Definition fileData_of (file : MulterFile) : FileData :=
  mkFileData (mf_originalname file) (mf_path file) (mf_mimetype file)
             (mf_size file).

Definition is_image (file : MulterFile) : bool :=
  startsWith (mf_mimetype file) "image/".
Definition is_video (file : MulterFile) : bool :=
  negb (is_image file) && startsWith (mf_mimetype file) "video/".
Definition is_audio (file : MulterFile) : bool :=
  negb (is_image file) && negb (startsWith (mf_mimetype file) "video/")
  && startsWith (mf_mimetype file) "audio/".
Definition is_document (file : MulterFile) : bool :=
  negb (is_image file) && negb (startsWith (mf_mimetype file) "video/")
  && negb (startsWith (mf_mimetype file) "audio/").

(** The number of unread notifications of a user in a world. *)
Definition unread_count (userId : ObjectId) (w : World) : nat :=
  length (filter (unread_for userId) (notifications w)).

(** Sample data for the routes of events, users and sockets. *)
Definition gallery : Event :=
  mkEvent "e2" "Gallery" "Photos" "Hall" "Sangli" "2025-03-01" None
          [mkImage "https://cdn/e2/a.png" "img-a"]
          [mkReport "r.pdf" 10 "application/pdf" "https://cdn/e2/r.pdf" "rep-r"]
          "u2" 30.

Definition world1 : World :=
  mkWorld [alice; bob; carol; dave] [camp; gallery]
          [ravi_reg;
           mkRegistration "r2" "e2" "Asha" "asha@example.org" "9811111111" 30
             "female" "Station road" "Sangli" "Miraj" "Arag" "pending" [] 40]
          [note "n1" "u1" false 5; note "n2" "u2" false 6] 100 0 [].

Definition cloud_up (publicId : string) : bool := true.
Definition cloud_down (publicId : string) : bool := false.

Definition sample_registry : Registry := [("u1", "s1"); ("u2", "s2"); ("u3", "s3")].

Definition sample_files : list MulterFile :=
  [ mkMulterFile "a.png" "uploads/initiatives/1.png" "image/png" 100;
    mkMulterFile "b.pdf" "uploads/initiatives/2.pdf" "application/pdf" 200;
    mkMulterFile "c.mp3" "uploads/initiatives/3.mp3" "audio/mpeg" 300 ].

(** A title of a space, a no-break space and an ideographic space. *)
Definition blank_fair : EventBody :=
  mkEventBody (" " ++ utf8 [194; 160] ++ utf8 [227; 128; 128])
              "Used books" "Library" "Sangli" "2025-02-01" None.

Definition world_first_write_fails : World := set_faults [true] world0.

(** Identifiers as the store renders them, of three users and of a
    registration that is not stored. *)
Definition uid1 : ObjectId := "65a1b2c3d4e5f60718293a01".
Definition uid2 : ObjectId := "65a1b2c3d4e5f60718293a02".
Definition uid3 : ObjectId := "65a1b2c3d4e5f60718293a03".
Definition absent_id : ObjectId := "65a1b2c3d4e5f607182930ff".

(** A store whose identifiers are rendered ObjectIds: Frank, Erin, who is
    an admin, and a notification of Frank; and Erin's id in upper case. *)
Definition frank : User :=
  mkUser uid2 "Frank" "frank@example.org" "public" None None.
Definition erin : User :=
  mkUser uid3 "Erin" "erin@example.org" "admin" None None.
Definition nid1 : ObjectId := "65a1b2c3d4e5f60718294b01".
Definition world2 : World :=
  mkWorld [frank; erin] [] [] [note nid1 uid2 false 5] 100 0 [].
Definition uid3_upper : string := "65A1B2C3D4E5F60718293A03".
Definition nid1_upper : string := "65A1B2C3D4E5F60718294B01".

(** Ravi's request for an event named by a word. *)
Definition ravi_districts : RegistrationBody :=
  mkRegBody "districts" "Ravi" "ravi@example.org" "9800000000" "21" "male"
            "Main road" "Sangli" "Miraj" "Arag".

Definition sample_verify (token : string) : option string :=
  if String.eqb token "token-u1" then Some "u1"
  else if String.eqb token "token-u2" then Some "u2" else None.

(* ------------------------------------------------------------------ *)
(** * Properties *)

Unset Implicit Arguments.

(** ** Strings *)

Lemma append_assoc (a b c : string) : (a ++ b) ++ c = a ++ b ++ c.
Proof. induction a as [|x a IH]; simpl; [reflexivity | now rewrite IH]. Qed.

Lemma append_empty_r (a : string) : a ++ "" = a.
Proof. induction a as [|x a IH]; simpl; [reflexivity | now rewrite IH]. Qed.

(** Containment shown by naming what precedes and what follows. *)
Ltac contains_by pre post :=
  exists pre, post; rewrite ?append_assoc, ?append_empty_r; reflexivity.

Lemma append_nonempty_r (a b : string) : b <> "" -> a ++ b <> "".
Proof. destruct a; simpl; [trivial | discriminate]. Qed.

Lemma eqb_empty_false (s : string) : s <> "" -> String.eqb s "" = false.
Proof. intros H. now apply String.eqb_neq. Qed.

(** ** Sorting, largest key first *)

Section SortFacts.
Variable A : Type.
Variable key : A -> nat.

Lemma insert_desc_perm (x : A) (l : list A) :
  Permutation (x :: l) (insert_desc key x l).
Proof.
  induction l as [|y l IH]; simpl; [constructor; constructor|].
  destruct (key y <? key x)%nat; [apply Permutation_refl|].
  eapply perm_trans; [apply perm_swap|]. now constructor.
Qed.

Lemma sort_desc_perm (l : list A) : Permutation l (sort_desc key l).
Proof.
  induction l as [|x l IH]; simpl; [constructor|].
  eapply perm_trans; [|apply insert_desc_perm]. now constructor.
Qed.

Lemma insert_desc_Forall (P : A -> Prop) (x : A) (l : list A) :
  P x -> Forall P l -> Forall P (insert_desc key x l).
Proof.
  intros Hx Hl. induction Hl as [|y l Hy Hl IH]; simpl.
  - now repeat constructor.
  - destruct (key y <? key x)%nat; repeat constructor; assumption.
Qed.

Lemma insert_desc_sorted (x : A) (l : list A) :
  StronglySorted (desc key) l -> StronglySorted (desc key) (insert_desc key x l).
Proof.
  induction 1 as [|y l Hs IH Hy]; simpl.
  - repeat constructor.
  - destruct (key y <? key x)%nat eqn:E.
    + apply Nat.ltb_lt in E. constructor; [now constructor|].
      constructor; [unfold desc; lia|].
      eapply Forall_impl; [|exact Hy]. unfold desc. intros; lia.
    + apply Nat.ltb_ge in E. constructor; [exact IH|].
      apply insert_desc_Forall; assumption.
Qed.

Lemma sort_desc_sorted (l : list A) : StronglySorted (desc key) (sort_desc key l).
Proof.
  induction l as [|x l IH]; simpl; [constructor|].
  now apply insert_desc_sorted.
Qed.

Lemma sort_desc_Forall (P : A -> Prop) (l : list A) :
  Forall P l -> Forall P (sort_desc key l).
Proof.
  induction 1; simpl; [constructor|]. now apply insert_desc_Forall.
Qed.

Lemma Forall_firstn_skipn (P : A -> Prop) (n : nat) (l : list A) :
  Forall P l -> Forall P (firstn n l) /\ Forall P (skipn n l).
Proof.
  intros H. rewrite <- (firstn_skipn n l) in H.
  now apply Forall_app in H.
Qed.

Lemma sorted_skipn (R : A -> A -> Prop) (n : nat) (l : list A) :
  StronglySorted R l -> StronglySorted R (skipn n l).
Proof.
  revert l. induction n as [|n IH]; intros l H; simpl; [exact H|].
  destruct l; [constructor|]. inversion H; subst. now apply IH.
Qed.

Lemma sorted_firstn (R : A -> A -> Prop) (n : nat) (l : list A) :
  StronglySorted R l -> StronglySorted R (firstn n l).
Proof.
  revert l. induction n as [|n IH]; intros l H; simpl; [constructor|].
  destruct l; [constructor|]. inversion H; subst.
  constructor; [now apply IH|]. now apply Forall_firstn_skipn.
Qed.
End SortFacts.

(** ** [Math.ceil] of a quotient *)

Lemma Math_ceil_div_spec (a b : Z) :
  (0 < b)%Z ->
  exists q, Math_ceil_div a b = Some q /\ ((q - 1) * b < a <= q * b)%Z.
Proof.
  intros Hb. unfold Math_ceil_div.
  destruct (Z.eqb_spec b 0); [lia|].
  eexists; split; [reflexivity|].
  pose proof (Z.mul_div_le (- a) b Hb).
  pose proof (Z.mul_succ_div_gt (- a) b Hb).
  nia.
Qed.

(** ** The monad *)

Ltac unfold_m :=
  unfold try_catch, bind, ret, throw, get, start in *.

Lemma db_write_no_fault (update : World -> World) (w : World) :
  faults w = [] -> db_write update w = (Ok tt, update w).
Proof. intros H. unfold db_write. now rewrite H. Qed.

(** ** Queries by identifier *)

Lemma findById_found {A} (model : string)
  (lookup : ObjectId -> list A -> option A) (text : string) (l : list A)
  (doc : A) (w : World) :
  lookup text l = Some doc ->
  findById model lookup text l w = (Ok (Some doc), w).
Proof. intros H. unfold findById. now rewrite H. Qed.

Lemma findById_cast {A} (model : string)
  (lookup : ObjectId -> list A -> option A) (text : string) (id : ObjectId)
  (l : list A) (w : World) :
  lookup text l = None -> cast_ObjectId text = Some id ->
  findById model lookup text l w = (Ok (lookup id l), w).
Proof. intros H Hc. unfold findById. now rewrite H, Hc. Qed.

Lemma findById_malformed {A} (model : string)
  (lookup : ObjectId -> list A -> option A) (text : string)
  (l : list A) (w : World) :
  lookup text l = None -> cast_ObjectId text = None ->
  findById model lookup text l w = (Throw (CastError text "_id" model), w).
Proof. intros H Hc. unfold findById. now rewrite H, Hc. Qed.

(** A query changes nothing. *)
Lemma findById_pure {A} (model : string)
  (lookup : ObjectId -> list A -> option A) (text : string) (l : list A)
  (w : World) :
  snd (findById model lookup text l w) = w.
Proof.
  unfold findById. destruct (lookup text l); [reflexivity|].
  destruct (cast_ObjectId text); reflexivity.
Qed.

Lemma Event_findById_id (l : list Event) (id : ObjectId) (e : Event) :
  Event_findById id l = Some e -> event_id e = id /\ In e l.
Proof.
  intros H. apply find_some in H. destruct H as [Hin H].
  split; [now apply String.eqb_eq | exact Hin].
Qed.

(* ------------------------------------------------------------------ *)
(** ** The guard [isAdmin] *)

(** C10: the guard lets a request through exactly when a user was resolved
    and its role is [admin] or [Official_member]; every other request, among
    them those of a [block_officer] or [public] user and those without a
    user, is answered 403. *)
Theorem isAdmin_passes_iff (req_user : option User) :
  (isAdmin req_user = Next <->
   exists u, req_user = Some u /\
             (user_role u = "admin" \/ user_role u = "Official_member")) /\
  (isAdmin req_user = Next \/
   exists r, isAdmin req_user = Reject r /\ status r = Forbidden) /\
  (forall u, req_user = Some u ->
     user_role u = "block_officer" \/ user_role u = "public" ->
     exists r, isAdmin req_user = Reject r /\ status r = Forbidden) /\
  (req_user = None ->
     exists r, isAdmin req_user = Reject r /\ status r = Forbidden).
Proof.
  destruct req_user as [u|]; unfold isAdmin.
  - destruct (String.eqb_spec (user_role u) "admin") as [Ha|Ha];
      [| destruct (String.eqb_spec (user_role u) "Official_member") as [Ho|Ho] ];
      cbn [negb andb].
    + split; [split; [intros _; exists u; auto | reflexivity]|].
      split; [now left|].
      split; [|discriminate].
      intros u' Hu [H|H]; injection Hu as <-; congruence.
    + split; [split; [intros _; exists u; auto | reflexivity]|].
      split; [now left|].
      split; [|discriminate].
      intros u' Hu [H|H]; injection Hu as <-; congruence.
    + split.
      { split; [discriminate|].
        intros (u' & Hu & [H|H]); injection Hu as <-; contradiction. }
      split; [right; eexists; split; reflexivity|].
      split; [|discriminate].
      intros u' _ _. eexists; split; reflexivity.
  - split.
    { split; [discriminate|]. intros (u & Hu & _). discriminate. }
    split; [right; eexists; split; reflexivity|].
    split; [intros u Hu; discriminate|].
    intros _. eexists; split; reflexivity.
Qed.

(* ------------------------------------------------------------------ *)
(** ** The notification service *)

Lemma for_recipient_eq (userId : ObjectId) (n : Notification) :
  for_recipient userId n = true <-> notif_recipient n = userId.
Proof. unfold for_recipient. apply String.eqb_eq. Qed.

(** C8: for a positive page and limit the service returns the requested
    window of the recipient's notifications, newest first: at most [limit]
    of them, all of the recipient, after skipping [(page - 1) * limit], and
    the number of pages is the ceiling of the number of matching
    notifications over [limit]. *)
Theorem getUserNotifications_page (w : World) (userId : ObjectId)
  (page limit : Z) :
  (1 <= page)%Z -> (1 <= limit)%Z ->
  let matching := filter (for_recipient userId) (notifications w) in
  let newest_first := sort_desc notif_createdAt matching in
  exists p tp,
    getUserNotifications userId page limit w = (Ok p, w) /\
    Permutation matching newest_first /\
    StronglySorted (desc notif_createdAt) newest_first /\
    page_notifications p =
      firstn (Z.to_nat limit)
             (skipn (Z.to_nat ((page - 1) * limit)) newest_first) /\
    (length (page_notifications p) <= Z.to_nat limit)%nat /\
    Forall (fun n => notif_recipient n = userId) (page_notifications p) /\
    StronglySorted (desc notif_createdAt) (page_notifications p) /\
    page_totalPages p = Some tp /\
    ((tp - 1) * limit < Z.of_nat (length matching) <= tp * limit)%Z /\
    page_currentPage p = page.
Proof.
  intros Hpage Hlimit matching newest_first.
  destruct (Math_ceil_div_spec (Z.of_nat (length matching)) limit)
    as (tp & Htp & Hceil); [lia|].
  assert (Hall : Forall (fun n => notif_recipient n = userId) newest_first).
  { apply sort_desc_Forall, Forall_forall. intros n Hn.
    apply filter_In in Hn. now apply for_recipient_eq. }
  assert (Hsorted : StronglySorted (desc notif_createdAt) newest_first)
    by apply sort_desc_sorted.
  unfold getUserNotifications, cursor_skip, cursor_limit. unfold_m.
  fold matching. fold newest_first.
  destruct (Z.ltb_spec ((page - 1) * limit) 0) as [Hneg|_]; [nia|].
  destruct (Z.eqb_spec limit 0) as [Hz|_]; [lia|].
  rewrite Zabs2Nat.abs_nat_nonneg by lia.
  eexists; exists tp. split; [reflexivity|]. simpl.
  split; [apply sort_desc_perm|].
  split; [exact Hsorted|].
  split; [reflexivity|].
  split; [apply firstn_le_length|].
  split.
  { apply Forall_firstn_skipn. now apply Forall_firstn_skipn. }
  split; [now apply sorted_firstn, sorted_skipn|].
  split; [exact Htp|].
  split; [exact Hceil | reflexivity].
Qed.

Lemma mark_if_unread_recipient (userId : ObjectId) (n : Notification) :
  for_recipient userId (mark_if_unread userId n) = for_recipient userId n.
Proof. unfold mark_if_unread. now destruct (unread_for userId n). Qed.

Lemma mark_if_unread_unread (userId : ObjectId) (n : Notification) :
  unread_for userId (mark_if_unread userId n) = false.
Proof.
  unfold mark_if_unread. destruct (unread_for userId n) eqn:Hu; [|exact Hu].
  unfold unread_for. simpl. apply andb_false_r.
Qed.

Lemma mark_if_unread_idem (userId : ObjectId) (n : Notification) :
  mark_if_unread userId (mark_if_unread userId n) = mark_if_unread userId n.
Proof.
  unfold mark_if_unread at 1. now rewrite mark_if_unread_unread.
Qed.

Lemma mark_if_unread_own (userId : ObjectId) (n : Notification) :
  for_recipient userId n = true ->
  mark_if_unread userId n = if notif_read n then n else mark_read n.
Proof.
  intros Hr. unfold mark_if_unread, unread_for. rewrite Hr.
  now destruct (notif_read n).
Qed.

Lemma mark_if_unread_other (userId : ObjectId) (n : Notification) :
  for_recipient userId n = false -> mark_if_unread userId n = n.
Proof. intros Hr. unfold mark_if_unread, unread_for. now rewrite Hr. Qed.

Lemma marked_others (userId : ObjectId) (l : list Notification) :
  filter (fun n => negb (for_recipient userId n))
         (map (mark_if_unread userId) l)
  = filter (fun n => negb (for_recipient userId n)) l.
Proof.
  induction l as [|n l IH]; simpl; [reflexivity|].
  rewrite mark_if_unread_recipient, IH.
  destruct (for_recipient userId n) eqn:Hr; simpl; [reflexivity|].
  now rewrite mark_if_unread_other.
Qed.

Lemma marked_own (userId : ObjectId) (l : list Notification) :
  filter (for_recipient userId) (map (mark_if_unread userId) l)
  = map (fun n => if notif_read n then n else mark_read n)
        (filter (for_recipient userId) l).
Proof.
  induction l as [|n l IH]; simpl; [reflexivity|].
  rewrite mark_if_unread_recipient, IH.
  destruct (for_recipient userId n) eqn:Hr; simpl; [|reflexivity].
  now rewrite mark_if_unread_own.
Qed.

Lemma marked_no_unread (userId : ObjectId) (l : list Notification) :
  filter (unread_for userId) (map (mark_if_unread userId) l) = [].
Proof.
  induction l as [|n l IH]; simpl; [reflexivity|].
  now rewrite mark_if_unread_unread.
Qed.

(** C9: when no write fails, [markAllAsRead] leaves the recipient with no
    unread notification, so [getUnreadCount] answers 0; the recipient's
    notifications are the former ones with [read] set, those of other
    recipients are untouched, and a second call changes nothing. *)
Theorem markAllAsRead_idempotent (w : World) (userId : ObjectId) :
  faults w = [] ->
  exists w1,
    markAllAsRead userId w = (Ok tt, w1) /\
    getUnreadCount userId w1 = (Ok 0, w1) /\
    Forall (fun n => notif_recipient n = userId -> notif_read n = true)
           (notifications w1) /\
    filter (for_recipient userId) (notifications w1)
      = map (fun n => if notif_read n then n else mark_read n)
            (filter (for_recipient userId) (notifications w)) /\
    filter (fun n => negb (for_recipient userId n)) (notifications w1)
      = filter (fun n => negb (for_recipient userId n)) (notifications w) /\
    markAllAsRead userId w1 = (Ok tt, w1) /\
    (forall w2, markAllAsRead userId w1 = (Ok tt, w2) ->
                getUnreadCount userId w2 = (Ok 0, w2)).
Proof.
  intros Hf. unfold markAllAsRead.
  rewrite db_write_no_fault by exact Hf.
  set (w1 := set_notifications (map (mark_if_unread userId)) w).
  assert (Hcount : getUnreadCount userId w1 = (Ok 0, w1)).
  { unfold getUnreadCount. unfold_m. subst w1. simpl.
    now rewrite marked_no_unread. }
  assert (Hagain : db_write (set_notifications (map (mark_if_unread userId))) w1
                   = (Ok tt, w1)).
  { rewrite db_write_no_fault by (subst w1; exact Hf).
    f_equal. subst w1. unfold set_notifications. simpl. f_equal.
    rewrite map_map. apply map_ext. intros n. apply mark_if_unread_idem. }
  exists w1. split; [reflexivity|].
  split; [exact Hcount|].
  split.
  { subst w1. simpl. apply Forall_forall. intros n Hn Hrec.
    apply in_map_iff in Hn. destruct Hn as (m & <- & _).
    pose proof (mark_if_unread_unread userId m) as Hu.
    unfold unread_for in Hu. apply for_recipient_eq in Hrec.
    rewrite Hrec in Hu. simpl in Hu. now apply negb_false_iff in Hu. }
  split; [subst w1; simpl; apply marked_own|].
  split; [subst w1; simpl; apply marked_others|].
  split; [exact Hagain|].
  intros w2 H2. rewrite Hagain in H2. injection H2 as <-. exact Hcount.
Qed.

(* ------------------------------------------------------------------ *)
(** ** Writes and their outcomes *)

Lemma db_write_run (update : World -> World) (w : World) :
  db_write update w =
    if hd false (faults w) then (Throw MongoError, pop_fault w)
    else (Ok tt, update (pop_fault w)).
Proof.
  unfold db_write, pop_fault. destruct w as [us es rs ns t k fs].
  destruct fs as [|[] fs]; reflexivity.
Qed.

Lemma createNotification_run (recipientId : ObjectId) (title message type : string)
  (link : option string) (w : World) :
  title <> "" -> message <> "" -> includes notification_types type = true ->
  let n := mkNotification (oid (nextOid w)) recipientId title message type
                          false link (now w) in
  let w1 := set_nextOid (S (nextOid w)) (pop_fault w) in
  createNotification recipientId title message type link w =
    if hd false (faults w) then (Throw MongoError, w1)
    else (Ok n, set_notifications (fun l => (l ++ [n])%list) w1).
Proof.
  intros Ht Hm Hty n w1.
  unfold createNotification, Notification_save, validate_notification,
    new_ObjectId.
  unfold_m. cbn [notif_title notif_message notif_type].
  rewrite (eqb_empty_false _ Ht), (eqb_empty_false _ Hm), Hty. cbn [negb].
  rewrite db_write_run. subst n w1.
  destruct w as [us es rs ns t k fs]. simpl.
  destruct fs as [|[] fs]; reflexivity.
Qed.

(** ** Validation *)

Lemma errors_of_nil (checks : list Check) :
  errors_of checks = [] <-> forall c, In c checks -> check_ok c = true.
Proof.
  unfold errors_of. induction checks as [|c cs IH]; simpl.
  - split; [intros _ c [] | reflexivity].
  - destruct (check_ok c) eqn:Hc; simpl.
    + rewrite IH. split.
      * intros H c' [<-|Hin]; [exact Hc | now apply H].
      * intros H c' Hin. apply H. now right.
    + split; [discriminate|]. intros H.
      specialize (H c (or_introl eq_refl)). congruence.
Qed.

Lemma errors_of_lists (checks : list Check) (c : Check) :
  In c checks -> check_ok c = false ->
  In (mkFieldError (check_field c) (check_msg c)) (errors_of checks).
Proof.
  intros Hin Hc. unfold errors_of.
  apply (in_map (fun c => mkFieldError (check_field c) (check_msg c))).
  apply filter_In. split; [exact Hin | now rewrite Hc].
Qed.

Lemma is_nil_false {A} (l : list A) : l <> [] -> is_nil l = false.
Proof. destruct l; [congruence | reflexivity]. Qed.

Lemma isInt_min_nonpositive (s : string) (z : Z) :
  parse_int s = Some z -> (z <= 0)%Z -> isInt_min 1 s = false.
Proof.
  intros Hp Hz. unfold isInt_min. rewrite Hp. apply Z.leb_gt. lia.
Qed.

(* ------------------------------------------------------------------ *)
(** ** Registration *)

Lemma registration_age_parses (isEmail : string -> bool) (b : RegistrationBody) :
  validationResult isEmail b = [] -> exists age, parse_int (rb_age b) = Some age.
Proof.
  intros H. unfold validationResult in H.
  assert (Hage : isInt_min 1 (rb_age b) = true).
  { apply (proj1 (errors_of_nil _) H
             (mkCheck "age" "Age is required" (isInt_min 1 (rb_age b)))).
    unfold registration_checks. do 4 right. left. reflexivity. }
  unfold isInt_min in Hage.
  destruct (parse_int (rb_age b)) as [age|]; [now exists age | discriminate].
Qed.

(** C1: a request that passes validation and names an existing event,
    whose registration write succeeds, leaves exactly one new registration,
    with status [pending].  When the notification write succeeds too there
    is exactly one new notification, addressed to the creator of the event,
    whose message contains the registrant's name and the event's title, and
    the registration is returned.  When the notification write fails the
    answer is 500 and the registration stays persisted. *)
Theorem register_persists_then_notifies (isEmail : string -> bool)
  (w : World) (b : RegistrationBody) (event : Event) :
  validationResult isEmail b = [] ->
  Event_findById (rb_event b) (events w) = Some event ->
  hd false (faults w) = false ->
  exists registration resp w',
    register isEmail b w = (resp, w') /\
    reg_status registration = "pending" /\
    reg_name registration = rb_name b /\
    reg_event registration = rb_event b /\
    registrations w' = (registrations w ++ [registration])%list /\
    if hd false (tl (faults w))
    then notifications w' = notifications w /\ status resp = ServerError
    else
      resp = mkResponse 200 (JsonRegistration registration) /\
      exists n,
        notifications w' = (notifications w ++ [n])%list /\
        notif_recipient n = event_createdBy event /\
        contains (rb_name b) (notif_message n) /\
        contains (event_title event) (notif_message n).
Proof.
  intros Hvalid Hevent Hreg.
  destruct (registration_age_parses isEmail b Hvalid) as (age & Hage).
  unfold register. rewrite Hvalid. cbn [is_nil negb].
  unfold new_EventRegistration, new_ObjectId. unfold_m.
  rewrite (findById_found "Event" Event_findById _ _ _ w Hevent).
  rewrite (proj1 (Event_findById_id _ _ _ Hevent)), Hage, db_write_run.
  cbn [faults set_nextOid]. rewrite Hreg.
  rewrite createNotification_run;
    [ | discriminate | apply append_nonempty_r; discriminate | reflexivity ].
  cbn [faults set_registrations pop_fault set_faults set_nextOid].
  exists (mkRegistration (oid (nextOid w)) (rb_event b) (rb_name b)
            (rb_email b) (rb_phone b) age (rb_gender b) (rb_address b)
            (rb_district b) (rb_taluka b) (rb_village b) "pending" [] (now w)).
  destruct (hd false (tl (faults w))); eexists; eexists;
    (split; [reflexivity|]); cbn.
  - repeat split; reflexivity.
  - repeat split; try reflexivity.
    eexists. split; [reflexivity|]. cbn.
    split; [reflexivity|].
    split.
    + contains_by EmptyString
        (" has registered for your event " ++ dq ++ event_title event ++ dq).
    + contains_by (rb_name b ++ " has registered for your event " ++ dq) dq.
Qed.

(** C6: every failing validation chain is listed in a 400 answer; an age
    that denotes zero or a negative integer and a gender outside
    [male], [female], [other] (such as [x]) are such failures; a request that
    passes validation and names no stored event is answered 404 when the
    text of [event] is an ObjectId, and 500 when it is not, the query
    having rejected; and each of these answers leaves the world as it
    was. *)
Theorem register_rejections (isEmail : string -> bool) (w : World)
  (b : RegistrationBody) :
  let resp := fst (register isEmail b w) in
  let w' := snd (register isEmail b w) in
  (forall c, In c (registration_checks isEmail b) -> check_ok c = false ->
     status resp = ValidationError /\
     exists errors, body resp = JsonErrors errors /\
       In (mkFieldError (check_field c) (check_msg c)) errors /\
       (forall c', In c' (registration_checks isEmail b) ->
                   check_ok c' = false ->
                   In (mkFieldError (check_field c') (check_msg c')) errors)) /\
  (forall z, parse_int (rb_age b) = Some z -> (z <= 0)%Z ->
     status resp = ValidationError /\
     exists errors, body resp = JsonErrors errors /\
                    In "age" (map fe_param errors)) /\
  (isIn genders (rb_gender b) = false ->
     status resp = ValidationError /\
     exists errors, body resp = JsonErrors errors /\
                    In "gender" (map fe_param errors)) /\
  (isIn genders "x" = false) /\
  (validationResult isEmail b = [] ->
   Event_findById (rb_event b) (events w) = None ->
   match cast_ObjectId (rb_event b) with
   | Some id =>
       Event_findById id (events w) = None ->
       resp = mkResponse NotFound (JsonMsg "Event not found")
   | None => resp = mkResponse ServerError (Text "Server Error") /\ w' = w
   end) /\
  (status resp = ValidationError \/ status resp = NotFound -> w' = w).
Proof.
  intros resp w'.
  assert (Hfail : forall c, In c (registration_checks isEmail b) ->
            check_ok c = false ->
            register isEmail b w
            = (mkResponse 400 (JsonErrors (validationResult isEmail b)), w)).
  { intros c Hin Hc. unfold register.
    rewrite is_nil_false; [reflexivity|].
    intros Hnil. unfold validationResult in Hnil.
    rewrite (proj1 (errors_of_nil _) Hnil c Hin) in Hc. discriminate. }
  assert (Hlisted : forall c, In c (registration_checks isEmail b) ->
            check_ok c = false ->
            status resp = ValidationError /\
            exists errors, body resp = JsonErrors errors /\
              In (mkFieldError (check_field c) (check_msg c)) errors /\
              (forall c', In c' (registration_checks isEmail b) ->
                          check_ok c' = false ->
                          In (mkFieldError (check_field c') (check_msg c')) errors)).
  { intros c Hin Hc. subst resp. rewrite (Hfail c Hin Hc).
    cbn [fst status body]. unfold validationResult.
    split; [reflexivity|]. eexists. split; [reflexivity|].
    split; [now apply errors_of_lists|].
    intros c' Hin' Hc'. now apply errors_of_lists. }
  split; [exact Hlisted|].
  split.
  { intros z Hp Hz.
    destruct (Hlisted (mkCheck "age" "Age is required" (isInt_min 1 (rb_age b))))
      as (Hst & errors & Hb & Hin & _).
    - unfold registration_checks. do 4 right. left. reflexivity.
    - cbn. now apply isInt_min_nonpositive with z.
    - split; [exact Hst|]. exists errors. split; [exact Hb|].
      apply (in_map fe_param) in Hin. exact Hin. }
  split.
  { intros Hg.
    destruct (Hlisted (mkCheck "gender" "Gender is required"
                               (isIn genders (rb_gender b))))
      as (Hst & errors & Hb & Hin & _).
    - unfold registration_checks. do 5 right. left. reflexivity.
    - exact Hg.
    - split; [exact Hst|]. exists errors. split; [exact Hb|].
      apply (in_map fe_param) in Hin. exact Hin. }
  split; [reflexivity|].
  split.
  { intros Hvalid Hnone. subst resp w'. unfold register.
    rewrite Hvalid. cbn [is_nil negb]. unfold_m.
    destruct (cast_ObjectId (rb_event b)) as [id|] eqn:Hcast.
    - intros Hnone'. rewrite (findById_cast _ _ _ id _ _ Hnone Hcast).
      now rewrite Hnone'.
    - rewrite (findById_malformed _ _ _ _ _ Hnone Hcast). now split. }
  subst resp w'. unfold register.
  destruct (validationResult isEmail b) as [|e es] eqn:Hv; cbn [is_nil negb].
  - unfold_m.
    pose proof (findById_pure "Event" Event_findById (rb_event b) (events w) w)
      as Hpure.
    destruct (findById "Event" Event_findById (rb_event b) (events w) w)
      as [[[event|]|err] w0]; cbn [snd] in Hpure; subst w0;
      [ | reflexivity | cbn; intros [H|H]; discriminate ].
    unfold new_EventRegistration, new_ObjectId. unfold_m.
    destruct (parse_int (rb_age b)) as [age|].
    + rewrite db_write_run. cbn [faults set_nextOid].
      destruct (hd false (faults w)).
      * cbn. intros [H|H]; discriminate.
      * rewrite createNotification_run;
          [ | discriminate | apply append_nonempty_r; discriminate
            | reflexivity ].
        cbn [faults set_registrations pop_fault set_faults set_nextOid].
        destruct (hd false (tl (faults w))); cbn; intros [H|H]; discriminate.
    + cbn. intros [H|H]; discriminate.
  - reflexivity.
Qed.

(* ------------------------------------------------------------------ *)
(** ** Listing the registrations of an event *)

Lemma listForEvent_not_found (w : World) (req_user : User) (eventId : string)
  (id : ObjectId) :
  Event_findById eventId (events w) = None ->
  cast_ObjectId eventId = Some id ->
  Event_findById id (events w) = None ->
  listForEvent req_user eventId w
  = (mkResponse NotFound (JsonMsg "Event not found"), w).
Proof.
  intros H Hcast Hid. unfold listForEvent. unfold_m.
  rewrite (findById_cast _ _ _ id _ _ H Hcast). now rewrite Hid.
Qed.

(** X26: the creator of an event is given exactly the registrations of that
    event, newest first, and the store is left as it was. *)
Lemma listForEvent_creator (w : World) (req_user : User) (eventId : ObjectId)
  (event : Event) :
  Event_findById eventId (events w) = Some event ->
  event_createdBy event = user_id req_user ->
  exists rs,
    listForEvent req_user eventId w = (mkResponse 200 (JsonRegistrations rs), w) /\
    Permutation (filter (fun r => String.eqb (reg_event r) eventId)
                        (registrations w)) rs /\
    StronglySorted (desc reg_createdAt) rs.
Proof.
  intros Hev Hc. unfold listForEvent. unfold_m.
  rewrite (findById_found "Event" Event_findById _ _ _ w Hev), Hc.
  rewrite String.eqb_refl. cbn [negb].
  rewrite (proj1 (Event_findById_id _ _ _ Hev)).
  eexists. split; [reflexivity|].
  split; [apply sort_desc_perm | apply sort_desc_sorted].
Qed.

(** X27: whoever is not the creator makes the handler read [sharedWith] of
    a document that has none: the exception is caught and answered 500, and
    the store is left as it was. *)
Lemma listForEvent_not_creator (w : World) (req_user : User)
  (eventId : ObjectId) (event : Event) :
  Event_findById eventId (events w) = Some event ->
  event_createdBy event <> user_id req_user ->
  listForEvent req_user eventId w
  = (mkResponse ServerError (Text "Server Error"), w).
Proof.
  intros Hev Hc. unfold listForEvent. unfold_m.
  rewrite (findById_found "Event" Event_findById _ _ _ w Hev).
  apply String.eqb_neq in Hc. rewrite Hc. reflexivity.
Qed.

(** C3 (the code departs from the claim): Bob did not create the event
    [e1] and asks for its registrations; the claim promises 403, the handler
    answers 500. *)
Theorem listForEvent_outsider_server_error :
  Event_findById "e1" (events world0) = Some camp /\
  event_createdBy camp <> user_id bob /\
  listForEvent bob "e1" world0
  = (mkResponse ServerError (Text "Server Error"), world0) /\
  status (fst (listForEvent bob "e1" world0)) <> Forbidden.
Proof.
  split; [reflexivity|].
  split; [discriminate|].
  split; [reflexivity | discriminate].
Qed.

(* ------------------------------------------------------------------ *)
(** ** Stored registrations *)

Lemma findById_id (l : list EventRegistration) (id : ObjectId)
  (r : EventRegistration) :
  EventRegistration_findById id l = Some r -> reg_id r = id.
Proof.
  intros H. apply find_some in H. destruct H as [_ H].
  now apply String.eqb_eq.
Qed.

Lemma find_replace (l : list EventRegistration) (id : ObjectId)
  (r r' : EventRegistration) :
  EventRegistration_findById id l = Some r ->
  reg_id r' = reg_id r ->
  EventRegistration_findById id (replace_registration r' l) = Some r'.
Proof.
  intros Hfind Hid. pose proof (findById_id _ _ _ Hfind) as Hr.
  assert (Hid' : reg_id r' = id) by congruence. clear Hid Hr.
  revert Hfind. unfold EventRegistration_findById, replace_registration.
  rewrite Hid'.
  induction l as [|a l IH]; simpl; [discriminate|].
  destruct (String.eqb_spec (reg_id a) id) as [Ha|Ha].
  - intros _. now rewrite Hid', String.eqb_refl.
  - intros Hfind. destruct (String.eqb_spec (reg_id a) id); [contradiction|].
    now apply IH.
Qed.

Lemma with_status_id (st : string) (r : EventRegistration) :
  reg_id (with_status st r) = reg_id r.
Proof. reflexivity. Qed.

(** C5: with no failing write, [updateStatus] answers 404 when the text of
    the registration id is an ObjectId under which no registration is
    stored, or the event of the registration is missing, and 500 when the
    text is no ObjectId, the query having rejected; it answers 403 when the
    requester did not create the event, and otherwise stores the given
    status as it is and adds one notification that tells the change from
    the old status to the new one and whose recipient is the identifier of
    the registration. *)
Theorem updateStatus_spec (w : World) (req_user : User)
  (registrationId : string) (newStatus : string) :
  faults w = [] ->
  let resp := fst (updateStatus req_user registrationId newStatus w) in
  let w' := snd (updateStatus req_user registrationId newStatus w) in
  match EventRegistration_findById registrationId (registrations w) with
  | None =>
      match cast_ObjectId registrationId with
      | Some id =>
          EventRegistration_findById id (registrations w) = None ->
          status resp = NotFound /\ w' = w
      | None => resp = mkResponse ServerError (Text "Server Error") /\ w' = w
      end
  | Some registration =>
      match Event_findById (reg_event registration) (events w) with
      | None => status resp = NotFound /\ w' = w
      | Some event =>
          if String.eqb (event_createdBy event) (user_id req_user)
          then
            resp = mkResponse 200
                     (JsonRegistration (with_status newStatus registration)) /\
            registrations w'
              = replace_registration (with_status newStatus registration)
                                     (registrations w) /\
            (exists stored,
               EventRegistration_findById registrationId (registrations w')
                 = Some stored /\
               reg_status stored = newStatus) /\
            exists n,
              notifications w' = (notifications w ++ [n])%list /\
              notif_recipient n = registrationId /\
              notif_recipient n = reg_id registration /\
              contains ("from " ++ reg_status registration ++ " to " ++ newStatus)
                       (notif_message n)
          else status resp = Forbidden /\ w' = w
      end
  end.
Proof.
  intros Hf resp w'. subst resp w'. unfold updateStatus. unfold_m.
  destruct (EventRegistration_findById registrationId (registrations w))
    as [registration|] eqn:Hreg.
  2:{ destruct (cast_ObjectId registrationId) as [id|] eqn:Hcast.
      - intros Hnone. rewrite (findById_cast _ _ _ id _ _ Hreg Hcast), Hnone.
        split; reflexivity.
      - rewrite (findById_malformed _ _ _ _ _ Hreg Hcast). split; reflexivity. }
  rewrite (findById_found "EventRegistration" EventRegistration_findById
             _ _ _ w Hreg).
  destruct (Event_findById (reg_event registration) (events w))
    as [event|] eqn:Hev; [|split; reflexivity].
  destruct (String.eqb (event_createdBy event) (user_id req_user)) eqn:Hc;
    cbn [negb]; [|split; reflexivity].
  rewrite db_write_run, Hf. cbn [hd].
  rewrite createNotification_run;
    [ | discriminate | discriminate | reflexivity ].
  cbn [faults set_registrations pop_fault set_faults set_nextOid].
  rewrite Hf.
  cbn [tl hd fst snd registrations notifications set_notifications].
  split; [reflexivity|].
  split; [reflexivity|].
  split.
  { exists (with_status newStatus registration). split; [|reflexivity].
    apply find_replace with registration; [exact Hreg | reflexivity]. }
  eexists. split; [reflexivity|]. cbn [notif_recipient notif_message].
  rewrite with_status_id.
  split; [now apply findById_id with (registrations w)|].
  split; [reflexivity|].
  contains_by ("Your registration status for " ++ dq ++ event_title event ++ dq
                 ++ " has been updated ") EmptyString.
Qed.

(* ------------------------------------------------------------------ *)
(** ** Sets of identifiers *)

Lemma set_add_In (seen : list string) (x y : string) :
  In y (set_add seen x) <-> In y seen \/ y = x.
Proof.
  induction seen as [|z seen IH]; simpl.
  - intuition.
  - destruct (String.eqb_spec x z) as [->|Hxz]; simpl.
    + intuition.
    + rewrite IH. intuition.
Qed.

Lemma set_add_NoDup (seen : list string) (x : string) :
  NoDup seen -> NoDup (set_add seen x).
Proof.
  induction 1 as [|z seen Hz Hnd IH]; simpl.
  - constructor; [intros [] | constructor].
  - destruct (String.eqb_spec x z) as [->|Hxz].
    + now constructor.
    + constructor; [|exact IH].
      rewrite set_add_In. intros [H| ->]; [contradiction | congruence].
Qed.

Lemma set_add_fresh (seen : list string) (x : string) :
  ~ In x seen -> set_add seen x = (seen ++ [x])%list.
Proof.
  induction seen as [|z seen IH]; simpl; [reflexivity|].
  intros H. destruct (String.eqb_spec x z) as [->|Hxz]; [tauto|].
  rewrite IH; [reflexivity | tauto].
Qed.

Lemma fold_set_add_In (l seen : list string) (y : string) :
  In y (fold_left set_add l seen) <-> In y seen \/ In y l.
Proof.
  revert seen. induction l as [|x l IH]; intros seen; simpl.
  - intuition.
  - rewrite IH, set_add_In. intuition.
Qed.

Lemma fold_set_add_NoDup (l seen : list string) :
  NoDup seen -> NoDup (fold_left set_add l seen).
Proof.
  revert seen. induction l as [|x l IH]; intros seen H; simpl; [exact H|].
  now apply IH, set_add_NoDup.
Qed.

Lemma fold_set_add_distinct (l seen : list string) :
  NoDup (seen ++ l) -> fold_left set_add l seen = (seen ++ l)%list.
Proof.
  revert seen. induction l as [|x l IH]; intros seen H; simpl.
  - now rewrite app_nil_r.
  - assert (Hx : ~ In x seen).
    { apply NoDup_remove_2 in H. intros Hin. apply H, in_or_app. now left. }
    rewrite set_add_fresh by exact Hx.
    rewrite IH; rewrite <- app_assoc; [reflexivity | exact H].
Qed.

Lemma new_Set_In (l : list string) (y : string) : In y (new_Set l) <-> In y l.
Proof. unfold new_Set. rewrite fold_set_add_In. simpl. intuition. Qed.

Lemma new_Set_NoDup (l : list string) : NoDup (new_Set l).
Proof. apply fold_set_add_NoDup. constructor. Qed.

Lemma new_Set_distinct (l : list string) : NoDup l -> new_Set l = l.
Proof. intros H. unfold new_Set. now rewrite fold_set_add_distinct. Qed.

(* ------------------------------------------------------------------ *)
(** ** Sharing a registration *)

Lemma canonical_rendered (text : string) :
  is_ObjectId text -> canonical text = text.
Proof. unfold is_ObjectId, canonical. now intros ->. Qed.

Lemma map_canonical_rendered (ids : list string) :
  Forall is_ObjectId ids -> map canonical ids = ids.
Proof.
  induction 1 as [|id ids Hid _ IH]; [reflexivity|].
  cbn [map]. now rewrite (canonical_rendered _ Hid), IH.
Qed.

Lemma cast_all_rendered (ids : list string) :
  Forall is_ObjectId ids -> cast_all ids = Some ids.
Proof.
  induction 1 as [|id ids Hid _ IH]; [reflexivity|].
  cbn [cast_all]. unfold is_ObjectId in Hid. now rewrite Hid, IH.
Qed.

Lemma new_Set_Forall (P : string -> Prop) (ids : list string) :
  Forall P ids -> Forall P (new_Set ids).
Proof.
  rewrite !Forall_forall. intros H x Hx. now apply H, new_Set_In.
Qed.

(** A list in which a value of its first part occurs in its second part
    has a duplicate. *)
Lemma app_shared_duplicate (l1 l2 : list string) (x : string) :
  In x l1 -> In x l2 -> ~ NoDup (l1 ++ l2).
Proof.
  intros H1 H2 Hnd. destruct (in_split _ _ H1) as (a & b & ->).
  rewrite <- app_assoc in Hnd. cbn [app] in Hnd.
  apply NoDup_remove_2 in Hnd. apply Hnd.
  apply in_or_app. right. apply in_or_app. now right.
Qed.

Lemma notify_shared_run (event : Event) (ids : list string) (w : World) :
  faults w = [] ->
  exists w1 ns,
    notify_shared event ids w = (Ok tt, w1) /\
    faults w1 = [] /\ users w1 = users w /\ events w1 = events w /\
    registrations w1 = registrations w /\
    notifications w1 = (notifications w ++ ns)%list /\
    map notif_recipient ns = map canonical ids /\
    Forall (fun n => notif_title n = "Event Registration Shared" /\
                     notif_link n = Some ("/event-registrations/" ++ event_id event))
           ns.
Proof.
  revert w. induction ids as [|userId ids IH]; intros w Hf.
  - exists w, []. simpl. rewrite app_nil_r. unfold ret. repeat split; auto.
  - cbn [notify_shared]. unfold bind at 1.
    rewrite createNotification_run;
      [ | discriminate | discriminate | reflexivity ].
    rewrite Hf. cbn [hd].
    match goal with
    | |- context [notify_shared event ids ?w0] =>
        destruct (IH w0) as (w1 & ns & Hrun & Hf1 & Hu & He & Hr & Hn & Hm & Hall);
          [cbn; now rewrite Hf|]
    end.
    rewrite Hrun. eexists; eexists. split; [reflexivity|].
    split; [exact Hf1|]. split; [exact Hu|]. split; [exact He|].
    split; [exact Hr|].
    split; [rewrite Hn; cbn [notifications set_notifications set_nextOid
                             pop_fault set_faults];
            rewrite <- app_assoc; reflexivity|].
    split; [cbn [map app notif_recipient]; now rewrite Hm|].
    cbn [app]. constructor; [split; reflexivity | exact Hall].
Qed.

Lemma share_owner_step (w : World) (owner : User) (registrationId : string)
  (registration : EventRegistration) (event : Event) (ids : list string) :
  faults w = [] ->
  EventRegistration_findById registrationId (registrations w) = Some registration ->
  Event_findById (reg_event registration) (events w) = Some event ->
  user_id owner = event_createdBy event ->
  Forall is_ObjectId ids ->
  let r1 := with_sharedWith (reg_sharedWith registration ++ new_Set ids)%list
                            registration in
  exists w1 ns,
    share owner registrationId (Some ids) w
      = (mkResponse 200 (JsonRegistration r1), w1) /\
    faults w1 = [] /\ events w1 = events w /\
    EventRegistration_findById registrationId (registrations w1) = Some r1 /\
    notifications w1 = (notifications w ++ ns)%list /\
    map notif_recipient ns = ids.
Proof.
  intros Hf Hreg Hev Howner Hids r1.
  unfold share. unfold_m.
  rewrite (findById_found "EventRegistration" EventRegistration_findById
             _ _ _ w Hreg).
  rewrite Hev, Howner, String.eqb_refl.
  cbn [negb]. rewrite (cast_all_rendered _ (new_Set_Forall _ _ Hids)).
  fold r1. rewrite db_write_run, Hf. cbn [hd].
  match goal with
  | |- context [notify_shared event ids ?w0] =>
      destruct (notify_shared_run event ids w0)
        as (w1 & ns & Hrun & Hf1 & Hu & He & Hr & Hn & Hm & Hall);
        [cbn; now rewrite Hf|]
  end.
  rewrite Hrun. exists w1, ns. split; [reflexivity|].
  split; [exact Hf1|]. split; [rewrite He; reflexivity|].
  split.
  { rewrite Hr. cbn [registrations set_registrations pop_fault set_faults].
    apply find_replace with registration; [exact Hreg | reflexivity]. }
  split; [rewrite Hn; reflexivity|].
  now rewrite Hm, map_canonical_rendered.
Qed.

(** X29: for a stored registration whose event exists and with no failing
    write, a requester who did not create the event is answered 403
    whatever the body, and the creator's call with ids that render
    ObjectIds appends to the stored [sharedWith] the distinct ids of the
    body, without comparing them with the ids stored already: the users the
    registration is shared with are those of before and those of the body,
    an id that was stored and is sent again is stored twice, and each id of
    the body is notified once, in order. *)
Theorem share_appends_and_notifies (w : World) (owner outsider : User)
  (registrationId : string) (registration : EventRegistration)
  (event : Event) (ids : list string) :
  faults w = [] ->
  EventRegistration_findById registrationId (registrations w) = Some registration ->
  Event_findById (reg_event registration) (events w) = Some event ->
  user_id owner = event_createdBy event ->
  user_id outsider <> event_createdBy event ->
  Forall is_ObjectId ids ->
  (forall body, share outsider registrationId body w
                = (mkResponse Forbidden (JsonMsg "Not authorized"), w)) /\
  exists r1 w1 ns,
    share owner registrationId (Some ids) w
      = (mkResponse 200 (JsonRegistration r1), w1) /\
    EventRegistration_findById registrationId (registrations w1) = Some r1 /\
    reg_sharedWith r1 = (reg_sharedWith registration ++ new_Set ids)%list /\
    (forall x, In x (reg_sharedWith r1) <->
               In x (reg_sharedWith registration) \/ In x ids) /\
    (forall x, In x (reg_sharedWith registration) -> In x ids ->
               ~ NoDup (reg_sharedWith r1)) /\
    notifications w1 = (notifications w ++ ns)%list /\
    map notif_recipient ns = ids.
Proof.
  intros Hf Hreg Hev Howner Hout Hids. split.
  { intros body. unfold share. unfold_m.
    rewrite (findById_found "EventRegistration" EventRegistration_findById
               _ _ _ w Hreg).
    rewrite Hev.
    assert (Hne : String.eqb (event_createdBy event) (user_id outsider) = false)
      by (apply String.eqb_neq; congruence).
    now rewrite Hne. }
  destruct (share_owner_step w owner registrationId registration event ids
              Hf Hreg Hev Howner Hids)
    as (w1 & ns & H1 & _ & _ & Hfind1 & Hn1 & Hm1).
  eexists; exists w1, ns.
  split; [exact H1|]. split; [exact Hfind1|].
  cbn [reg_sharedWith with_sharedWith].
  split; [reflexivity|].
  split; [intros x; rewrite in_app_iff, new_Set_In; reflexivity|].
  split; [|split; assumption].
  intros x Hold Hnew. apply app_shared_duplicate with x; [exact Hold|].
  now apply new_Set_In.
Qed.

(* ------------------------------------------------------------------ *)
(** ** Promises and the fan-out of a new event *)

Lemma Promise_all_fulfilled {A} (ps : list (Promise A)) (w : World) :
  existsb is_rejected ps = false -> Promise_all ps w = (Ok (fulfilled ps), w).
Proof.
  induction ps as [|[a|e] ps IH]; simpl; intros H; [reflexivity | | discriminate].
  unfold_m. now rewrite IH.
Qed.

Lemma Promise_all_rejected {A} (ps : list (Promise A)) (w : World) :
  existsb is_rejected ps = true ->
  exists e, In (Throw e) ps /\ Promise_all ps w = (Throw e, w).
Proof.
  induction ps as [|[a|e] ps IH]; simpl; intros H; [discriminate | | ].
  - destruct (IH H) as (e & Hin & Hrun). exists e.
    split; [now right|]. unfold_m. now rewrite Hrun.
  - exists e. split; [now left | reflexivity].
Qed.

Lemma upload_rejected {A} (f : UploadFile -> Promise A) (files : list UploadFile) :
  (forall file, is_rejected (f file) = true -> f file = Throw (UploadError "Error")) ->
  (forall file, is_rejected (f file)
                = match file_upload file with Some _ => false | None => true end) ->
  forall w,
    (if is_nil files then ret [] else Promise_all (map f files)) w
    = if uploads_ok files then (Ok (fulfilled (map f files)), w)
      else (Throw (UploadError "Error"), w).
Proof.
  intros Herr Hrej w.
  assert (Hall : Promise_all (map f files) w
                 = if uploads_ok files then (Ok (fulfilled (map f files)), w)
                   else (Throw (UploadError "Error"), w)).
  { induction files as [|file files IH]; [reflexivity|].
    cbn [map Promise_all uploads_ok forallb fulfilled].
    specialize (Hrej file). specialize (Herr file).
    destruct (f file) as [a|e] eqn:Hf; cbn [is_rejected] in *.
    - destruct (file_upload file); [|discriminate]. cbn [andb].
      unfold_m. fold (uploads_ok files). rewrite IH.
      now destruct (uploads_ok files).
    - destruct (file_upload file); [discriminate|]. cbn [andb].
      specialize (Herr eq_refl). now injection Herr as ->. }
  destruct files; [reflexivity | exact Hall].
Qed.

Lemma upload_images_run (files : list UploadFile) (w : World) :
  (if is_nil files then ret [] else Promise_all (map upload_image files)) w
  = if uploads_ok files then (Ok (fulfilled (map upload_image files)), w)
    else (Throw (UploadError "Error"), w).
Proof.
  apply upload_rejected; intros file; unfold upload_image;
    destruct (file_upload file) as [[? ?]|]; simpl; congruence.
Qed.

Lemma upload_reports_run (files : list UploadFile) (w : World) :
  (if is_nil files then ret [] else Promise_all (map upload_report files)) w
  = if uploads_ok files then (Ok (fulfilled (map upload_report files)), w)
    else (Throw (UploadError "Error"), w).
Proof.
  apply upload_rejected; intros file; unfold upload_report;
    destruct (file_upload file) as [[? ?]|]; simpl; congruence.
Qed.

Lemma fanout_run (req_user : User) (title district : string) (event : Event)
  (us : list User) (w : World) :
  exists ps w1,
    map_start (notify_new_event req_user title district event) us w
      = (Ok ps, w1) /\
    users w1 = users w /\ events w1 = events w /\
    registrations w1 = registrations w /\
    map is_rejected (filter_Boolean ps)
      = flags (length (others req_user us)) (faults w) /\
    Forall (fun p => forall e, p = Throw e -> e = MongoError)
           (filter_Boolean ps) /\
    notifications w1 = (notifications w ++ fulfilled (filter_Boolean ps))%list /\
    Forall2 (fun u p => forall n, p = Ok n ->
                                  announces req_user title district event u n)
            (others req_user us) (filter_Boolean ps).
Proof.
  revert w. induction us as [|u us IH]; intros w.
  - exists [], w. cbn. rewrite app_nil_r. repeat split; constructor.
  - cbn [map_start others filter]. unfold notify_new_event at 1.
    fold (others req_user us).
    destruct (String.eqb_spec (user_id u) (user_id req_user)) as [Heq|Hne];
      cbn [negb].
    + destruct (IH w) as (ps & w1 & Hrun & Hu & He & Hr & Hfl & Herr & Hn & Hall).
      exists (None :: ps), w1. unfold bind at 1. unfold ret at 1.
      unfold bind at 1. rewrite Hrun. unfold ret.
      cbn [filter_Boolean]. repeat split; assumption.
    + unfold bind at 1. unfold bind at 1. unfold start.
      rewrite createNotification_run;
        [ | discriminate | discriminate | reflexivity ].
      cbn [length flags].
      destruct (hd false (faults w)) eqn:Hhd; unfold_m.
      * match goal with
        | |- context [map_start _ us ?w0] =>
            destruct (IH w0)
              as (ps & w1 & Hrun & Hu & He & Hr & Hfl & Herr & Hn & Hall)
        end.
        exists (Some (Throw MongoError) :: ps), w1. rewrite Hrun.
        cbn [filter_Boolean map is_rejected fulfilled] in *.
        split; [reflexivity|]. split; [exact Hu|]. split; [exact He|].
        split; [exact Hr|]. split; [now rewrite Hfl|].
        split; [constructor; [intros e [= <-]; reflexivity | exact Herr]|].
        split; [exact Hn|].
        constructor; [intros n [=] | exact Hall].
      * match goal with
        | |- context [map_start _ us ?w0] =>
            destruct (IH w0)
              as (ps & w1 & Hrun & Hu & He & Hr & Hfl & Herr & Hn & Hall)
        end.
        eexists (Some (Ok _) :: ps), w1. rewrite Hrun.
        cbn [filter_Boolean map is_rejected fulfilled] in *.
        split; [reflexivity|]. split; [exact Hu|]. split; [exact He|].
        split; [exact Hr|]. split; [now rewrite Hfl|].
        split; [constructor; [intros e [=] | exact Herr]|].
        split.
        { rewrite Hn. cbn [notifications set_notifications set_nextOid
                           pop_fault set_faults].
          rewrite <- app_assoc. reflexivity. }
        constructor; [|exact Hall].
        intros n [= <-]. unfold announces. cbn [notif_recipient notif_title
          notif_message notif_type notif_read notif_link].
        repeat split; try reflexivity. congruence.
Qed.

Lemma fulfilled_count {A} (ps : list (Promise A)) :
  length (fulfilled ps) = length (filter negb (map is_rejected ps)).
Proof.
  induction ps as [|[a|e] ps IH]; simpl; [reflexivity | now rewrite IH | exact IH].
Qed.

Lemma any_fails_rejected {A} (ps : list (Promise A)) :
  any_fails (map is_rejected ps) = existsb is_rejected ps.
Proof.
  unfold any_fails. induction ps as [|p ps IH]; simpl; [reflexivity|].
  now rewrite IH.
Qed.

Section EventFacts.
Variable isISO8601 : string -> bool.

Lemma createEvent_invalid (req_user : User) (b : EventBody)
  (images reports : list UploadFile) (w : World) :
  errors_of (event_checks isISO8601 b) <> [] ->
  createEvent isISO8601 req_user b images reports w
  = (mkResponse 400 (JsonErrors (errors_of (event_checks isISO8601 b))), w).
Proof.
  intros H. unfold createEvent, try_catch.
  rewrite (is_nil_false _ H). reflexivity.
Qed.

Lemma createEvent_upload_refused (req_user : User) (b : EventBody)
  (images reports : list UploadFile) (w : World) :
  errors_of (event_checks isISO8601 b) = [] ->
  uploads_ok images && uploads_ok reports = false ->
  createEvent isISO8601 req_user b images reports w
  = (mkResponse 500 (JsonMessageError "Server error" "upload failed"), w).
Proof.
  intros Hv Hup. unfold createEvent, try_catch.
  rewrite Hv. cbn [is_nil negb].
  unfold bind at 1. rewrite upload_images_run.
  destruct (uploads_ok images); [|reflexivity].
  unfold bind at 1. rewrite upload_reports_run.
  destruct (uploads_ok reports); [discriminate | reflexivity].
Qed.

Lemma createEvent_write_refused (req_user : User) (b : EventBody)
  (images reports : list UploadFile) (w : World) :
  errors_of (event_checks isISO8601 b) = [] ->
  uploads_ok images = true -> uploads_ok reports = true ->
  hd false (faults w) = true ->
  status (fst (createEvent isISO8601 req_user b images reports w)) = 500.
Proof.
  intros Hv Himg Hrep Hhd. unfold createEvent, try_catch.
  rewrite Hv. cbn [is_nil negb].
  unfold bind at 1. rewrite upload_images_run, Himg.
  unfold bind at 1. rewrite upload_reports_run, Hrep.
  unfold new_ObjectId. unfold_m. rewrite db_write_run.
  cbn [faults set_nextOid]. rewrite Hhd. reflexivity.
Qed.

Lemma createEvent_run (req_user : User) (b : EventBody)
  (images reports : list UploadFile) (w : World) :
  errors_of (event_checks isISO8601 b) = [] ->
  uploads_ok images = true -> uploads_ok reports = true ->
  hd false (faults w) = false ->
  let event := new_event req_user b images reports w in
  exists ps w',
    createEvent isISO8601 req_user b images reports w
    = (if existsb is_rejected ps
       then mkResponse 500 (JsonMessageError "Server error" "write failed")
       else mkResponse 201 (JsonEvent event), w') /\
    users w' = users w /\
    events w' = (events w ++ [event])%list /\
    registrations w' = registrations w /\
    map is_rejected ps
      = flags (length (others req_user (users w))) (tl (faults w)) /\
    notifications w' = (notifications w ++ fulfilled ps)%list /\
    Forall2 (fun u p => forall n, p = Ok n ->
               announces req_user (trim (eb_title b)) (trim (eb_district b))
                         event u n)
            (others req_user (users w)) ps.
Proof.
  intros Hv Himg Hrep Hhd event. unfold createEvent, try_catch.
  rewrite Hv. cbn [is_nil negb].
  unfold bind at 1. rewrite upload_images_run, Himg.
  unfold bind at 1. rewrite upload_reports_run, Hrep.
  unfold new_ObjectId. unfold bind at 1. unfold bind at 1. unfold get at 1.
  unfold bind at 1. rewrite db_write_run.
  cbn [faults set_nextOid now]. rewrite Hhd. fold event.
  unfold bind at 1. unfold get at 1. unfold bind at 1.
  match goal with
  | |- context [map_start (notify_new_event _ _ _ ?ev) ?us ?w0] =>
      destruct (fanout_run req_user (trim (eb_title b)) (trim (eb_district b))
                           ev us w0)
        as (ps & w1 & Hrun & Hu & He & Hr & Hfl & Herr & Hn & Hall)
  end.
  rewrite Hrun.
  cbn [users events registrations notifications faults set_events
       set_nextOid pop_fault set_faults] in *.
  fold event in Hall.
  exists (filter_Boolean ps), w1.
  split.
  { unfold bind. destruct (existsb is_rejected (filter_Boolean ps)) eqn:Hrej.
    - destruct (Promise_all_rejected _ w1 Hrej) as (e & Hin & Hthrow).
      rewrite Hthrow.
      rewrite Forall_forall in Herr.
      now rewrite (Herr _ Hin e eq_refl).
    - now rewrite (Promise_all_fulfilled _ w1 Hrej). }
  repeat split; assumption.
Qed.

(** C2, as the handler has it: for a valid request whose uploads and
    event write succeed, the event is stored whatever happens next; the
    answer is 201 with the event when none of the fan-out writes fails, and
    500 as soon as one of them fails; the notifications that were written
    stay. *)
Theorem createEvent_fanout_failure_surfaces (req_user : User) (b : EventBody)
  (images reports : list UploadFile) (w : World) :
  errors_of (event_checks isISO8601 b) = [] ->
  uploads_ok images = true -> uploads_ok reports = true ->
  hd false (faults w) = false ->
  let out := createEvent isISO8601 req_user b images reports w in
  let outcomes :=
    flags (length (others req_user (users w))) (tl (faults w)) in
  exists event,
    events (snd out) = (events w ++ [event])%list /\
    event_createdBy event = user_id req_user /\
    (any_fails outcomes = false ->
       fst out = mkResponse 201 (JsonEvent event)) /\
    (any_fails outcomes = true -> status (fst out) = ServerError) /\
    length (notifications (snd out))
      = length (notifications w) + length (filter negb outcomes).
Proof.
  intros Hv Himg Hrep Hhd out outcomes.
  destruct (createEvent_run req_user b images reports w Hv Himg Hrep Hhd)
    as (ps & w' & Hrun & Hu & He & Hr & Hfl & Hn & Hall).
  subst out outcomes. rewrite Hrun, <- Hfl, any_fails_rejected.
  cbn [fst snd].
  exists (new_event req_user b images reports w).
  split; [exact He|]. split; [reflexivity|].
  split; [intros ->; reflexivity|].
  split; [intros ->; reflexivity|].
  now rewrite Hn, length_app, fulfilled_count.
Qed.

(** C7: when the creation is answered 201, the event is stored and the new
    notifications are exactly one per user other than the creator, in the
    order of the users: none for the creator, each with the title of a new
    event, a message that names the district of the event, and the link
    [/events/] followed by the id of the event. *)
Theorem createEvent_notifies_everyone_else (req_user : User) (b : EventBody)
  (images reports : list UploadFile) (w w' : World) (resp : Response) :
  createEvent isISO8601 req_user b images reports w = (resp, w') ->
  status resp = 201 ->
  exists event ns,
    resp = mkResponse 201 (JsonEvent event) /\
    events w' = (events w ++ [event])%list /\
    notifications w' = (notifications w ++ ns)%list /\
    length ns = length (others req_user (users w)) /\
    map notif_recipient ns = map user_id (others req_user (users w)) /\
    Forall (fun n =>
              notif_recipient n <> user_id req_user /\
              notif_title n = "New Event Created" /\
              contains (event_district event) (notif_message n) /\
              notif_link n = Some ("/events/" ++ event_id event)) ns.
Proof.
  intros Hrun Hst.
  destruct (errors_of (event_checks isISO8601 b)) as [|e es] eqn:Hv.
  2:{ rewrite createEvent_invalid in Hrun by (rewrite Hv; discriminate).
      injection Hrun as <- _. discriminate Hst. }
  destruct (uploads_ok images && uploads_ok reports) eqn:Hup.
  2:{ rewrite (createEvent_upload_refused req_user b images reports w Hv Hup)
        in Hrun.
      injection Hrun as <- _. discriminate Hst. }
  apply andb_true_iff in Hup. destruct Hup as [Himg Hrep].
  destruct (hd false (faults w)) eqn:Hhd.
  { pose proof (createEvent_write_refused req_user b images reports w
                  Hv Himg Hrep Hhd) as H.
    rewrite Hrun in H. cbn [fst] in H. congruence. }
  destruct (createEvent_run req_user b images reports w Hv Himg Hrep Hhd)
    as (ps & w1 & Hrun1 & Hu & He & Hr & Hfl & Hn & Hall).
  rewrite Hrun in Hrun1.
  destruct (existsb is_rejected ps) eqn:Hrej;
    injection Hrun1 as -> ->; [discriminate Hst|].
  exists (new_event req_user b images reports w), (fulfilled ps).
  split; [reflexivity|]. split; [exact He|]. split; [exact Hn|].
  clear Hrun Hst Hfl Hn He.
  revert Hrej Hall. generalize (others req_user (users w)) as us.
  induction ps as [|[n|e] ps IH]; intros us Hrej Hall;
    inversion Hall as [|u p us' ps' Hhead Htail]; subst;
    cbn [fulfilled length map existsb is_rejected orb] in *;
    [repeat split; constructor | | discriminate].
  destruct (IH us' Hrej Htail) as (Hlen & Hmap & Hfor).
  destruct (Hhead n eq_refl) as (Hrec & Hnot & Htitle & Hmsg & _ & _ & Hlink).
  split; [now rewrite Hlen|].
  split; [now rewrite Hrec, Hmap|].
  constructor; [|exact Hfor].
  split; [exact Hnot|]. split; [exact Htitle|]. split; [|exact Hlink].
  rewrite Hmsg. cbn [event_district new_event].
  contains_by ("A new event " ++ dq ++ trim (eb_title b) ++ dq
                 ++ " has been created in ") EmptyString.
Qed.
End EventFacts.

(* ------------------------------------------------------------------ *)
(** ** The statements at the sample data *)

(** A failing fan-out write is not hidden: Alice creates an event while Bob
    and Carol exist, the event is written, the notification for Bob is
    refused by the store and the one for Carol is written.  The request is
    valid, the event is stored, and the answer is 500, not 201. *)
Lemma createEvent_fanout_failure_is_surfaced :
  let w := world_second_write_fails in
  let out := createEvent date_shaped alice fair [] [] w in
  errors_of (event_checks date_shaped fair) = [] /\
  map event_title (events (snd out)) = ["Health camp"; "Book fair"] /\
  map notif_recipient (notifications (snd out))
    = (map notif_recipient (notifications w) ++ ["u3"])%list /\
  status (fst out) = ServerError /\
  status (fst out) <> 201.
Proof.
  cbv zeta. split; [reflexivity|].
  split; [vm_compute; reflexivity|].
  split; [vm_compute; reflexivity|].
  split; [vm_compute; reflexivity|].
  vm_compute. discriminate.
Qed.

(** At the sample data: the write for Bob fails, the answer is 500. *)
Lemma createEvent_fanout_failure_surfaces_witness :
  errors_of (event_checks date_shaped fair) = [] /\
  uploads_ok [] = true /\
  hd false (faults world_second_write_fails) = false /\
  status (fst (createEvent date_shaped alice fair [] []
                           world_second_write_fails)) = ServerError.
Proof.
  split; [reflexivity|]. split; [reflexivity|]. split; [reflexivity|].
  destruct (createEvent_fanout_failure_surfaces date_shaped alice fair [] []
              world_second_write_fails eq_refl eq_refl eq_refl eq_refl)
    as (event & _ & _ & _ & Hfail & _).
  apply Hfail. reflexivity.
Defined.

(** At the sample data: Alice creates an event, Bob and Carol are
    notified. *)
Lemma createEvent_notifies_everyone_else_witness :
  let out := createEvent date_shaped alice fair [] [] world0 in
  createEvent date_shaped alice fair [] [] world0 = (fst out, snd out) /\
  status (fst out) = 201 /\
  exists event ns,
    fst out = mkResponse 201 (JsonEvent event) /\
    notifications (snd out) = (notifications world0 ++ ns)%list /\
    length ns = 2 /\
    map notif_recipient ns = ["u2"; "u3"].
Proof.
  cbv zeta.
  assert (Hrun : createEvent date_shaped alice fair [] [] world0
                 = (fst (createEvent date_shaped alice fair [] [] world0),
                    snd (createEvent date_shaped alice fair [] [] world0)))
    by apply surjective_pairing.
  assert (Hst : status (fst (createEvent date_shaped alice fair [] [] world0))
                = 201) by reflexivity.
  split; [exact Hrun|]. split; [exact Hst|].
  destruct (createEvent_notifies_everyone_else date_shaped alice fair [] []
              world0 _ _ Hrun Hst)
    as (event & ns & Hresp & _ & Hn & Hlen & Hmap & _).
  exists event, ns. repeat split; assumption.
Defined.

(** At the sample data: Ravi registers for the health camp of Alice. *)
Lemma register_persists_then_notifies_witness :
  validationResult has_at ravi = [] /\
  Event_findById (rb_event ravi) (events world0) = Some camp /\
  hd false (faults world0) = false /\
  exists registration resp w',
    register has_at ravi world0 = (resp, w') /\
    reg_status registration = "pending" /\
    registrations w' = (registrations world0 ++ [registration])%list /\
    exists n,
      notifications w' = (notifications world0 ++ [n])%list /\
      notif_recipient n = "u1".
Proof.
  split; [reflexivity|]. split; [reflexivity|]. split; [reflexivity|].
  destruct (register_persists_then_notifies has_at world0 ravi camp
              eq_refl eq_refl eq_refl)
    as (r & resp & w' & Hrun & Hst & _ & _ & Hregs & Hrest).
  cbn [faults world0 tl hd] in Hrest.
  destruct Hrest as (_ & n & Hn & Hrec & _).
  exists r, resp, w'. repeat split; try assumption.
  exists n. split; assumption.
Defined.

(** C4 (the code departs from the claim): Alice shares Ravi's registration
    with [uid1] and [uid2], and then with [uid2] and [uid3].  Both calls are
    answered 200 and notify the two users they name, and the stored
    [sharedWith] holds [uid2] twice: the Set of the handler told the stored
    reference and the string of the body apart.  Sharing with [uid2] and
    [uid3] once more stores both again. *)
Theorem share_stores_duplicates :
  let shared out :=
    option_map reg_sharedWith
      (EventRegistration_findById "r1" (registrations (snd out))) in
  let recipients out := map notif_recipient (notifications (snd out)) in
  let out1 := share alice "r1" (Some [uid1; uid2]) world0 in
  let out2 := share alice "r1" (Some [uid2; uid3]) (snd out1) in
  let out3 := share alice "r1" (Some [uid2; uid3]) (snd out2) in
  Forall is_ObjectId [uid1; uid2; uid3] /\
  status (fst out1) = 200 /\
  status (fst out2) = 200 /\
  status (fst out3) = 200 /\
  shared out1 = Some [uid1; uid2] /\
  shared out2 = Some [uid1; uid2; uid2; uid3] /\
  ~ NoDup [uid1; uid2; uid2; uid3] /\
  shared out3 = Some [uid1; uid2; uid2; uid3; uid2; uid3] /\
  shared out3 <> shared out2 /\
  recipients out1
    = (map notif_recipient (notifications world0) ++ [uid1; uid2])%list /\
  recipients out2 = (recipients out1 ++ [uid2; uid3])%list.
Proof.
  cbv zeta.
  split; [repeat constructor|].
  split; [vm_compute; reflexivity|].
  split; [vm_compute; reflexivity|].
  split; [vm_compute; reflexivity|].
  split; [vm_compute; reflexivity|].
  split; [vm_compute; reflexivity|].
  split.
  { intros Hnd. inversion Hnd as [|x l _ Hnd1]; subst.
    inversion Hnd1 as [|y l' Hnotin _]; subst. apply Hnotin. now left. }
  split; [vm_compute; reflexivity|].
  split; [vm_compute; discriminate|].
  split; vm_compute; reflexivity.
Qed.

(** At the sample data: Alice shares Ravi's registration with [uid1] and
    [uid2]; Bob may not. *)
Lemma share_appends_and_notifies_witness :
  faults world0 = [] /\
  EventRegistration_findById "r1" (registrations world0) = Some ravi_reg /\
  Event_findById (reg_event ravi_reg) (events world0) = Some camp /\
  user_id alice = event_createdBy camp /\
  user_id bob <> event_createdBy camp /\
  Forall is_ObjectId [uid1; uid2; uid1] /\
  (forall body, share bob "r1" body world0
                = (mkResponse Forbidden (JsonMsg "Not authorized"), world0)) /\
  exists r1 w1,
    share alice "r1" (Some [uid1; uid2; uid1]) world0
      = (mkResponse 200 (JsonRegistration r1), w1) /\
    reg_sharedWith r1 = [uid1; uid2].
Proof.
  assert (Hout : user_id bob <> event_createdBy camp) by discriminate.
  assert (Hids : Forall is_ObjectId [uid1; uid2; uid1])
    by (repeat constructor).
  split; [reflexivity|]. split; [reflexivity|]. split; [reflexivity|].
  split; [reflexivity|]. split; [exact Hout|]. split; [exact Hids|].
  destruct (share_appends_and_notifies world0 alice bob "r1" ravi_reg camp
              [uid1; uid2; uid1] eq_refl eq_refl eq_refl eq_refl Hout Hids)
    as (Hforbidden & r1 & w1 & ns & H1 & _ & Hshared & _).
  split; [exact Hforbidden|].
  exists r1, w1. split; [exact H1 | exact Hshared].
Defined.

(** A registration id that is no ObjectId is not answered 404: the query
    rejects, and Alice's update of the registration [r9] is answered 500. *)
Lemma updateStatus_malformed_id_server_error :
  EventRegistration_findById "r9" (registrations world0) = None /\
  cast_ObjectId "r9" = None /\
  updateStatus alice "r9" "approved" world0
    = (mkResponse ServerError (Text "Server Error"), world0) /\
  status (fst (updateStatus alice "r9" "approved" world0)) <> NotFound.
Proof.
  split; [reflexivity|]. split; [reflexivity|].
  split; [reflexivity | vm_compute; discriminate].
Qed.

(** At the sample data: Alice approves Ravi's registration; Bob may not;
    a registration id under which nothing is stored is not found. *)
Lemma updateStatus_spec_witness :
  faults world0 = [] /\
  fst (updateStatus alice "r1" "approved" world0)
    = mkResponse 200 (JsonRegistration (with_status "approved" ravi_reg)) /\
  status (fst (updateStatus bob "r1" "approved" world0)) = Forbidden /\
  EventRegistration_findById absent_id (registrations world0) = None /\
  status (fst (updateStatus alice absent_id "approved" world0)) = NotFound.
Proof.
  split; [reflexivity|].
  split; [exact (proj1 (updateStatus_spec world0 alice "r1" "approved" eq_refl))|].
  split; [exact (proj1 (updateStatus_spec world0 bob "r1" "approved" eq_refl))|].
  split; [reflexivity|].
  exact (proj1 (updateStatus_spec world0 alice absent_id "approved" eq_refl
                  eq_refl)).
Defined.

(** An event text that is no ObjectId is not answered 404: Ravi's request,
    valid in every field, names the event [districts]; the query rejects,
    the answer is 500, and nothing is stored. *)
Lemma register_malformed_event_server_error :
  validationResult has_at ravi_districts = [] /\
  Event_findById (rb_event ravi_districts) (events world0) = None /\
  cast_ObjectId (rb_event ravi_districts) = None /\
  register has_at ravi_districts world0
    = (mkResponse ServerError (Text "Server Error"), world0) /\
  status (fst (register has_at ravi_districts world0)) <> NotFound.
Proof.
  split; [reflexivity|]. split; [reflexivity|]. split; [reflexivity|].
  split; [reflexivity | vm_compute; discriminate].
Qed.

(** At the sample data: the second page of two of Alice's three
    notifications. *)
Lemma getUserNotifications_page_witness :
  (1 <= 2)%Z /\ (1 <= 2)%Z /\
  exists p,
    getUserNotifications "u1" 2 2 world0 = (Ok p, world0) /\
    map notif_id (page_notifications p) = ["n1"] /\
    page_totalPages p = Some 2%Z.
Proof.
  split; [lia|]. split; [lia|].
  destruct (getUserNotifications_page world0 "u1" 2 2 ltac:(lia) ltac:(lia))
    as (p & tp & Hrun & _ & _ & Hpage & _ & _ & _ & Htp & Hceil & _).
  exists p. split; [exact Hrun|]. split; [now rewrite Hpage|].
  rewrite Htp. f_equal. cbn in Hceil. lia.
Defined.

(** At the sample data: Alice marks everything read, twice. *)
Lemma markAllAsRead_idempotent_witness :
  faults world0 = [] /\
  exists w1,
    markAllAsRead "u1" world0 = (Ok tt, w1) /\
    getUnreadCount "u1" w1 = (Ok 0, w1) /\
    markAllAsRead "u1" w1 = (Ok tt, w1).
Proof.
  split; [reflexivity|].
  destruct (markAllAsRead_idempotent world0 "u1" eq_refl)
    as (w1 & Hrun & Hcount & _ & _ & _ & Hagain & _).
  exists w1. repeat split; assumption.
Defined.

(* ------------------------------------------------------------------ *)
(** * Further properties of the code *)

(** ** The notification service, continued *)

(** [for_recipient] at a notification that is written out. *)
Ltac reduce_recipient :=
  repeat match goal with
  | |- context [for_recipient ?r (mkNotification ?a ?b ?c ?d ?e ?f ?g ?h)] =>
      change (for_recipient r (mkNotification a b c d e f g h))
        with (String.eqb b r)
  end.

Lemma getUnreadCount_run (userId : ObjectId) (w : World) :
  getUnreadCount userId w = (Ok (unread_count userId w), w).
Proof. reflexivity. Qed.

Lemma getUserNotifications_run (w : World) (userId : ObjectId) (page limit : Z) :
  (1 <= page)%Z -> (1 <= limit)%Z ->
  getUserNotifications userId page limit w
  = (Ok (mkPage
           (firstn (Z.to_nat limit)
              (skipn (Z.to_nat ((page - 1) * limit))
                 (sort_desc notif_createdAt
                    (filter (for_recipient userId) (notifications w)))))
           (Math_ceil_div
              (Z.of_nat (length (filter (for_recipient userId) (notifications w))))
              limit)
           page), w).
Proof.
  intros Hpage Hlimit.
  unfold getUserNotifications, cursor_skip, cursor_limit. unfold_m.
  destruct (Z.ltb_spec ((page - 1) * limit) 0) as [Hneg|_]; [nia|].
  destruct (Z.eqb_spec limit 0) as [Hz|_]; [lia|].
  now rewrite Zabs2Nat.abs_nat_nonneg by lia.
Qed.

Lemma sort_desc_length {A} (key : A -> nat) (l : list A) :
  length (sort_desc key l) = length l.
Proof. symmetry. apply Permutation_length, sort_desc_perm. Qed.

(** X1: for a positive page and limit, a page is empty exactly when its
    number exceeds [totalPages], and every page before the last one holds
    exactly [limit] notifications. *)
Theorem getUserNotifications_pages_cover (w : World) (userId : ObjectId)
  (page limit : Z) :
  (1 <= page)%Z -> (1 <= limit)%Z ->
  exists p tp,
    getUserNotifications userId page limit w = (Ok p, w) /\
    page_totalPages p = Some tp /\
    (page_notifications p = [] <-> (tp < page)%Z) /\
    ((page < tp)%Z -> length (page_notifications p) = Z.to_nat limit).
Proof.
  intros Hpage Hlimit.
  rewrite getUserNotifications_run by assumption.
  set (matching := filter (for_recipient userId) (notifications w)).
  destruct (Math_ceil_div_spec (Z.of_nat (length matching)) limit)
    as (tp & Htp & Hceil); [lia|].
  eexists; exists tp. split; [reflexivity|]. cbn [page_totalPages page_notifications].
  split; [exact Htp|].
  assert (Hlen : length (firstn (Z.to_nat limit)
                    (skipn (Z.to_nat ((page - 1) * limit))
                       (sort_desc notif_createdAt matching)))
                 = Nat.min (Z.to_nat limit)
                       (length matching - Z.to_nat ((page - 1) * limit))).
  { now rewrite length_firstn, length_skipn, sort_desc_length. }
  assert (Hs : (0 <= (page - 1) * limit)%Z) by nia.
  remember ((page - 1) * limit)%Z as s eqn:Es.
  remember (length matching) as total eqn:Et. clear Et.
  split.
  - rewrite <- length_zero_iff_nil, Hlen. split; intros H.
    + assert (Hle : (Z.of_nat total <= s)%Z) by lia.
      assert (Hlt : ((tp - 1) * limit < (page - 1) * limit)%Z) by lia.
      apply Z.mul_lt_mono_pos_r in Hlt; lia.
    + assert (Hle : (tp * limit <= (page - 1) * limit)%Z)
        by (apply Z.mul_le_mono_nonneg_r; lia).
      lia.
  - intros Hlt. rewrite Hlen.
    assert (Hle : (page * limit <= (tp - 1) * limit)%Z)
      by (apply Z.mul_le_mono_nonneg_r; lia).
    lia.
Qed.

Lemma sort_desc_newest {A} (key : A -> nat) (l : list A) (x : A) :
  Forall (fun y => key y < key x) l ->
  sort_desc key (l ++ [x]) = x :: sort_desc key l.
Proof.
  induction 1 as [|y l Hy Hl IH]; [reflexivity|].
  cbn [app sort_desc fold_right]. fold (sort_desc key (l ++ [x])).
  fold (sort_desc key l). rewrite IH. cbn [insert_desc].
  destruct (Nat.ltb_spec (key x) (key y)); [lia | reflexivity].
Qed.

(** X2: a notification that was just created, at a time later than the
    recipient's stored notifications, is the first item of the recipient's
    first page. *)
Theorem createNotification_heads_first_page (w : World)
  (recipientId : ObjectId) (title message type : string)
  (link : option string) (limit : Z) :
  title <> "" -> message <> "" -> includes notification_types type = true ->
  hd false (faults w) = false ->
  Forall (fun n => notif_recipient n = recipientId -> notif_createdAt n < now w)
         (notifications w) ->
  (1 <= limit)%Z ->
  exists n w1 p,
    createNotification recipientId title message type link w = (Ok n, w1) /\
    getUserNotifications recipientId 1 limit w1 = (Ok p, w1) /\
    hd_error (page_notifications p) = Some n.
Proof.
  intros Ht Hm Hty Hhd Hnew Hlimit.
  rewrite createNotification_run by assumption. rewrite Hhd.
  eexists; eexists; eexists. split; [reflexivity|].
  rewrite getUserNotifications_run by lia.
  split; [reflexivity|].
  cbn [page_notifications notifications set_notifications set_nextOid
       pop_fault set_faults].
  rewrite filter_app. cbn [filter]. reduce_recipient.
  rewrite String.eqb_refl.
  rewrite sort_desc_newest.
  - replace (Z.to_nat ((1 - 1) * limit)) with 0 by lia. cbn [skipn].
    destruct (Z.to_nat limit) eqn:Hl; [lia | reflexivity].
  - apply Forall_forall. intros y Hy. apply filter_In in Hy.
    destruct Hy as [Hin Hrec]. rewrite Forall_forall in Hnew.
    cbn [notif_createdAt]. apply Hnew; [exact Hin|].
    now apply for_recipient_eq.
Qed.

(** X3: creating a notification raises the unread count of its recipient by
    one and leaves the unread count of every other user as it was. *)
Theorem createNotification_raises_unread (w : World)
  (recipientId : ObjectId) (title message type : string)
  (link : option string) :
  title <> "" -> message <> "" -> includes notification_types type = true ->
  hd false (faults w) = false ->
  exists n w1,
    createNotification recipientId title message type link w = (Ok n, w1) /\
    notif_read n = false /\
    getUnreadCount recipientId w1 = (Ok (S (unread_count recipientId w)), w1) /\
    forall other, other <> recipientId ->
      getUnreadCount other w1 = (Ok (unread_count other w), w1).
Proof.
  intros Ht Hm Hty Hhd.
  rewrite createNotification_run by assumption. rewrite Hhd.
  eexists; eexists. split; [reflexivity|]. split; [reflexivity|].
  split.
  - rewrite getUnreadCount_run. f_equal. f_equal. unfold unread_count.
    cbn [notifications set_notifications set_nextOid pop_fault set_faults].
    rewrite filter_app, length_app. cbn [filter].
    unfold unread_for at 2. reduce_recipient.
    rewrite String.eqb_refl. cbn. lia.
  - intros other Hother. rewrite getUnreadCount_run. f_equal. f_equal.
    unfold unread_count.
    cbn [notifications set_notifications set_nextOid pop_fault set_faults].
    rewrite filter_app, length_app. cbn [filter].
    unfold unread_for at 2. reduce_recipient.
    assert (Hne : String.eqb recipientId other = false)
      by (apply String.eqb_neq; congruence).
    rewrite Hne. cbn. lia.
Qed.

(** X4: a notification with an empty title, an empty message or a type
    outside the enum of the schema is refused before any write: the call
    throws a validation error, nothing is stored and no write outcome is
    consumed. *)
Theorem createNotification_refuses_invalid (w : World)
  (recipientId : ObjectId) (title message type : string)
  (link : option string) :
  title = "" \/ message = "" \/ includes notification_types type = false ->
  exists path w1,
    createNotification recipientId title message type link w
      = (Throw (ValidatorError path), w1) /\
    notifications w1 = notifications w /\
    faults w1 = faults w.
Proof.
  intros H.
  unfold createNotification, Notification_save, validate_notification,
    new_ObjectId.
  unfold_m. cbn [notif_title notif_message notif_type].
  destruct (String.eqb_spec title "") as [Ht|Ht].
  { eexists; eexists. split; [reflexivity|]. split; reflexivity. }
  destruct (String.eqb_spec message "") as [Hm|Hm].
  { eexists; eexists. split; [reflexivity|]. split; reflexivity. }
  destruct H as [H|[H|H]]; [contradiction | contradiction |].
  rewrite H. cbn [negb].
  eexists; eexists. split; [reflexivity|]. split; reflexivity.
Qed.

Lemma find_none_iff {A} (p : A -> bool) (l : list A) :
  find p l = None <-> forall x, In x l -> p x = false.
Proof.
  split.
  - intros H x Hin. now apply (find_none p l H).
  - induction l as [|a l IH]; intros H; [reflexivity|]. simpl.
    rewrite (H a (or_introl eq_refl)). apply IH.
    intros x Hx. apply H. now right.
Qed.

Lemma Notification_findOne_none (l : list Notification) (userId id : ObjectId) :
  (forall n, In n l -> notif_id n = id -> notif_recipient n <> userId) ->
  Notification_findOne userId id l = None.
Proof.
  intros H. apply find_none_iff. intros n Hin.
  destruct (String.eqb_spec (notif_id n) id) as [Hid|Hid]; [|reflexivity].
  cbn [andb]. unfold for_recipient. apply String.eqb_neq. now apply H.
Qed.

Lemma markAsRead_absent (w : World) (text : string) (userId id : ObjectId) :
  cast_ObjectId text = Some id ->
  (forall n, In n (notifications w) -> notif_id n = text \/ notif_id n = id ->
             notif_recipient n <> userId) ->
  markAsRead text userId w = (Throw (PlainError "Notification not found"), w).
Proof.
  intros Hcast H. unfold markAsRead. unfold_m.
  rewrite (findById_cast _ _ _ id _ _
             (Notification_findOne_none _ _ _
                (fun n Hin Hid => H n Hin (or_introl Hid)))
             Hcast).
  now rewrite (Notification_findOne_none _ _ _
                 (fun n Hin Hid => H n Hin (or_intror Hid))).
Qed.

(** X5: under a text that is an ObjectId, marking as read a notification
    that does not exist and one that belongs to another user fail alike,
    with "Notification not found", and neither changes the store. *)
Theorem markAsRead_hides_foreign (w : World) (text : string)
  (userId id : ObjectId) :
  cast_ObjectId text = Some id ->
  (forall n, In n (notifications w) -> notif_id n = text \/ notif_id n = id ->
             notif_recipient n <> userId) ->
  markAsRead text userId w = (Throw (PlainError "Notification not found"), w).
Proof. apply markAsRead_absent. Qed.

(** X6: the route that marks one notification as read answers 500, not 404,
    when the requester has no notification under the text of the id, nor
    under the id the text is cast to, be it that none exists, that it
    belongs to another user, or that the text is no ObjectId; the store is
    left as it was. *)
Theorem route_markAsRead_foreign (w : World) (req_user : User) (id : string) :
  (forall n, In n (notifications w) ->
             notif_id n = id \/ cast_ObjectId id = Some (notif_id n) ->
             notif_recipient n <> user_id req_user) ->
  route_markAsRead req_user id w
  = (mkReply 500 (Message "Error marking notification as read"), w).
Proof.
  intros H. unfold route_markAsRead, try_catch, bind.
  destruct (cast_ObjectId id) as [id'|] eqn:Hcast.
  - rewrite (markAsRead_absent w id (user_id req_user) id' Hcast);
      [reflexivity|].
    intros n Hin [Hid|Hid]; apply (H n Hin); [now left | right; now rewrite Hid].
  - unfold markAsRead. unfold_m.
    rewrite (findById_malformed _ _ _ _ _
               (Notification_findOne_none _ _ _
                  (fun n Hin Hid => H n Hin (or_introl Hid)))
               Hcast).
    reflexivity.
Qed.

Lemma find_unique_id (l : list Notification) (n : Notification)
  (p : Notification -> bool) :
  NoDup (map notif_id l) -> In n l -> p n = true ->
  find (fun d => String.eqb (notif_id d) (notif_id n) && p d) l = Some n.
Proof.
  induction l as [|a l IH]; intros Hnd Hin Hp; [destruct Hin|].
  cbn [map] in Hnd. inversion Hnd as [|x xs Hnotin Hnd']; subst.
  cbn [find]. destruct Hin as [->|Hin].
  - now rewrite String.eqb_refl, Hp.
  - destruct (String.eqb_spec (notif_id a) (notif_id n)) as [Heq|_].
    + exfalso. apply Hnotin. rewrite Heq. now apply in_map.
    + cbn [andb]. now apply IH.
Qed.

Lemma replace_absent (l : list Notification) (id : ObjectId) (m : Notification) :
  ~ In id (map notif_id l) ->
  map (fun d => if String.eqb (notif_id d) id then m else d) l = l.
Proof.
  induction l as [|a l IH]; intros H; [reflexivity|]. cbn [map] in *.
  destruct (String.eqb_spec (notif_id a) id) as [Heq|_].
  - exfalso. apply H. now left.
  - rewrite IH; [reflexivity|]. intros Hin. apply H. now right.
Qed.

Lemma unread_after_mark (l : list Notification) (n : Notification)
  (other : ObjectId) :
  NoDup (map notif_id l) -> In n l ->
  length (filter (unread_for other)
            (map (fun d => if String.eqb (notif_id d) (notif_id n)
                           then mark_read n else d) l))
  + (if unread_for other n then 1 else 0)
  = length (filter (unread_for other) l).
Proof.
  induction l as [|a l IH]; intros Hnd Hin; [destruct Hin|].
  cbn [map] in Hnd. inversion Hnd as [|x xs Hnotin Hnd']; subst.
  cbn [map filter]. destruct Hin as [->|Hin].
  - rewrite String.eqb_refl, (replace_absent l _ _ Hnotin).
    assert (Hm : unread_for other (mark_read n) = false)
      by (unfold unread_for; cbn [mark_read notif_read]; apply andb_false_r).
    rewrite Hm. destruct (unread_for other n); cbn [length]; lia.
  - destruct (String.eqb_spec (notif_id a) (notif_id n)) as [Heq|_].
    + exfalso. apply Hnotin. rewrite Heq. now apply in_map.
    + specialize (IH Hnd' Hin).
      destruct (unread_for other a); cbn [length]; lia.
Qed.

(** X7: with unique identifiers, marking one's own notification as read
    returns it with [read] set, lowers one's unread count by one when it was
    unread and not at all when it was read already, and leaves the unread
    count of every other user as it was. *)
Theorem markAsRead_lowers_unread (w : World) (n : Notification) :
  NoDup (map notif_id (notifications w)) ->
  In n (notifications w) ->
  hd false (faults w) = false ->
  exists w1,
    markAsRead (notif_id n) (notif_recipient n) w = (Ok (mark_read n), w1) /\
    In (mark_read n) (notifications w1) /\
    unread_count (notif_recipient n) w1 + (if notif_read n then 0 else 1)
      = unread_count (notif_recipient n) w /\
    forall other, other <> notif_recipient n ->
      unread_count other w1 = unread_count other w.
Proof.
  intros Hnd Hin Hhd. unfold markAsRead. unfold_m.
  rewrite (findById_found "Notification"
             (Notification_findOne (notif_recipient n)) _ _ n w
             (find_unique_id _ n (for_recipient (notif_recipient n)) Hnd Hin
                (String.eqb_refl _))).
  rewrite db_write_run, Hhd. eexists. split; [reflexivity|].
  unfold unread_count.
  cbn [notifications set_notifications pop_fault set_faults mark_read notif_id].
  split.
  { apply in_map_iff. exists n. split; [|exact Hin].
    now rewrite String.eqb_refl. }
  split.
  - pose proof (unread_after_mark _ n (notif_recipient n) Hnd Hin) as H.
    cbn [mark_read notif_id] in H. rewrite <- H.
    unfold unread_for at 3. unfold for_recipient.
    rewrite String.eqb_refl. cbn [andb].
    destruct (notif_read n); cbn [negb]; lia.
  - intros other Hother.
    pose proof (unread_after_mark _ n other Hnd Hin) as H.
    cbn [mark_read notif_id] in H. rewrite <- H.
    unfold unread_for at 3. unfold for_recipient.
    assert (Hne : String.eqb (notif_recipient n) other = false)
      by (apply String.eqb_neq; congruence).
    rewrite Hne. cbn [andb]. lia.
Qed.

(* ------------------------------------------------------------------ *)
(** ** Deleting documents *)

Lemma remove_first_keeps {A} (p : A -> bool) (l : list A) (x y : A) :
  find p l = Some x -> In y l -> y <> x -> In y (remove_first p l).
Proof.
  induction l as [|a l IH]; intros Hfind Hin Hne; [destruct Hin|].
  cbn [find remove_first] in *. destruct (p a).
  - injection Hfind as <-. destruct Hin as [->|Hin]; [contradiction | exact Hin].
  - destruct Hin as [->|Hin]; [now left | right; now apply IH].
Qed.

Lemma remove_first_unique {A} (key : A -> string) (l : list A) (id : string) :
  NoDup (map key l) ->
  find (fun x => String.eqb (key x) id)
       (remove_first (fun x => String.eqb (key x) id) l) = None.
Proof.
  induction l as [|a l IH]; intros Hnd; [reflexivity|].
  cbn [map] in Hnd. inversion Hnd as [|x xs Hnotin Hnd']; subst.
  cbn [remove_first]. destruct (String.eqb_spec (key a) id) as [Heq|Hne].
  - apply find_none_iff. intros x Hx.
    apply String.eqb_neq. intros Hk. apply Hnotin.
    rewrite Heq, <- Hk. now apply in_map.
  - cbn [find]. apply String.eqb_neq in Hne. rewrite Hne. now apply IH.
Qed.

Section StorageFacts.
Variable destroy : string -> bool.

(** X8: deleting an event answers 404 when the text of the id is an
    ObjectId under which no event is stored, and 403 when the requester
    neither created the event nor is an admin; in both cases the store is
    left as it was. *)
Theorem deleteEvent_guard (w : World) (req_user : User) (id : string) :
  (forall id',
     cast_ObjectId id = Some id' ->
     Event_findById id (events w) = None ->
     Event_findById id' (events w) = None ->
     deleteEvent destroy req_user id w
     = (mkReply 404 (Message "Event not found"), w)) /\
  (forall event,
     Event_findById id (events w) = Some event ->
     event_createdBy event <> user_id req_user ->
     user_role req_user <> "admin" ->
     deleteEvent destroy req_user id w
     = (mkReply 403 (Message "Not authorized"), w)).
Proof.
  split.
  - intros id' Hcast H H'. unfold deleteEvent. unfold_m.
    rewrite (findById_cast _ _ _ id' _ _ H Hcast). now rewrite H'.
  - intros event H Hc Hr. unfold deleteEvent. unfold_m.
    rewrite (findById_found "Event" Event_findById _ _ _ w H).
    apply String.eqb_neq in Hc. apply String.eqb_neq in Hr.
    now rewrite Hc, Hr.
Qed.

Lemma destroy_all_fulfilled (event : Event) :
  (forall image, In image (event_images event) ->
                 destroy (image_publicId image) = true) ->
  (forall report, In report (event_reports event) ->
                  destroy (report_publicId report) = true) ->
  existsb is_rejected
    (map (fun image => destroy_file destroy (image_publicId image))
         (event_images event)
     ++ map (fun report => destroy_file destroy (report_publicId report))
            (event_reports event))%list = false.
Proof.
  intros Hi Hr. rewrite existsb_app. apply orb_false_iff. split.
  - induction (event_images event) as [|a l IH]; [reflexivity|].
    cbn [map existsb]. unfold destroy_file at 1.
    rewrite (Hi a (or_introl eq_refl)). cbn [is_rejected orb].
    apply IH. intros x Hx. apply Hi. now right.
  - induction (event_reports event) as [|a l IH]; [reflexivity|].
    cbn [map existsb]. unfold destroy_file at 1.
    rewrite (Hr a (or_introl eq_refl)). cbn [is_rejected orb].
    apply IH. intros x Hx. apply Hr. now right.
Qed.

(** X9: when the creator or an admin deletes an event, every attached file
    is released and the write succeeds, the event is gone, every other event
    stays, and the registrations of the event, like all registrations,
    notifications and users, are left in the store. *)
Theorem deleteEvent_removes_only_the_event (w : World) (req_user : User)
  (id : ObjectId) (event : Event) :
  NoDup (map event_id (events w)) ->
  Event_findById id (events w) = Some event ->
  event_createdBy event = user_id req_user \/ user_role req_user = "admin" ->
  (forall image, In image (event_images event) ->
                 destroy (image_publicId image) = true) ->
  (forall report, In report (event_reports event) ->
                  destroy (report_publicId report) = true) ->
  hd false (faults w) = false ->
  exists w1,
    deleteEvent destroy req_user id w
      = (mkReply 200 (Message "Event deleted"), w1) /\
    Event_findById id (events w1) = None /\
    (forall e, In e (events w) -> event_id e <> id -> In e (events w1)) /\
    registrations w1 = registrations w /\
    notifications w1 = notifications w /\
    users w1 = users w.
Proof.
  intros Hnd Hfind Hauth Hi Hr Hhd.
  destruct (Event_findById_id _ _ _ Hfind) as [Hid Hin].
  unfold deleteEvent. unfold_m.
  rewrite (findById_found "Event" Event_findById _ _ _ w Hfind).
  assert (Hguard : negb (String.eqb (event_createdBy event) (user_id req_user))
                   && negb (String.eqb (user_role req_user) "admin") = false).
  { destruct Hauth as [-> | ->]; rewrite String.eqb_refl;
      [reflexivity | apply andb_false_r]. }
  rewrite Hguard.
  rewrite (Promise_all_fulfilled _ w (destroy_all_fulfilled event Hi Hr)).
  rewrite db_write_run, Hhd. eexists. split; [reflexivity|].
  cbn [events registrations notifications users set_events pop_fault set_faults].
  rewrite Hid.
  split; [now apply (remove_first_unique event_id)|].
  split; [|repeat split].
  intros e He Hne. apply remove_first_keeps with event; try assumption.
  intros ->. contradiction.
Qed.

(** X10: when the storage refuses to release one of the attached files, the
    deletion is answered 500 and the event stays in the store. *)
Theorem deleteEvent_keeps_event_when_storage_fails (w : World)
  (req_user : User) (id : ObjectId) (event : Event) :
  Event_findById id (events w) = Some event ->
  event_createdBy event = user_id req_user \/ user_role req_user = "admin" ->
  (exists image, In image (event_images event) /\
                 destroy (image_publicId image) = false) \/
  (exists report, In report (event_reports event) /\
                  destroy (report_publicId report) = false) ->
  deleteEvent destroy req_user id w = (mkReply 500 (Message "Server error"), w).
Proof.
  intros Hfind Hauth Hfail.
  unfold deleteEvent. unfold_m.
  rewrite (findById_found "Event" Event_findById _ _ _ w Hfind).
  assert (Hguard : negb (String.eqb (event_createdBy event) (user_id req_user))
                   && negb (String.eqb (user_role req_user) "admin") = false).
  { destruct Hauth as [-> | ->]; rewrite String.eqb_refl;
      [reflexivity | apply andb_false_r]. }
  rewrite Hguard.
  match goal with
  | |- context [Promise_all ?ps w] =>
      assert (Hrej : existsb is_rejected ps = true)
  end.
  { rewrite existsb_app. apply orb_true_iff.
    destruct Hfail as [(image & Hin & Hd) | (report & Hin & Hd)]; [left|right];
      apply existsb_exists; eexists;
      (split; [apply in_map; exact Hin|]);
      unfold destroy_file; now rewrite Hd. }
  destruct (Promise_all_rejected _ w Hrej) as (e & _ & Hthrow).
  now rewrite Hthrow.
Qed.
End StorageFacts.

(* ------------------------------------------------------------------ *)
(** ** Users *)

Lemma User_findById_id (l : list User) (id : ObjectId) (u : User) :
  User_findById id l = Some u -> user_id u = id /\ In u l.
Proof.
  intros H. apply find_some in H. destruct H as [Hin H].
  split; [now apply String.eqb_eq | exact Hin].
Qed.

Lemma find_unique_key {A} (key : A -> string) (l : list A) (x : A) :
  NoDup (map key l) -> In x l ->
  find (fun y => String.eqb (key y) (key x)) l = Some x.
Proof.
  induction l as [|a l IH]; intros Hnd Hin; [destruct Hin|].
  cbn [map] in Hnd. inversion Hnd as [|k ks Hnotin Hnd']; subst.
  cbn [find]. destruct Hin as [->|Hin].
  - now rewrite String.eqb_refl.
  - destruct (String.eqb_spec (key a) (key x)) as [Heq|_].
    + exfalso. apply Hnotin. rewrite Heq. now apply in_map.
    + now apply IH.
Qed.

Lemma remove_first_gone {A} (key : A -> string) (l : list A) (x : A) :
  NoDup (map key l) ->
  ~ In x (remove_first (fun y => String.eqb (key y) (key x)) l).
Proof.
  intros Hnd Hin.
  pose proof (remove_first_unique key l (key x) Hnd) as Hnone.
  apply (proj1 (find_none_iff _ _)) with (x := x) in Hnone; [|exact Hin].
  cbn beta in Hnone. now rewrite String.eqb_refl in Hnone.
Qed.

(** X11: the route that deletes a user guards the requester by the text of
    the id.  Asked for the requester's id as it is rendered it answers 403
    and changes nothing, and asked for a text that is not cast to the
    requester's id it leaves the requester in the store; asked for another
    spelling of the requester's id, which the query casts to that id, it
    answers 200 and the requester is deleted. *)
Theorem deleteUser_guard_is_textual (w : World) (req_user : User)
  (id : string) :
  In req_user (users w) ->
  (id = user_id req_user ->
   deleteUser req_user id w
   = (mkReply 403 (Message "Admin cannot delete their own account"), w)) /\
  (cast_ObjectId id <> Some (user_id req_user) ->
   In req_user (users (snd (deleteUser req_user id w)))) /\
  (id <> user_id req_user ->
   cast_ObjectId id = Some (user_id req_user) ->
   NoDup (map user_id (users w)) ->
   (forall u, In u (users w) -> is_ObjectId (user_id u)) ->
   hd false (faults w) = false ->
   exists w1,
     deleteUser req_user id w = (mkReply 200 (Message "User deleted"), w1) /\
     ~ In req_user (users w1) /\
     User_findById (user_id req_user) (users w1) = None).
Proof.
  intros Hin. split; [|split].
  - intros ->. unfold deleteUser. unfold_m. now rewrite String.eqb_refl.
  - intros Hcast. unfold deleteUser. unfold_m.
    destruct (String.eqb_spec id (user_id req_user)) as [Heq|Hne];
      [exact Hin|].
    assert (Hstep : forall user,
              user_id user <> user_id req_user ->
              User_findById (user_id user) (users w) = Some user ->
              In req_user
                (remove_first (fun u => String.eqb (user_id u) (user_id user))
                              (users w))).
    { intros user Hother Hfind.
      apply remove_first_keeps with user; [exact Hfind | exact Hin|].
      intros ->. congruence. }
    destruct (User_findById id (users w)) as [user|] eqn:Hfind.
    + rewrite (findById_found "User" User_findById _ _ _ w Hfind).
      destruct (User_findById_id _ _ _ Hfind) as [Hid _].
      rewrite db_write_run. destruct (hd false (faults w)); [exact Hin|].
      cbn [snd users set_users pop_fault set_faults].
      apply Hstep; [congruence | now rewrite Hid].
    + destruct (cast_ObjectId id) as [id'|] eqn:Hc.
      * rewrite (findById_cast "User" User_findById _ id' _ w Hfind Hc).
        destruct (User_findById id' (users w)) as [user|] eqn:Hfind';
          [|exact Hin].
        destruct (User_findById_id _ _ _ Hfind') as [Hid _].
        rewrite db_write_run. destruct (hd false (faults w)); [exact Hin|].
        cbn [snd users set_users pop_fault set_faults].
        apply Hstep; [congruence | now rewrite Hid].
      * rewrite (findById_malformed "User" User_findById _ _ w Hfind Hc).
        exact Hin.
  - intros Hne Hcast Hnd Hids Hhd.
    assert (Hnone : User_findById id (users w) = None).
    { apply find_none_iff. intros u Hu. apply String.eqb_neq. intros Heq.
      pose proof (Hids u Hu) as Hr. unfold is_ObjectId in Hr.
      rewrite Heq in Hr. congruence. }
    pose proof (find_unique_key user_id (users w) req_user Hnd Hin) as Hfind.
    unfold deleteUser. unfold_m.
    apply String.eqb_neq in Hne. rewrite Hne.
    rewrite (findById_cast "User" User_findById _ _ _ w Hnone Hcast).
    unfold User_findById at 1. rewrite Hfind.
    rewrite db_write_run, Hhd. eexists. split; [reflexivity|].
    cbn [users set_users pop_fault set_faults].
    split; [now apply remove_first_gone|].
    now apply (remove_first_unique user_id).
Qed.


Lemma find_replace_user (l : list User) (id : ObjectId) (u u' : User) :
  User_findById id l = Some u -> user_id u' = user_id u ->
  User_findById id (replace_user u' l) = Some u'.
Proof.
  intros Hfind Hid. destruct (User_findById_id _ _ _ Hfind) as [Hu _].
  assert (Hid' : user_id u' = id) by congruence. clear Hid Hu.
  revert Hfind. unfold User_findById, replace_user. rewrite Hid'.
  induction l as [|a l IH]; simpl; [discriminate|].
  destruct (String.eqb_spec (user_id a) id) as [Ha|Ha].
  - intros _. now rewrite Hid', String.eqb_refl.
  - intros Hfind. destruct (String.eqb_spec (user_id a) id); [contradiction|].
    now apply IH.
Qed.

Lemma includes_In (l : list string) (x : string) :
  includes l x = true <-> In x l.
Proof.
  unfold includes. rewrite existsb_exists. split.
  - intros (y & Hy & Heq). apply String.eqb_eq in Heq. now subst.
  - intros H. exists x. split; [exact H | apply String.eqb_refl].
Qed.

(** X13: a role change that is answered 200 never leaves an
    [Official_member]: the stored role is [admin], [block_officer] or
    [public], the official role is cleared, and a district is kept, and is
    not empty, exactly for a [block_officer].  A request for the role
    [Official_member] is answered 400. *)
Theorem updateRole_never_makes_official (w w' : World) (id : ObjectId)
  (b : RoleBody) (answer : RoleAnswer) :
  updateRole id b w = ((200, answer), w') ->
  role_role b <> Some "Official_member" /\
  exists user,
    answer = RoleUser user /\
    User_findById id (users w') = Some user /\
    In (user_role user) assignable_roles /\
    user_officialRole user = None /\
    (user_role user = "block_officer" ->
       exists d, user_district user = Some d /\ d <> "") /\
    (user_role user <> "block_officer" -> user_district user = None).
Proof.
  unfold updateRole. unfold_m.
  destruct (errors_of (role_checks b)) as [|e es] eqn:Hv; cbn [is_nil negb];
    [|discriminate].
  pose proof (proj1 (errors_of_nil _) Hv) as Hok.
  assert (Hrole : In (text (role_role b)) assignable_roles).
  { apply includes_In.
    apply (Hok (mkCheck "role" "Invalid role"
                  (isIn assignable_roles (text (role_role b))))).
    now left. }
  assert (Hdistrict :
            (if String.eqb (text (role_role b)) "block_officer"
             then negb (isEmpty (text (role_district b))) else true) = true).
  { apply (Hok (mkCheck "district" "District is required for block officers" _)).
    right. now left. }
  assert (Hnot : text (role_role b) <> "Official_member").
  { intros Heq. rewrite Heq in Hrole. cbn in Hrole.
    destruct Hrole as [H|[H|[H|[]]]]; discriminate. }
  destruct (User_findById id (users w)) as [user|] eqn:Hfind; [|discriminate].
  rewrite db_write_run. destruct (hd false (faults w)); [discriminate|].
  intros H. injection H as <- <-.
  split; [intros Heq; apply Hnot; now rewrite Heq|].
  eexists. split; [reflexivity|].
  cbn [users set_users pop_fault set_faults user_role user_officialRole
       user_district].
  split; [apply find_replace_user with user; [exact Hfind | reflexivity]|].
  split; [exact Hrole|].
  apply String.eqb_neq in Hnot. rewrite Hnot.
  split; [reflexivity|].
  split.
  - intros Hb. rewrite Hb in *. cbn [String.eqb] in Hdistrict.
    rewrite String.eqb_refl in *.
    destruct (role_district b) as [d|]; [|discriminate].
    exists d. split; [reflexivity|]. intros ->. discriminate.
  - intros Hb. apply String.eqb_neq in Hb. now rewrite Hb.
Qed.

(* ------------------------------------------------------------------ *)
(** ** The socket registry *)

Lemma Map_get_set_same (k v : string) (m : Registry) :
  Map_get k (Map_set k v m) = Some v.
Proof.
  induction m as [|[k' v'] m IH]; cbn [Map_set Map_get].
  - now rewrite String.eqb_refl.
  - destruct (String.eqb_spec k' k) as [->|Hne]; cbn [Map_get].
    + now rewrite String.eqb_refl.
    + apply String.eqb_neq in Hne. now rewrite Hne.
Qed.

Lemma Map_get_set_other (k k0 v : string) (m : Registry) :
  k0 <> k -> Map_get k0 (Map_set k v m) = Map_get k0 m.
Proof.
  intros Hne. induction m as [|[k' v'] m IH]; cbn [Map_set Map_get].
  - destruct (String.eqb_spec k k0); [congruence | reflexivity].
  - destruct (String.eqb_spec k' k) as [->|Hk]; cbn [Map_get].
    + destruct (String.eqb_spec k k0); [congruence | reflexivity].
    + now rewrite IH.
Qed.

Lemma Map_set_keys (k v : string) (m : Registry) :
  map fst (Map_set k v m)
  = if includes (map fst m) k then map fst m else (map fst m ++ [k])%list.
Proof.
  unfold includes. induction m as [|[k' v'] m IH]; [reflexivity|].
  cbn [Map_set map fst existsb]. rewrite (String.eqb_sym k k').
  destruct (String.eqb_spec k' k) as [->|Hk]; cbn [orb map fst]; [reflexivity|].
  rewrite IH. now destruct (existsb (String.eqb k) (map fst m)).
Qed.

(** X14: after a socket authenticates with a token that verifies, the
    registry maps the token's user to that socket, maps every other user as
    before, and still holds each user at most once. *)
Theorem on_authenticate_registers (jwt_verify : string -> option string)
  (socket_id token userId : string) (m : Registry) :
  jwt_verify token = Some userId ->
  Map_get userId (on_authenticate jwt_verify socket_id token m) = Some socket_id /\
  (forall other, other <> userId ->
     Map_get other (on_authenticate jwt_verify socket_id token m)
     = Map_get other m) /\
  (NoDup (map fst m) ->
   NoDup (map fst (on_authenticate jwt_verify socket_id token m))).
Proof.
  intros Hv. unfold on_authenticate. rewrite Hv.
  split; [apply Map_get_set_same|].
  split; [intros other Hne; now apply Map_get_set_other|].
  intros Hnd. rewrite Map_set_keys.
  destruct (includes (map fst m) userId) eqn:Hin; [exact Hnd|].
  apply NoDup_app; [exact Hnd | constructor; [intros [] | constructor] |].
  intros x Hx [<-|[]].
  apply includes_In in Hx. congruence.
Qed.

Lemma Map_delete_at (before after : Registry) (k v : string) :
  ~ In k (map fst before) ->
  Map_delete k (before ++ (k, v) :: after)%list = (before ++ after)%list.
Proof.
  induction before as [|[k' v'] before IH]; intros Hk; cbn [app Map_delete].
  - now rewrite String.eqb_refl.
  - cbn [map fst] in Hk.
    destruct (String.eqb_spec k' k) as [->|_]; [exfalso; apply Hk; now left|].
    rewrite IH; [reflexivity|]. intros H. apply Hk. now right.
Qed.

Lemma disconnect_loop_at (before after : Registry) (k socket_id : string)
  (m : Registry) :
  ~ In socket_id (map snd before) ->
  disconnect_loop (before ++ (k, socket_id) :: after)%list socket_id m
  = Map_delete k m.
Proof.
  induction before as [|[k' v'] before IH]; intros Hs; cbn [app disconnect_loop].
  - now rewrite String.eqb_refl.
  - cbn [map snd] in Hs.
    destruct (String.eqb_spec v' socket_id) as [->|_];
      [exfalso; apply Hs; now left|].
    apply IH. intros H. apply Hs. now right.
Qed.

Lemma disconnect_loop_absent (entries : Registry) (socket_id : string)
  (m : Registry) :
  ~ In socket_id (map snd entries) -> disconnect_loop entries socket_id m = m.
Proof.
  induction entries as [|[k v] entries IH]; intros Hs; [reflexivity|].
  cbn [disconnect_loop]. cbn [map snd] in Hs.
  destruct (String.eqb_spec v socket_id) as [->|_];
    [exfalso; apply Hs; now left|].
  apply IH. intros H. apply Hs. now right.
Qed.

Lemma on_disconnect_run (socket_id : string) (m : Registry) :
  NoDup (map fst m) ->
  (forall before userId after,
     m = (before ++ (userId, socket_id) :: after)%list ->
     ~ In socket_id (map snd before) ->
     on_disconnect socket_id m = (before ++ after)%list) /\
  (~ In socket_id (map snd m) -> on_disconnect socket_id m = m).
Proof.
  intros Hnd. split.
  - intros before userId after -> Hs. unfold on_disconnect.
    rewrite disconnect_loop_at by exact Hs.
    apply Map_delete_at.
    rewrite map_app in Hnd. cbn [map fst] in Hnd.
    apply NoDup_remove_2 in Hnd. intros H. apply Hnd, in_or_app. now left.
  - intros Hs. unfold on_disconnect. now apply disconnect_loop_absent.
Qed.

(** X15: a disconnect deletes the first entry of the socket and nothing
    else: the entries before it and all the entries after it, among them any
    later entry of the same socket, stay; when the socket has no entry the
    registry is unchanged. *)
Theorem on_disconnect_removes_first_entry (socket_id : string) (m : Registry) :
  NoDup (map fst m) ->
  (forall before userId after,
     m = (before ++ (userId, socket_id) :: after)%list ->
     ~ In socket_id (map snd before) ->
     on_disconnect socket_id m = (before ++ after)%list) /\
  (~ In socket_id (map snd m) -> on_disconnect socket_id m = m).
Proof. apply on_disconnect_run. Qed.

(** X16: when every socket is registered for at most one user, a disconnect
    leaves no entry of the socket and keeps every entry of another socket. *)
Theorem on_disconnect_clears_socket (socket_id : string) (m : Registry) :
  NoDup (map fst m) -> NoDup (map snd m) ->
  ~ In socket_id (map snd (on_disconnect socket_id m)) /\
  (forall k v, v <> socket_id ->
     (In (k, v) (on_disconnect socket_id m) <-> In (k, v) m)).
Proof.
  intros Hk Hv.
  destruct (in_dec string_dec socket_id (map snd m)) as [Hin|Hout].
  - apply in_map_iff in Hin. destruct Hin as ([k0 v0] & Hsnd & Hin).
    cbn [snd] in Hsnd. subst v0.
    apply in_split in Hin. destruct Hin as (before & after & ->).
    rewrite map_app in Hv. cbn [map snd] in Hv.
    pose proof (NoDup_remove_2 _ _ _ Hv) as Hnot.
    assert (Hb : ~ In socket_id (map snd before))
      by (intros H; apply Hnot, in_or_app; now left).
    rewrite (proj1 (on_disconnect_run socket_id _ Hk)
               before k0 after eq_refl Hb).
    split.
    + now rewrite map_app.
    + intros k v Hne. rewrite !in_app_iff. cbn [In].
      split; [tauto|]. intros [H|[H|H]]; [tauto | | tauto].
      injection H as _ H. congruence.
  - rewrite (proj2 (on_disconnect_run socket_id _ Hk) Hout).
    split; [exact Hout | tauto].
Qed.

(* ------------------------------------------------------------------ *)
(** ** Routers *)

Lemma param_matches_what_literal_matches (l name s : string) :
  l <> "" -> segment_matches (Lit l) s = true ->
  segment_matches (Param name) s = true.
Proof.
  intros Hl H. cbn [segment_matches] in *. destruct s; [|reflexivity].
  apply String.eqb_eq in H. destruct l; [contradiction | discriminate].
Qed.

(** X17: in the router of events the route [/:id] is registered before
    [/districts], so no GET request reaches the handler of the districts: a
    request for [/districts] is handled as the event with id [districts].
    The route [/my-events], registered before [/:id], is reached. *)
Theorem events_router_districts_unreachable :
  (forall path, dispatch events_router GET path <> Some Districts) /\
  dispatch events_router GET ["districts"] = Some EventById /\
  dispatch events_router GET ["my-events"] = Some MyEvents.
Proof.
  split; [|split; reflexivity].
  intros path. unfold events_router. cbn [dispatch route_method route_path
    route_handler Method_eqb andb].
  destruct path as [|s [|s' path]]; cbn [path_matches andb];
    [discriminate | | rewrite !andb_false_r; discriminate].
  rewrite !andb_true_r.
  destruct (segment_matches (Lit "my-events") s); [discriminate|].
  destruct (segment_matches (Param "id") s) eqn:Hp; [discriminate|].
  destruct (segment_matches (Lit "districts") s) eqn:Hl; [|discriminate].
  rewrite (param_matches_what_literal_matches "districts" "id" s) in Hp;
    [discriminate | discriminate | exact Hl].
Qed.

(** X18: in the router of initiatives the route [/:id] is registered before
    [/debug], so no GET request reaches the debugging handler: a request for
    [/debug] is handled as the initiative with id [debug]. *)
Theorem initiatives_router_debug_unreachable :
  (forall path, dispatch initiatives_router GET path <> Some DebugInitiatives) /\
  dispatch initiatives_router GET ["debug"] = Some InitiativeById.
Proof.
  split; [|reflexivity].
  intros path. unfold initiatives_router. cbn [dispatch route_method route_path
    route_handler Method_eqb andb].
  destruct path as [|s [|s' path]]; cbn [path_matches andb];
    [discriminate | | rewrite !andb_false_r; discriminate].
  rewrite !andb_true_r.
  destruct (segment_matches (Param "id") s) eqn:Hp; [discriminate|].
  destruct (segment_matches (Lit "debug") s) eqn:Hl; [|discriminate].
  rewrite (param_matches_what_literal_matches "debug" "id" s) in Hp;
    [discriminate | discriminate | exact Hl].
Qed.

(* ------------------------------------------------------------------ *)
(** ** Uploaded files of an initiative *)

Lemma categorize_fold (files : list MulterFile) (b : Buckets) :
  let r := fold_left categorize_file files b in
  b_images r = (b_images b ++ map fileData_of (filter is_image files))%list /\
  b_videos r = (b_videos b ++ map fileData_of (filter is_video files))%list /\
  b_audio r = (b_audio b ++ map fileData_of (filter is_audio files))%list /\
  b_documents r
    = (b_documents b ++ map fileData_of (filter is_document files))%list.
Proof.
  revert b. induction files as [|file files IH]; intros b; cbn [fold_left filter].
  - cbn. now rewrite !app_nil_r.
  - destruct (IH (categorize_file b file)) as (Hi & Hv & Ha & Hd).
    cbv zeta. rewrite Hi, Hv, Ha, Hd. clear IH Hi Hv Ha Hd.
    unfold categorize_file, is_video, is_audio, is_document, is_image.
    fold (fileData_of file).
    destruct (startsWith (mf_mimetype file) "image/");
      [|destruct (startsWith (mf_mimetype file) "video/");
        [|destruct (startsWith (mf_mimetype file) "audio/")]];
      cbn [negb andb b_images b_videos b_audio b_documents map];
      rewrite <- ?app_assoc; repeat split; reflexivity.
Qed.

(** X19: the categorisation of uploaded files loses and duplicates nothing:
    each bucket holds, in upload order, exactly the files of its kind, and
    the sizes of the four buckets add up to the number of files. *)
Theorem categorize_partitions (files : list MulterFile) :
  b_images (categorize files) = map fileData_of (filter is_image files) /\
  b_videos (categorize files) = map fileData_of (filter is_video files) /\
  b_audio (categorize files) = map fileData_of (filter is_audio files) /\
  b_documents (categorize files) = map fileData_of (filter is_document files) /\
  length (b_images (categorize files)) + length (b_videos (categorize files))
  + length (b_audio (categorize files)) + length (b_documents (categorize files))
  = length files.
Proof.
  destruct (categorize_fold files (mkBuckets [] [] [] [])) as (Hi & Hv & Ha & Hd).
  cbn [b_images b_videos b_audio b_documents app] in *.
  unfold categorize. rewrite Hi, Hv, Ha, Hd.
  repeat split. rewrite !length_map.
  clear. induction files as [|file files IH]; [reflexivity|].
  cbn [filter length]. unfold is_video, is_audio, is_document, is_image in *.
  destruct (startsWith (mf_mimetype file) "image/");
    destruct (startsWith (mf_mimetype file) "video/");
    destruct (startsWith (mf_mimetype file) "audio/");
    cbn [negb andb length]; lia.
Qed.

(** X20: when every file passed the upload filter, the buckets hold only
    the types the filter lists for them: JPEG, PNG and GIF images, MP4
    videos, MPEG, WAV, OGG and AAC audio, and PDF and Word documents. *)
Theorem categorize_accepted_types (files : list MulterFile) :
  Forall (fun file => fileFilter file = true) files ->
  Forall (fun d => In (fd_mimetype d) ["image/jpeg"; "image/png"; "image/gif"])
         (b_images (categorize files)) /\
  Forall (fun d => fd_mimetype d = "video/mp4") (b_videos (categorize files)) /\
  Forall (fun d => In (fd_mimetype d)
                      ["audio/mpeg"; "audio/wav"; "audio/ogg"; "audio/aac"])
         (b_audio (categorize files)) /\
  Forall (fun d => In (fd_mimetype d)
            ["application/pdf"; "application/msword";
             "application/vnd.openxmlformats-officedocument.wordprocessingml.document"])
         (b_documents (categorize files)).
Proof.
  intros Hok.
  destruct (categorize_fold files (mkBuckets [] [] [] [])) as (Hi & Hv & Ha & Hd).
  cbn [b_images b_videos b_audio b_documents app] in *.
  unfold categorize. rewrite Hi, Hv, Ha, Hd. clear Hi Hv Ha Hd.
  assert (Hcase : forall file, In file files ->
            In (mf_mimetype file) allowedTypes).
  { intros file Hin. rewrite Forall_forall in Hok.
    apply includes_In. exact (Hok file Hin). }
  repeat split; apply Forall_forall; intros d Hd;
    apply in_map_iff in Hd; destruct Hd as (file & <- & Hf);
    apply filter_In in Hf; destruct Hf as [Hin Hkind];
    specialize (Hcase file Hin); cbn [fileData_of fd_mimetype];
    unfold is_video, is_audio, is_document, is_image, startsWith in Hkind;
    unfold allowedTypes in Hcase; cbn [In] in Hcase;
    repeat (destruct Hcase as [Hcase|Hcase];
            [rewrite <- Hcase in *; first [discriminate Hkind | cbn; tauto]|]);
    destruct Hcase.
Qed.

(* ------------------------------------------------------------------ *)
(** ** Failures in the middle of a handler *)

Lemma ltrim_white_space (c rest : string) :
  In c white_space -> ltrim (c ++ rest) = ltrim rest.
Proof.
  intros H. vm_compute in H.
  repeat (destruct H as [<-|H]; [reflexivity|]). destruct H.
Qed.

Lemma ltrim_blank (s : string) : blank s -> ltrim s = "".
Proof.
  intros (cs & Hcs & ->).
  induction Hcs as [|c cs Hc _ IH]; [reflexivity|].
  cbn [fold_right]. now rewrite (ltrim_white_space _ _ Hc).
Qed.

Lemma trim_blank (s : string) : blank s -> trim s = "".
Proof. intros H. unfold trim. now rewrite (ltrim_blank s H). Qed.

Section EventFailures.
Variable isISO8601 : string -> bool.

(** X21: when an upload is refused or the write of the event fails, the
    creation is answered 500 and neither an event nor a notification is
    stored. *)
Theorem createEvent_stores_nothing_on_failure (req_user : User) (b : EventBody)
  (images reports : list UploadFile) (w : World) :
  errors_of (event_checks isISO8601 b) = [] ->
  uploads_ok images && uploads_ok reports = false \/ hd false (faults w) = true ->
  status (fst (createEvent isISO8601 req_user b images reports w)) = ServerError /\
  events (snd (createEvent isISO8601 req_user b images reports w)) = events w /\
  notifications (snd (createEvent isISO8601 req_user b images reports w))
    = notifications w.
Proof.
  intros Hv Hfail.
  destruct (uploads_ok images && uploads_ok reports) eqn:Hup.
  - destruct Hfail as [Hfail|Hhd]; [discriminate|].
    apply andb_true_iff in Hup. destruct Hup as [Himg Hrep].
    assert (Hrun : exists resp w1,
               createEvent isISO8601 req_user b images reports w = (resp, w1) /\
               status resp = ServerError /\
               events w1 = events w /\ notifications w1 = notifications w).
    { unfold createEvent, try_catch. rewrite Hv. cbn [is_nil negb].
      unfold bind at 1. rewrite upload_images_run, Himg.
      unfold bind at 1. rewrite upload_reports_run, Hrep.
      unfold new_ObjectId. unfold_m. rewrite db_write_run.
      cbn [faults set_nextOid]. rewrite Hhd.
      eexists; eexists. split; [reflexivity|]. repeat split. }
    destruct Hrun as (resp & w1 & -> & Hst & He & Hn). now repeat split.
  - rewrite (createEvent_upload_refused isISO8601 req_user b images reports w
               Hv Hup).
    repeat split.
Qed.

(** X22: a title made of white space only, of whichever characters of the
    class [\s], is refused: the creation is answered 400, the error list
    names the title, and nothing is stored. *)
Theorem createEvent_rejects_blank_title (req_user : User) (b : EventBody)
  (images reports : list UploadFile) (w : World) :
  blank (eb_title b) ->
  exists errors,
    createEvent isISO8601 req_user b images reports w
      = (mkResponse ValidationError (JsonErrors errors), w) /\
    In (mkFieldError "title" "Title is required") errors.
Proof.
  intros Hblank.
  assert (Hin : In (mkFieldError "title" "Title is required")
                   (errors_of (event_checks isISO8601 b))).
  { apply (errors_of_lists (event_checks isISO8601 b)
             (mkCheck "title" "Title is required"
                (negb (isEmpty (trim (eb_title b)))))).
    - now left.
    - cbn [check_ok]. now rewrite (trim_blank _ Hblank). }
  exists (errors_of (event_checks isISO8601 b)). split; [|exact Hin].
  apply createEvent_invalid. intros Hnil. rewrite Hnil in Hin. destruct Hin.
Qed.
End EventFailures.

Lemma notify_shared_stops (event : Event) (k : nat) :
  forall (ids : list string) (w : World),
    k < length ids ->
    flags (S k) (faults w) = (repeat false k ++ [true])%list ->
    exists w1 ns,
      notify_shared event ids w = (Throw MongoError, w1) /\
      registrations w1 = registrations w /\
      notifications w1 = (notifications w ++ ns)%list /\
      map notif_recipient ns = firstn k (map canonical ids).
Proof.
  induction k as [|k IH]; intros ids w Hlen Hflags;
    destruct ids as [|userId ids]; cbn [length] in Hlen; try lia;
    cbn [notify_shared]; unfold bind at 1;
    (rewrite createNotification_run;
       [ | discriminate | discriminate | reflexivity ]);
    cbn [flags repeat app] in Hflags.
  - injection Hflags as Hhd. rewrite Hhd.
    exists (set_nextOid (S (nextOid w)) (pop_fault w)), [].
    cbn. rewrite app_nil_r. repeat split.
  - injection Hflags as Hhd Hrest. rewrite Hhd.
    match goal with
    | |- context [notify_shared event ids ?w0] =>
        destruct (IH ids w0) as (w1 & ns & Hrun & Hr & Hn & Hm);
          [lia | cbn; exact Hrest |]
    end.
    rewrite Hrun. eexists; eexists. split; [reflexivity|].
    split; [exact Hr|].
    split; [rewrite Hn; cbn [notifications set_notifications set_nextOid
                             pop_fault set_faults];
            rewrite <- app_assoc; reflexivity|].
    cbn [map app firstn notif_recipient]. now rewrite Hm.
Qed.

(** X23: when, after the registration is written, the first [k]
    notifications of a share are written and the next one fails, the share
    is answered 500, the [sharedWith] extended by the distinct ids of the
    body stays stored, and exactly the first [k] of the given users are
    notified. *)
Theorem share_stops_at_failed_notification (w : World) (owner : User)
  (registrationId : string) (registration : EventRegistration)
  (event : Event) (ids : list string) (k : nat) :
  EventRegistration_findById registrationId (registrations w) = Some registration ->
  Event_findById (reg_event registration) (events w) = Some event ->
  user_id owner = event_createdBy event ->
  Forall is_ObjectId ids ->
  k < length ids ->
  flags (S (S k)) (faults w) = (false :: repeat false k ++ [true])%list ->
  exists w1 ns,
    share owner registrationId (Some ids) w
      = (mkResponse ServerError (Text "Server Error"), w1) /\
    EventRegistration_findById registrationId (registrations w1)
      = Some (with_sharedWith (reg_sharedWith registration ++ new_Set ids)%list
                              registration) /\
    notifications w1 = (notifications w ++ ns)%list /\
    map notif_recipient ns = firstn k ids.
Proof.
  intros Hreg Hev Howner Hids Hk Hflags.
  cbn [flags] in Hflags. injection Hflags as Hhd Hrest.
  unfold share. unfold_m.
  rewrite (findById_found "EventRegistration" EventRegistration_findById
             _ _ _ w Hreg).
  rewrite Hev, Howner, String.eqb_refl.
  cbn [negb]. rewrite (cast_all_rendered _ (new_Set_Forall _ _ Hids)).
  rewrite db_write_run, Hhd.
  match goal with
  | |- context [notify_shared event ids ?w0] =>
      destruct (notify_shared_stops event k ids w0)
        as (w1 & ns & Hrun & Hr & Hn & Hm); [exact Hk | cbn; exact Hrest |]
  end.
  rewrite Hrun. exists w1, ns. split; [reflexivity|].
  split.
  { rewrite Hr. cbn [registrations set_registrations pop_fault set_faults].
    apply find_replace with registration; [exact Hreg | reflexivity]. }
  split; [rewrite Hn; reflexivity|].
  now rewrite Hm, map_canonical_rendered.
Qed.

(** X24: when the status is written and the write of the notification
    fails, the update is answered 500 and the new status stays stored, with
    no notification added. *)
Theorem updateStatus_keeps_status_when_notification_fails (w : World)
  (req_user : User) (registrationId : ObjectId) (newStatus : string)
  (registration : EventRegistration) (event : Event) :
  EventRegistration_findById registrationId (registrations w) = Some registration ->
  Event_findById (reg_event registration) (events w) = Some event ->
  event_createdBy event = user_id req_user ->
  hd false (faults w) = false ->
  hd false (tl (faults w)) = true ->
  exists w1,
    updateStatus req_user registrationId newStatus w
      = (mkResponse ServerError (Text "Server Error"), w1) /\
    EventRegistration_findById registrationId (registrations w1)
      = Some (with_status newStatus registration) /\
    notifications w1 = notifications w.
Proof.
  intros Hreg Hev Hc Hhd Hnext.
  unfold updateStatus. unfold_m.
  rewrite (findById_found "EventRegistration" EventRegistration_findById
             _ _ _ w Hreg).
  rewrite Hev, Hc, String.eqb_refl.
  cbn [negb]. rewrite db_write_run, Hhd.
  rewrite createNotification_run;
    [ | discriminate | discriminate | reflexivity ].
  cbn [faults set_registrations pop_fault set_faults set_nextOid].
  rewrite Hnext. eexists. split; [reflexivity|].
  cbn [registrations notifications].
  split; [|reflexivity].
  apply find_replace with registration; [exact Hreg | reflexivity].
Qed.

(** X25: when the write of the registration fails, a valid registration for
    an existing event is answered 500 and nothing is stored: no
    registration and no notification. *)
Theorem register_stores_nothing_when_write_fails (isEmail : string -> bool)
  (w : World) (b : RegistrationBody) (event : Event) :
  validationResult isEmail b = [] ->
  Event_findById (rb_event b) (events w) = Some event ->
  hd false (faults w) = true ->
  exists w1,
    register isEmail b w = (mkResponse ServerError (Text "Server Error"), w1) /\
    registrations w1 = registrations w /\
    notifications w1 = notifications w.
Proof.
  intros Hvalid Hevent Hhd.
  destruct (registration_age_parses isEmail b Hvalid) as (age & Hage).
  unfold register. rewrite Hvalid. cbn [is_nil negb].
  unfold new_EventRegistration, new_ObjectId. unfold_m.
  rewrite (findById_found "Event" Event_findById _ _ _ w Hevent).
  rewrite Hage, db_write_run.
  cbn [faults set_nextOid]. rewrite Hhd.
  eexists. split; [reflexivity|]. split; reflexivity.
Qed.

(** X28: when its write succeeds, the route that marks everything read
    answers 200 and the route of the unread count then answers 0; when the
    write fails it answers 500 and the unread count is what it was. *)
Theorem route_markAllRead_then_unreadCount (w : World) (req_user : User) :
  exists reply w1,
    route_markAllRead req_user w = (reply, w1) /\
    if hd false (faults w)
    then reply = mkReply 500 (Message "Error marking all notifications as read") /\
         route_unreadCount req_user w1
         = (mkReply 200 (Json (unread_count (user_id req_user) w)), w1)
    else reply = mkReply 200 (Message "All notifications marked as read") /\
         route_unreadCount req_user w1 = (mkReply 200 (Json 0), w1).
Proof.
  unfold route_markAllRead, markAllAsRead, try_catch, bind.
  rewrite db_write_run. destruct (hd false (faults w)).
  - eexists; eexists. split; [reflexivity|]. split; reflexivity.
  - eexists; eexists. split; [reflexivity|]. split; [reflexivity|].
    unfold route_unreadCount, try_catch, bind. rewrite getUnreadCount_run.
    unfold ret, unread_count.
    cbn [notifications set_notifications pop_fault set_faults].
    now rewrite marked_no_unread.
Qed.

(* ------------------------------------------------------------------ *)
(** ** The further properties at the sample data *)

(** Alice has three notifications: with pages of two, page 3 is empty. *)
Lemma getUserNotifications_pages_cover_witness :
  (1 <= 3)%Z /\ (1 <= 2)%Z /\
  exists p, getUserNotifications "u1" 3 2 world0 = (Ok p, world0) /\
            page_notifications p = [].
Proof.
  split; [lia|]. split; [lia|].
  destruct (getUserNotifications_pages_cover world0 "u1" 3 2
              ltac:(lia) ltac:(lia))
    as (p & tp & Hrun & Htp & Hempty & _).
  exists p. split; [exact Hrun|].
  apply Hempty.
  rewrite getUserNotifications_run in Hrun by lia.
  injection Hrun as <-. cbn in Htp. injection Htp as <-. lia.
Defined.

(** A notification for Bob, created in the sample world. *)
Lemma createNotification_heads_first_page_witness :
  "Hello" <> "" /\ includes notification_types "info" = true /\
  hd false (faults world0) = false /\ (1 <= 5)%Z /\
  exists n w1 p,
    createNotification "u2" "Hello" "Hello" "info" None world0 = (Ok n, w1) /\
    getUserNotifications "u2" 1 5 w1 = (Ok p, w1) /\
    hd_error (page_notifications p) = Some n.
Proof.
  assert (Hne : "Hello" <> "") by discriminate.
  split; [exact Hne|]. split; [reflexivity|]. split; [reflexivity|].
  split; [lia|].
  apply (createNotification_heads_first_page world0 "u2" "Hello" "Hello" "info"
           None 5 Hne Hne eq_refl eq_refl).
  - repeat constructor; cbn; intros _; lia.
  - lia.
Defined.

Lemma createNotification_raises_unread_witness :
  "Hello" <> "" /\ includes notification_types "info" = true /\
  hd false (faults world0) = false /\
  exists n w1,
    createNotification "u2" "Hello" "Hello" "info" None world0 = (Ok n, w1) /\
    getUnreadCount "u2" w1 = (Ok 2, w1).
Proof.
  assert (Hne : "Hello" <> "") by discriminate.
  split; [exact Hne|]. split; [reflexivity|]. split; [reflexivity|].
  destruct (createNotification_raises_unread world0 "u2" "Hello" "Hello" "info"
              None Hne Hne eq_refl eq_refl)
    as (n & w1 & Hrun & _ & Hcount & _).
  exists n, w1. split; [exact Hrun | exact Hcount].
Defined.

Lemma createNotification_refuses_invalid_witness :
  includes notification_types "urgent" = false /\
  exists path w1,
    createNotification "u2" "Hello" "Hello" "urgent" None world0
      = (Throw (ValidatorError path), w1) /\
    notifications w1 = notifications world0.
Proof.
  split; [reflexivity|].
  destruct (createNotification_refuses_invalid world0 "u2" "Hello" "Hello"
              "urgent" None (or_intror (or_intror eq_refl)))
    as (path & w1 & Hrun & Hn & _).
  exists path, w1. split; assumption.
Defined.

Lemma foreign_nid1 :
  forall n, In n (notifications world2) ->
            notif_id n = nid1 \/ notif_id n = nid1 ->
            notif_recipient n <> user_id erin.
Proof.
  intros n Hin _. cbn in Hin.
  destruct Hin as [<-|[]]; cbn; discriminate.
Defined.

(** Erin asks to mark Frank's notification as read. *)
Lemma markAsRead_hides_foreign_witness :
  cast_ObjectId nid1 = Some nid1 /\
  (forall n, In n (notifications world2) ->
             notif_id n = nid1 \/ notif_id n = nid1 ->
             notif_recipient n <> user_id erin) /\
  markAsRead nid1 (user_id erin) world2
  = (Throw (PlainError "Notification not found"), world2).
Proof.
  split; [reflexivity|]. split; [exact foreign_nid1|].
  exact (markAsRead_hides_foreign world2 nid1 (user_id erin) nid1 eq_refl
           foreign_nid1).
Defined.

Lemma foreign_n1 :
  forall n, In n (notifications world0) ->
            notif_id n = "n1" \/ cast_ObjectId "n1" = Some (notif_id n) ->
            notif_recipient n <> user_id bob.
Proof.
  intros n Hin [Hid|Hid]; [|discriminate]. cbn in Hin.
  destruct Hin as [<-|[<-|[<-|[<-|[]]]]]; cbn in *; discriminate.
Defined.

(** Bob asks to mark Alice's notification as read. *)
Lemma route_markAsRead_foreign_witness :
  (forall n, In n (notifications world0) ->
             notif_id n = "n1" \/ cast_ObjectId "n1" = Some (notif_id n) ->
             notif_recipient n <> user_id bob) /\
  route_markAsRead bob "n1" world0
  = (mkReply 500 (Message "Error marking notification as read"), world0).
Proof.
  split; [exact foreign_n1|].
  exact (route_markAsRead_foreign world0 bob "n1" foreign_n1).
Defined.

(** Frank asks to mark his own notification as read and writes its id in
    upper case: no stored notification has that text as its id, the query
    casts it, and the notification is marked. *)
Lemma route_markAsRead_other_spelling :
  (forall n, In n (notifications world2) -> notif_id n <> nid1_upper) /\
  cast_ObjectId nid1_upper = Some nid1 /\
  fst (route_markAsRead frank nid1_upper world2)
  = mkReply 200 (Json (mark_read (note nid1 uid2 false 5))).
Proof.
  split; [intros n [<-|[]]; discriminate|].
  split; reflexivity.
Qed.

Lemma sample_notification_ids : NoDup (map notif_id (notifications world0)).
Proof.
  cbn. repeat constructor; cbn; intuition discriminate.
Defined.

(** Alice marks her unread notification [n1] as read. *)
Lemma markAsRead_lowers_unread_witness :
  NoDup (map notif_id (notifications world0)) /\
  In (note "n1" "u1" false 5) (notifications world0) /\
  hd false (faults world0) = false /\
  exists w1,
    markAsRead "n1" "u1" world0 = (Ok (mark_read (note "n1" "u1" false 5)), w1) /\
    unread_count "u1" w1 + 1 = unread_count "u1" world0.
Proof.
  assert (Hin : In (note "n1" "u1" false 5) (notifications world0))
    by (now left).
  split; [exact sample_notification_ids|]. split; [exact Hin|].
  split; [reflexivity|].
  destruct (markAsRead_lowers_unread world0 (note "n1" "u1" false 5)
              sample_notification_ids Hin eq_refl)
    as (w1 & Hrun & _ & Hcount & _).
  exists w1. split; [exact Hrun | exact Hcount].
Defined.

Lemma sample_event_ids : NoDup (map event_id (events world1)).
Proof. cbn. repeat constructor; cbn; intuition discriminate. Defined.

Lemma gallery_released :
  (forall image, In image (event_images gallery) ->
                 cloud_up (image_publicId image) = true) /\
  (forall report, In report (event_reports gallery) ->
                  cloud_up (report_publicId report) = true).
Proof. split; intros; reflexivity. Defined.

(** Bob deletes the gallery he created; its registration stays. *)
Lemma deleteEvent_removes_only_the_event_witness :
  NoDup (map event_id (events world1)) /\
  Event_findById "e2" (events world1) = Some gallery /\
  event_createdBy gallery = user_id bob /\
  hd false (faults world1) = false /\
  exists w1,
    deleteEvent cloud_up bob "e2" world1
      = (mkReply 200 (Message "Event deleted"), w1) /\
    Event_findById "e2" (events w1) = None /\
    registrations w1 = registrations world1.
Proof.
  split; [exact sample_event_ids|]. split; [reflexivity|].
  split; [reflexivity|]. split; [reflexivity|].
  destruct (deleteEvent_removes_only_the_event cloud_up world1 bob "e2" gallery
              sample_event_ids eq_refl (or_introl eq_refl)
              (proj1 gallery_released) (proj2 gallery_released) eq_refl)
    as (w1 & Hrun & Hgone & _ & Hregs & _).
  exists w1. repeat split; assumption.
Defined.

Lemma deleteEvent_keeps_event_when_storage_fails_witness :
  Event_findById "e2" (events world1) = Some gallery /\
  event_createdBy gallery = user_id bob /\
  (exists image, In image (event_images gallery) /\
                 cloud_down (image_publicId image) = false) /\
  deleteEvent cloud_down bob "e2" world1
  = (mkReply 500 (Message "Server error"), world1).
Proof.
  assert (Hfail : exists image, In image (event_images gallery) /\
                                cloud_down (image_publicId image) = false).
  { eexists. split; [left; reflexivity | reflexivity]. }
  split; [reflexivity|]. split; [reflexivity|]. split; [exact Hfail|].
  exact (deleteEvent_keeps_event_when_storage_fails cloud_down world1 bob "e2"
           gallery eq_refl (or_introl eq_refl) (or_introl Hfail)).
Defined.

Lemma sample_user_ids : NoDup (map user_id (users world2)).
Proof. cbn. repeat constructor; cbn; intuition discriminate. Defined.

Lemma sample_users_rendered :
  forall u, In u (users world2) -> is_ObjectId (user_id u).
Proof. intros u [<-|[<-|[]]]; reflexivity. Defined.

(** Erin, an admin, asks to delete the user of her own id: as the id is
    rendered she is refused, and in upper case she is deleted. *)
Lemma deleteUser_guard_is_textual_witness :
  In erin (users world2) /\
  deleteUser erin uid3 world2
    = (mkReply 403 (Message "Admin cannot delete their own account"), world2) /\
  uid3_upper <> user_id erin /\
  cast_ObjectId uid3_upper = Some (user_id erin) /\
  exists w1,
    deleteUser erin uid3_upper world2
      = (mkReply 200 (Message "User deleted"), w1) /\
    ~ In erin (users w1).
Proof.
  assert (Hin : In erin (users world2)) by (right; now left).
  assert (Hne : uid3_upper <> user_id erin) by discriminate.
  split; [exact Hin|].
  split; [exact (proj1 (deleteUser_guard_is_textual world2 erin uid3 Hin)
                   eq_refl)|].
  split; [exact Hne|]. split; [reflexivity|].
  destruct (proj2 (proj2 (deleteUser_guard_is_textual world2 erin uid3_upper
                            Hin))
              Hne eq_refl sample_user_ids sample_users_rendered eq_refl)
    as (w1 & Hrun & Hgone & _).
  exists w1. split; assumption.
Defined.


(** Carol, an official, is made a block officer of Sangli. *)
Lemma updateRole_never_makes_official_witness :
  let out := updateRole "u3" (mkRoleBody (Some "block_officer") (Some "Sangli")
                                         (Some "Clerk")) world1 in
  out = ((200, snd (fst out)), snd out) /\
  exists user,
    User_findById "u3" (users (snd out)) = Some user /\
    user_role user = "block_officer" /\
    user_officialRole user = None.
Proof.
  cbv zeta.
  set (b := mkRoleBody (Some "block_officer") (Some "Sangli") (Some "Clerk")).
  assert (Hrun : updateRole "u3" b world1
                 = ((200, snd (fst (updateRole "u3" b world1))),
                    snd (updateRole "u3" b world1))) by reflexivity.
  split; [exact Hrun|].
  destruct (updateRole_never_makes_official world1 _ "u3" b _ Hrun)
    as (_ & user & Hanswer & Hfind & _ & Hoff & _).
  exists user. split; [exact Hfind|]. split; [|exact Hoff].
  unfold b in Hanswer. cbn in Hanswer. injection Hanswer as <-. reflexivity.
Defined.

Lemma on_authenticate_registers_witness :
  sample_verify "token-u2" = Some "u2" /\
  Map_get "u2" (on_authenticate sample_verify "s9" "token-u2" sample_registry)
    = Some "s9" /\
  Map_get "u1" (on_authenticate sample_verify "s9" "token-u2" sample_registry)
    = Some "s1".
Proof.
  split; [reflexivity|].
  destruct (on_authenticate_registers sample_verify "s9" "token-u2" "u2"
              sample_registry eq_refl) as (Hsame & Hother & _).
  split; [exact Hsame|].
  rewrite Hother by discriminate. reflexivity.
Defined.

Lemma sample_registry_keys : NoDup (map fst sample_registry).
Proof. cbn. repeat constructor; cbn; intuition discriminate. Defined.

Lemma sample_registry_sockets : NoDup (map snd sample_registry).
Proof. cbn. repeat constructor; cbn; intuition discriminate. Defined.

Lemma on_disconnect_removes_first_entry_witness :
  NoDup (map fst sample_registry) /\
  on_disconnect "s2" sample_registry = [("u1", "s1"); ("u3", "s3")].
Proof.
  split; [exact sample_registry_keys|].
  apply (proj1 (on_disconnect_removes_first_entry "s2" sample_registry
                  sample_registry_keys) [("u1", "s1")] "u2" [("u3", "s3")]).
  - reflexivity.
  - cbn. intuition discriminate.
Defined.

Lemma on_disconnect_clears_socket_witness :
  NoDup (map fst sample_registry) /\ NoDup (map snd sample_registry) /\
  ~ In "s2" (map snd (on_disconnect "s2" sample_registry)).
Proof.
  split; [exact sample_registry_keys|]. split; [exact sample_registry_sockets|].
  exact (proj1 (on_disconnect_clears_socket "s2" sample_registry
                  sample_registry_keys sample_registry_sockets)).
Defined.

Lemma categorize_accepted_types_witness :
  Forall (fun file => fileFilter file = true) sample_files /\
  Forall (fun d => fd_mimetype d = "video/mp4")
         (b_videos (categorize sample_files)) /\
  length (b_documents (categorize sample_files)) = 1.
Proof.
  assert (Hok : Forall (fun file => fileFilter file = true) sample_files)
    by (repeat constructor).
  split; [exact Hok|].
  split; [exact (proj1 (proj2 (categorize_accepted_types sample_files Hok)))|].
  reflexivity.
Defined.

Lemma createEvent_stores_nothing_on_failure_witness :
  errors_of (event_checks date_shaped fair) = [] /\
  hd false (faults world_first_write_fails) = true /\
  events (snd (createEvent date_shaped alice fair [] [] world_first_write_fails))
  = events world_first_write_fails.
Proof.
  split; [reflexivity|]. split; [reflexivity|].
  exact (proj1 (proj2 (createEvent_stores_nothing_on_failure date_shaped alice
                         fair [] [] world_first_write_fails eq_refl
                         (or_intror eq_refl)))).
Defined.

Lemma blank_fair_title : blank (eb_title blank_fair).
Proof.
  exists [" "; utf8 [194; 160]; utf8 [227; 128; 128]].
  split; [|reflexivity].
  apply Forall_cons; [cbv; do 5 right; left; reflexivity|].
  apply Forall_cons; [cbv; do 6 right; left; reflexivity|].
  apply Forall_cons; [cbv; do 23 right; left; reflexivity|].
  apply Forall_nil.
Defined.

Lemma createEvent_rejects_blank_title_witness :
  blank (eb_title blank_fair) /\
  exists errors,
    createEvent date_shaped alice blank_fair [] [] world0
      = (mkResponse ValidationError (JsonErrors errors), world0).
Proof.
  split; [exact blank_fair_title|].
  destruct (createEvent_rejects_blank_title date_shaped alice blank_fair [] []
              world0 blank_fair_title) as (errors & Hrun & _).
  exists errors. exact Hrun.
Defined.

(** Alice shares with three users; the write for the second fails. *)
Lemma share_stops_at_failed_notification_witness :
  EventRegistration_findById "r1" (registrations world0) = Some ravi_reg /\
  Forall is_ObjectId [uid1; uid2; uid3] /\
  1 < length [uid1; uid2; uid3] /\
  flags 3 (faults (set_faults [false; false; true] world0))
    = [false; false; true] /\
  exists w1 ns,
    share alice "r1" (Some [uid1; uid2; uid3])
          (set_faults [false; false; true] world0)
      = (mkResponse ServerError (Text "Server Error"), w1) /\
    notifications w1 = (notifications world0 ++ ns)%list /\
    map notif_recipient ns = [uid1].
Proof.
  assert (Hids : Forall is_ObjectId [uid1; uid2; uid3])
    by (repeat constructor).
  split; [reflexivity|]. split; [exact Hids|]. split; [cbn; lia|].
  split; [reflexivity|].
  destruct (share_stops_at_failed_notification
              (set_faults [false; false; true] world0) alice "r1" ravi_reg camp
              [uid1; uid2; uid3] 1 eq_refl eq_refl eq_refl Hids
              ltac:(cbn; lia) eq_refl)
    as (w1 & ns & Hrun & _ & Hn & Hm).
  exists w1, ns. repeat split; assumption.
Defined.

Lemma updateStatus_keeps_status_when_notification_fails_witness :
  EventRegistration_findById "r1" (registrations world_second_write_fails)
    = Some ravi_reg /\
  hd false (faults world_second_write_fails) = false /\
  hd false (tl (faults world_second_write_fails)) = true /\
  exists w1,
    updateStatus alice "r1" "approved" world_second_write_fails
      = (mkResponse ServerError (Text "Server Error"), w1) /\
    EventRegistration_findById "r1" (registrations w1)
      = Some (with_status "approved" ravi_reg).
Proof.
  split; [reflexivity|]. split; [reflexivity|]. split; [reflexivity|].
  destruct (updateStatus_keeps_status_when_notification_fails
              world_second_write_fails alice "r1" "approved" ravi_reg camp
              eq_refl eq_refl eq_refl eq_refl eq_refl)
    as (w1 & Hrun & Hfind & _).
  exists w1. split; assumption.
Defined.

Lemma register_stores_nothing_when_write_fails_witness :
  validationResult has_at ravi = [] /\
  Event_findById (rb_event ravi) (events world_first_write_fails) = Some camp /\
  hd false (faults world_first_write_fails) = true /\
  exists w1,
    register has_at ravi world_first_write_fails
      = (mkResponse ServerError (Text "Server Error"), w1) /\
    registrations w1 = registrations world_first_write_fails.
Proof.
  split; [reflexivity|]. split; [reflexivity|]. split; [reflexivity|].
  destruct (register_stores_nothing_when_write_fails has_at
              world_first_write_fails ravi camp eq_refl eq_refl eq_refl)
    as (w1 & Hrun & Hregs & _).
  exists w1. split; assumption.
Defined.

(** Alice lists the registrations of her health camp; Bob may not. *)
Lemma listForEvent_creator_witness :
  Event_findById "e1" (events world0) = Some camp /\
  event_createdBy camp = user_id alice /\
  exists rs,
    listForEvent alice "e1" world0 = (mkResponse 200 (JsonRegistrations rs), world0) /\
    StronglySorted (desc reg_createdAt) rs.
Proof.
  split; [reflexivity|]. split; [reflexivity|].
  destruct (listForEvent_creator world0 alice "e1" camp eq_refl eq_refl)
    as (rs & Hrun & _ & Hsorted).
  exists rs. split; assumption.
Defined.

Lemma listForEvent_not_creator_witness :
  Event_findById "e1" (events world0) = Some camp /\
  event_createdBy camp <> user_id carol /\
  listForEvent carol "e1" world0
  = (mkResponse ServerError (Text "Server Error"), world0).
Proof.
  assert (Hne : event_createdBy camp <> user_id carol) by discriminate.
  split; [reflexivity|]. split; [exact Hne|].
  exact (listForEvent_not_creator world0 carol "e1" camp eq_refl Hne).
Defined.
